(** * XC_Template: CSV parsing and record normalisation

    A shallow embedding of the parsing core of the four scripts

      - [home_builder.py]                 (module [HomeBuilder])
      - [meets/meet_builder.py]           (module [MeetBuilder])
      - [meets/csv_to_race_page_html.py]  (module [RacePage])
      - [mens_team/athlete_builder.py]    (module [AthleteBuilder])

    Conventions of the embedding.

    - A Python [str] is a [string]; its characters are the 8-bit [ascii]
      characters, and [str.isdigit], [str.isspace], [str.lower] and the
      [re.IGNORECASE] flag are given on the ASCII range: a character above
      127 is neither a digit nor white space and has no case.
    - A Python [int] is a [Z]; [int(s)] on a digit string is the decimal
      value, with no bound on the number of digits.
    - A Python [float] is an IEEE-754 binary64 value, a [spec_float] of the
      standard library with [prec = 53] and [emax = 1024]; conversions and
      additions round to nearest, ties to even.
    - A function of Python's library that the scripts call and whose table
      or automaton is not part of the repository ([html.unescape],
      [html.escape], [csv.reader]) is a parameter of the definitions that
      call it.
    - An exception that leaves the modelled function is a value of [exn];
      a function that can raise returns [result A = exn + A].
    - A page is the values that go into its template, in the variables of
      the script, without the markup around them; a dictionary whose order
      matters is the list of its items in the order the keys came in.
    - The files of a folder are a list of names with their lines or rows,
      in the order [os.listdir] gives them. *)

From Stdlib Require Import ZArith Bool Lia Ascii.
From Stdlib Require Import Floats.SpecFloat.
From stdpp Require Import base option list sorting strings gmap.

Local Open Scope Z_scope.

(** ** Python built-ins used by the scripts *)

Module Py.

Inductive exn : Type :=
| ValueError
| OverflowError
| IndexError.

Definition result (A : Type) : Type := sum exn A.

Definition ret {A : Type} (a : A) : result A := inr a.
Definition raise {A : Type} (e : exn) : result A := inl e.
Definition default_or {A : Type} (o : option A) (d : A) : A :=
  match o with
  | Some a => a
  | None => d
  end.

Definition bind {A B : Type} (m : result A) (k : A → result B) : result B :=
  match m with
  | inl e => inl e
  | inr a => k a
  end.

(** *** characters *)

Definition code (c : ascii) : N := Ascii.N_of_ascii c.

Definition chr_isdigit (c : ascii) : bool :=
  ((48 <=? code c) && (code c <=? 57))%N.

(** [str.isspace] on one character: TAB, LF, VT, FF, CR, the four
    separators FS, GS, RS, US, and the space. *)
Definition chr_isspace (c : ascii) : bool :=
  (((9 <=? code c) && (code c <=? 13))
   || ((28 <=? code c) && (code c <=? 32)))%N.

Definition chr_isupper (c : ascii) : bool :=
  ((65 <=? code c) && (code c <=? 90))%N.

Definition chr_lower (c : ascii) : ascii :=
  if chr_isupper c then Ascii.ascii_of_N (code c + 32) else c.

Definition chr_eqb (a b : ascii) : bool := Ascii.eqb a b.

(** *** strings *)

Fixpoint all_chars (p : ascii → bool) (s : string) : bool :=
  match s with
  | EmptyString => true
  | String c r => p c && all_chars p r
  end.

(** Truth value of a string: [bool(s)], false for the empty string. *)
Definition truthy (s : string) : bool :=
  match s with
  | EmptyString => false
  | String _ _ => true
  end.

(** [s.isdigit()]: at least one character, all of them digits. *)
Definition isdigit (s : string) : bool := truthy s && all_chars chr_isdigit s.

Fixpoint lstrip_by (p : ascii → bool) (s : string) : string :=
  match s with
  | EmptyString => EmptyString
  | String c r => if p c then lstrip_by p r else s
  end.

Fixpoint rstrip_by (p : ascii → bool) (s : string) : string :=
  match s with
  | EmptyString => EmptyString
  | String c r =>
      match rstrip_by p r with
      | EmptyString => if p c then EmptyString else String c EmptyString
      | String _ _ as r' => String c r'
      end
  end.

(** [s.strip()] *)
Definition strip (s : string) : string :=
  rstrip_by chr_isspace (lstrip_by chr_isspace s).

(** [s.rstrip(".")] *)
Definition rstrip_dot (s : string) : string :=
  rstrip_by (chr_eqb "."%char) s.

Fixpoint lower (s : string) : string :=
  match s with
  | EmptyString => EmptyString
  | String c r => String (chr_lower c) (lower r)
  end.

Fixpoint filter_chars (p : ascii → bool) (s : string) : string :=
  match s with
  | EmptyString => EmptyString
  | String c r => if p c then String c (filter_chars p r) else filter_chars p r
  end.

Fixpoint startswith (p s : string) : bool :=
  match p, s with
  | EmptyString, _ => true
  | String a p', String b s' => chr_eqb a b && startswith p' s'
  | String _ _, EmptyString => false
  end.

(** [needle in s] *)
Fixpoint contains (needle s : string) : bool :=
  startswith needle s
  || match s with
     | EmptyString => false
     | String _ r => contains needle r
     end.

(** [sep.join(parts)] *)
Fixpoint join (sep : string) (parts : list string) : string :=
  match parts with
  | [] => EmptyString
  | [p] => p
  | p :: ps => p +:+ sep +:+ join sep ps
  end.

(** [s.split(sep)] for a one-character separator: the fields between the
    occurrences of [sep], always at least one field. *)
Fixpoint split_on (sep : ascii) (s : string) : list string :=
  match s with
  | EmptyString => [EmptyString]
  | String c r =>
      if chr_eqb c sep then EmptyString :: split_on sep r
      else match split_on sep r with
           | [] => [String c EmptyString]
           | f :: fs => String c f :: fs
           end
  end.

(** *** integers *)

Definition digit_value (c : ascii) : Z := Z.of_N (code c) - 48.

Fixpoint int_acc (acc : Z) (s : string) : Z :=
  match s with
  | EmptyString => acc
  | String c r => int_acc (10 * acc + digit_value c) r
  end.

(** [int(s)] for a string [s] with [s.isdigit()]. *)
Definition int_of_digits (s : string) : Z := int_acc 0 s.

(** [int(s)] for a string of digits and periods: the decimal value when
    [s] is a non-empty digit string, [ValueError] otherwise. *)
Definition int (s : string) : result Z :=
  if isdigit s then ret (int_of_digits s) else raise ValueError.

Definition digit_char (d : Z) : ascii := Ascii.ascii_of_N (Z.to_N (48 + d)).

Fixpoint str_pos_acc (fuel : nat) (n : Z) (acc : string) : string :=
  match fuel with
  | O => acc
  | S fuel' =>
      let acc' := String (digit_char (n mod 10)) acc in
      if n <? 10 then acc' else str_pos_acc fuel' (n / 10) acc'
  end.

(** [str(n)], and [n] inside an f-string, for [0 <= n]: the decimal
    digits without leading zeros.  The number of digits of [n] is at most
    its number of bits, which is the fuel. *)
Definition str_of_int (n : Z) : string :=
  str_pos_acc (S (Z.to_nat (Z.log2 n))) n EmptyString.

(** *** regular expressions *)

(** [re.sub(pattern, repl, s)] for a pattern that never matches the empty
    string.  [matcher s] is the length of the match of the pattern at the
    head of [s], if there is one; the scan replaces the leftmost match,
    resumes behind it, and copies every character no match covers.
    [skip] counts the characters of the current match still to drop. *)
Fixpoint re_sub_go (matcher : string → option nat) (repl : string)
    (skip : nat) (s : string) : string :=
  match s with
  | EmptyString => EmptyString
  | String c r =>
      match skip with
      | S k => re_sub_go matcher repl k r
      | O =>
          match matcher s with
          | Some (S k) => repl +:+ re_sub_go matcher repl k r
          | _ => String c (re_sub_go matcher repl 0 r)
          end
      end
  end.

Definition re_sub (matcher : string → option nat) (repl s : string) : string :=
  re_sub_go matcher repl 0 s.

(** *** white space *)

(** [s.split()]: the maximal runs of characters that are not white space.
    [cur] is the run being read, if one has begun. *)
Fixpoint split_ws_go (cur : option string) (s : string) : list string :=
  match s with
  | EmptyString =>
      match cur with
      | Some w => [String.rev w]
      | None => []
      end
  | String c r =>
      if chr_isspace c then
        match cur with
        | Some w => String.rev w :: split_ws_go None r
        | None => split_ws_go None r
        end
      else
        match cur with
        | Some w => split_ws_go (Some (String c w)) r
        | None => split_ws_go (Some (String c EmptyString)) r
        end
  end.

Definition split_ws (s : string) : list string := split_ws_go None s.

Fixpoint endswith_char (c : ascii) (s : string) : bool :=
  match s with
  | EmptyString => false
  | String a EmptyString => chr_eqb a c
  | String _ r => endswith_char c r
  end.

(** [s[:-1]] *)
Fixpoint drop_last (s : string) : string :=
  match s with
  | EmptyString => EmptyString
  | String _ EmptyString => EmptyString
  | String a r => String a (drop_last r)
  end.

(** [s[1:-1]] *)
Definition slice_1_m1 (s : string) : string :=
  match s with
  | EmptyString => EmptyString
  | String _ r => drop_last r
  end.

(** *** lists *)

Section Sort.
Context {A : Type} (key : A → Z).

(** [x] goes in front of the first element whose key is not below its
    own, so in front of the elements that have its key. *)
Fixpoint insert_by (x : A) (l : list A) : list A :=
  match l with
  | [] => [x]
  | y :: l' => if key x <=? key y then x :: l else y :: insert_by x l'
  end.

(** [sorted(l, key=key)] and [l.sort(key=key)]: the stable sort in
    ascending order of the keys.  Python's sort is stable, and a stable
    sort has one result, the one this insertion sort computes. *)
Fixpoint sort_by (l : list A) : list A :=
  match l with
  | [] => []
  | x :: l' => insert_by x (sort_by l')
  end.
End Sort.

(** [l[-1]] *)
Definition last_item {A : Type} (l : list A) : option A := last l.

(** *** dictionaries keyed by strings *)

(** [dict(zip(keys, values))]: the pairs are entered from left to right,
    so the last pair with a given key decides its value; [zip] stops at
    the end of the shorter list. *)
Definition dict_zip (keys values : list string) : gmap string string :=
  foldl (λ d kv, <[kv.1 := kv.2]> d) ∅ (zip keys values).

(** [d.get(key, default)] *)
Definition dict_get (d : gmap string string) (key default : string) : string :=
  default_or (d !! key) default.

(** *** floats *)

Definition prec : Z := 53.
Definition emax : Z := 1024.

(** The conversion of an [int] operand of a float addition: the nearest
    binary64 value, [OverflowError] when that is beyond the largest. *)
Definition float_of_int (n : Z) : result spec_float :=
  match binary_normalize prec emax n 0 false with
  | S754_infinity _ => raise OverflowError
  | f => ret f
  end.

(** The binary64 value nearest to [m / 10^k], for [0 <= m]. *)
Definition float_of_decimal (m : Z) (k : nat) : spec_float :=
  match m with
  | Zpos p =>
      SFdiv prec emax (S754_finite false p 0)
        (S754_finite false (Z.to_pos (10 ^ Z.of_nat k)) 0)
  | _ => S754_zero false
  end.

(** [float(s)] for a string of digits and periods: digits with at most
    one period among them and at least one digit; [ValueError] otherwise. *)
Definition float (s : string) : result spec_float :=
  match split_on "."%char s with
  | [a] =>
      if isdigit a then ret (float_of_decimal (int_of_digits a) 0)
      else raise ValueError
  | [a; b] =>
      if all_chars chr_isdigit a && all_chars chr_isdigit b
         && (truthy a || truthy b)
      then ret (float_of_decimal (int_of_digits (a +:+ b)) (String.length b))
      else raise ValueError
  | _ => raise ValueError
  end.

Definition float_add (x y : spec_float) : spec_float := SFadd prec emax x y.

(** [try: body except ValueError: handler] *)
Definition except_ValueError {A : Type} (body : result A) (handler : result A)
    : result A :=
  match body with
  | inl ValueError => handler
  | other => other
  end.

(** *** more of [str] *)

(** [s.endswith(suffix)] *)
Definition endswith (suffix s : string) : bool :=
  (String.length suffix <=? String.length s)%nat
  && String.eqb
       (String.substring (String.length s - String.length suffix)
          (String.length suffix) s)
       suffix.

(** [s.replace(old, new)] for an [old] that is not empty: the occurrences
    of [old] that do not overlap, from the left. *)
Definition replace (old new s : string) : string :=
  re_sub (λ t, if startswith old t then Some (String.length old) else None)
    new s.

(** [s[:-n]] for a positive [n] *)
Definition slice_to_minus (n : nat) (s : string) : string :=
  String.substring 0 (String.length s - n) s.

(** [sorted(names)] for strings: the stable sort in the order of the
    strings, which compares them character by character, a proper prefix
    before the longer string. *)
Fixpoint insert_str (x : string) (l : list string) : list string :=
  match l with
  | [] => [x]
  | y :: l' => if String.leb x y then x :: l else y :: insert_str x l'
  end.

Fixpoint sort_str (l : list string) : list string :=
  match l with
  | [] => []
  | x :: l' => insert_str x (sort_str l')
  end.

End Py.

(** ** An instance of [csv.reader]

    The reader of the [csv] module in its default dialect (delimiter [,],
    quote character the double quote, doubled quotes inside a quoted field,
    not strict), on lines that hold no CR and no LF, which is what
    [read_lines] hands over.  The definitions below take the reader as a
    parameter; this automaton is the instance the examples run. *)

Module Csv.

Inductive mode : Type :=
| StartRecord
| StartField
| InField
| InQuotedField
| QuoteInQuotedField.

(** [fields] and [field] are kept in reverse. *)
Record state : Type := State {
  fields : list string;
  field : string;
  st : mode
}.

Definition quotechar : ascii := Ascii.ascii_of_N 34.
Definition delimiter : ascii := ","%char.

Definition add_char (s : state) (c : ascii) (m : mode) : state :=
  State (fields s) (String c (field s)) m.

Definition save_field (s : state) (m : mode) : state :=
  State (String.rev (field s) :: fields s) EmptyString m.

Definition process_char (s : state) (c : ascii) : state :=
  match st s with
  | StartRecord | StartField =>
      if Py.chr_eqb c quotechar then State (fields s) (field s) InQuotedField
      else if Py.chr_eqb c delimiter then save_field s StartField
      else add_char s c InField
  | InField =>
      if Py.chr_eqb c delimiter then save_field s StartField
      else add_char s c InField
  | InQuotedField =>
      if Py.chr_eqb c quotechar then State (fields s) (field s) QuoteInQuotedField
      else add_char s c InQuotedField
  | QuoteInQuotedField =>
      if Py.chr_eqb c quotechar then add_char s c InQuotedField
      else if Py.chr_eqb c delimiter then save_field s StartField
      else add_char s c InField
  end.

Definition process_eol (s : state) : state :=
  match st s with
  | StartRecord => s
  | StartField | InField | QuoteInQuotedField => save_field s StartRecord
  | InQuotedField => s
  end.

Fixpoint process_line (s : state) (line : string) : state :=
  match line with
  | EmptyString => process_eol s
  | String c r => process_line (process_char s c) r
  end.

Definition initial : state := State [] EmptyString StartRecord.

(** A record ends with the line that leaves the automaton in
    [StartRecord]; a quoted field still open at the end of the input is
    closed there. *)
Fixpoint reader_go (s : state) (lines : list string) : list (list string) :=
  match lines with
  | [] =>
      match st s with
      | InQuotedField => [rev (String.rev (field s) :: fields s)]
      | _ => []
      end
  | line :: rest =>
      let s' := process_line s line in
      match st s' with
      | StartRecord => rev (fields s') :: reader_go initial rest
      | _ => reader_go s' rest
      end
  end.

Definition reader (lines : list string) : list (list string) :=
  reader_go initial lines.

End Csv.

(** ** An instance of [html.unescape]

    [html.unescape] replaces each character reference by the text it
    names.  This instance knows the named references of [table], a part of
    the table [html.entities.html5], and leaves a numeric reference as it
    is; it has the value of [html.unescape] on a text whose references are
    named ones that resolve in [table]. *)

Module Html.

Definition table : list (string * string) :=
  [("amp;", "&"); ("amp", "&"); ("lt;", "<"); ("lt", "<");
   ("gt;", ">"); ("gt", ">")].

Fixpoint lookup (t : list (string * string)) (key : string) : option string :=
  match t with
  | [] => None
  | (k, v) :: t' => if String.eqb k key then Some v else lookup t' key
  end.

(** A character of the class [[^\t\n\f <&#;]]. *)
Definition name_char (c : ascii) : bool :=
  negb (existsb (Py.chr_eqb c)
          [Ascii.ascii_of_N 9; Ascii.ascii_of_N 10; Ascii.ascii_of_N 12;
           " "; "<"; "&"; "#"; ";"]%char).

(** The characters of the name at the head of [s], 32 at most. *)
Fixpoint name_length (fuel : nat) (s : string) : nat :=
  match fuel, s with
  | S fuel', String c r =>
      if name_char c then S (name_length fuel' r) else O
  | _, _ => O
  end.

(** The group the pattern captures behind an ampersand: the name and the
    semicolon that follows it, if there is one. *)
Definition reference (s : string) : string :=
  let n := name_length 32 s in
  match String.get n s with
  | Some c =>
      if Py.chr_eqb c ";"%char then String.substring 0 (S n) s
      else String.substring 0 n s
  | None => String.substring 0 n s
  end.

(** The longest head of the reference, of two characters or more, that
    the table knows, replaced; the rest of the reference is kept. *)
Fixpoint replace_prefix (x : nat) (s : string) : option string :=
  match x with
  | S ((S _) as x') =>
      match lookup table (String.substring 0 x s) with
      | Some v => Some (v +:+ String.substring x (String.length s - x) s)
      | None => replace_prefix x' s
      end
  | _ => None
  end.

Definition replace_charref (s : string) : string :=
  match lookup table s with
  | Some v => v
  | None =>
      match replace_prefix (String.length s - 1) s with
      | Some v => v
      | None => String "&"%char s
      end
  end.

Fixpoint unescape_go (skip : nat) (s : string) : string :=
  match s with
  | EmptyString => EmptyString
  | String c r =>
      match skip with
      | S k => unescape_go k r
      | O =>
          if Py.chr_eqb c "&"%char then
            match reference r with
            | EmptyString => String c (unescape_go 0 r)
            | String _ _ as ref =>
                replace_charref ref +:+ unescape_go (String.length ref) r
            end
          else String c (unescape_go 0 r)
      end
  end.

Definition unescape (s : string) : string := unescape_go 0 s.


End Html.

(** ** The ordinal suffix, four times *)

(** [{1: "st", 2: "nd", 3: "rd"}.get(d, "th")] *)
Definition suffix_by_last_digit (d : Z) : string :=
  match d with
  | 1 => "st"
  | 2 => "nd"
  | 3 => "rd"
  | _ => "th"
  end.

(** The suffix with the exception [10 <= n % 100 <= 20]. *)
Definition suffix_10_20 (n : Z) : string :=
  if (10 <=? n mod 100) && (n mod 100 <=? 20) then "th"
  else suffix_by_last_digit (n mod 10).

(** The suffix with the exception [11 <= n % 100 <= 13]. *)
Definition suffix_11_13 (n : Z) : string :=
  if (11 <=? n mod 100) && (n mod 100 <=? 13) then "th"
  else suffix_by_last_digit (n mod 10).

(** ** What [home_builder.py] and [meet_builder.py] share

    The two scripts define [strip_html], [parse_csv_block], [safe_get] and
    the body of [place_key] with the same text, and run the same steps on
    the rows of the individual results. *)

Module MeetLines.

Inductive skipped : Type :=
| NotEnoughLines
| MissingHeaders
| NoDataRows.

(** The pattern [<[^>]+>] at the head of [s]: a [<], one character or
    more that are not [>], and the first [>] behind them. *)
Fixpoint index_gt (s : string) : option nat :=
  match s with
  | EmptyString => None
  | String c r =>
      if Py.chr_eqb c ">"%char then Some O
      else option_map S (index_gt r)
  end.

Definition tag_match (s : string) : option nat :=
  match s with
  | String c (String d r) =>
      if Py.chr_eqb c "<"%char && negb (Py.chr_eqb d ">"%char)
      then option_map (λ n, 3 + n)%nat (index_gt r)
      else None
  | _ => None
  end.

Section Library.
Variable unescape : string → string.
Variable csv_reader : list string → list (list string).

(** [strip_html] *)
Definition strip_html (text : string) : string :=
  if negb (Py.truthy text) then EmptyString
  else
    let text := unescape text in
    let text := Py.re_sub tag_match EmptyString text in
    Py.strip (Py.join " " (Py.split_ws text)).

(** [any(cell.strip() for cell in row)] *)
Definition any_cell (row : list string) : bool :=
  existsb (λ cell, Py.truthy (Py.strip cell)) row.

(** [parse_csv_block] *)
Definition parse_csv_block (block_lines : list string) : list (list string) :=
  filter (λ row, any_cell row = true) (csv_reader block_lines).

(** The lines from [lines[idx:]] whose [line.strip()] is not empty. *)
Definition block_from (idx : nat) (lines : list string) : list string :=
  filter (λ line, Py.truthy (Py.strip line) = true) (drop idx lines).
End Library.

(** [safe_get]; the values of a row are strings, never [None]. *)
Definition safe_get (row_dict : gmap string string) (key default : string)
    : string :=
  Py.dict_get row_dict key default.

(** The row with [len(header) - len(row)] empty strings behind it, when
    the row is shorter than the header. *)
Definition pad (header row : list string) : list string :=
  if (length row <? length header)%nat
  then row ++ replicate (length header - length row) EmptyString
  else row.

(** The loop that fills [indiv_dicts]. *)
Definition row_dicts (indiv_header : list string) (indiv_data : list (list string))
    : list (gmap string string) :=
  map (λ row, Py.dict_zip indiv_header (pad indiv_header row)) indiv_data.

(** The test of the comprehension that fills [skyline]. *)
Definition is_skyline (team_name : string) (r : gmap string string) : bool :=
  String.eqb (Py.strip (safe_get r "Team" EmptyString)) team_name.

(** [place_key] on a place field. *)
Definition place_key_of (place : string) : Z :=
  let p := Py.rstrip_dot (Py.strip place) in
  if Py.isdigit p then Py.int_of_digits p else 999999.

(** [place_key] *)
Definition place_key (r : gmap string string) : Z :=
  place_key_of (safe_get r "Place" EmptyString).

(** [skyline], filtered and, when not empty, sorted in place. *)
Definition skyline_of (team_name : string) (indiv_dicts : list (gmap string string))
    : list (gmap string string) :=
  let skyline := filter (λ r, is_skyline team_name r = true) indiv_dicts in
  match skyline with
  | [] => skyline
  | _ :: _ => Py.sort_by place_key skyline
  end.

(** [find_line_index], [None] for [-1]. *)
Fixpoint find_index (test : string → bool) (lines : list string) : option nat :=
  match lines with
  | [] => None
  | line :: rest =>
      if test line then Some O else option_map S (find_index test rest)
  end.

Definition line (lines : list string) (i : nat) : string :=
  nth i lines EmptyString.

End MeetLines.

Module MeetBuilder.
Import MeetLines.

Definition SKYLINE_TEAM_NAME : string := "Ann Arbor Skyline".

(** [meet_builder.ordinal] *)
Definition ordinal (place_str : string) : string :=
  if negb (Py.truthy place_str) then EmptyString
  else
    let s := Py.strip place_str in
    let s := Py.rstrip_dot s in
    if negb (Py.isdigit s) then place_str
    else
      let n := Py.int_of_digits s in
      Py.str_of_int n +:+ suffix_10_20 n.

(** [find_line_index(lines, startswith)] *)
Definition find_line_index (lines : list string) (startswith : string)
    : option nat :=
  find_index (Py.startswith startswith) lines.

(** One row of the results table: name, time, place, grade, link. *)
Record table_row : Type := TableRow {
  cell_name : string;
  cell_time : string;
  cell_place : string;
  cell_grade : string;
  cell_athlete_link : string
}.

Definition table_row_of (r : gmap string string) : table_row :=
  TableRow (safe_get r "Name" EmptyString)
           (safe_get r "Time" EmptyString)
           (ordinal (safe_get r "Place" EmptyString))
           (safe_get r "Grade" EmptyString)
           (safe_get r "Athlete Link" "#").

(** What one pass of the main loop computes for a file it does not skip. *)
Record meet_page : Type := MeetPage {
  meet_name : string;
  meet_date : string;
  meet_link : string;
  summary_text : string;
  indiv_header : list string;
  indiv_dicts : list (gmap string string);
  skyline : list (gmap string string);
  skyline_rows : list table_row
}.

Section Library.
Variable unescape : string → string.
Variable csv_reader : list string → list (list string).

(** The body of the main loop on the lines of one file. *)
Definition process_file (lines : list string) : skipped + meet_page :=
  if (length lines <? 6)%nat then inl NotEnoughLines
  else
    let meet_name := Py.strip (line lines 0) in
    let meet_date := Py.strip (line lines 1) in
    let meet_link := Py.strip (line lines 2) in
    let summary_html := Py.strip (line lines 3) in
    let summary_text := strip_html unescape summary_html in
    match find_line_index lines "Place,Team,Score",
          find_line_index lines "Place,Grade,Name," with
    | Some _, Some indiv_header_idx =>
        let indiv_block_lines := block_from indiv_header_idx lines in
        let indiv_rows := parse_csv_block csv_reader indiv_block_lines in
        match indiv_rows with
        | indiv_header :: ((_ :: _) as indiv_data) =>
            let indiv_dicts := row_dicts indiv_header indiv_data in
            let skyline := skyline_of SKYLINE_TEAM_NAME indiv_dicts in
            inr (MeetPage meet_name meet_date meet_link summary_text
                   indiv_header indiv_dicts skyline
                   (map table_row_of skyline))
        | _ => inl NoDataRows
        end
    | _, _ => inl MissingHeaders
    end.
End Library.

Definition OUTPUT_SUFFIX : string := "_race_page.html".

(** The test at the head of the loop: [filename.lower().endswith(".csv")]. *)
Definition is_csv (filename : string) : bool :=
  Py.endswith ".csv" (Py.lower filename).

(** [output_file], the name of the page, written into the folder of the
    meet files. *)
Definition output_file (filename : string) : string :=
  Py.slice_to_minus 4 filename +:+ OUTPUT_SUFFIX.

End MeetBuilder.

Module HomeBuilder.
Import MeetLines.

Definition SKYLINE_TEAM_NAME : string := "Ann Arbor Skyline".

(** [home_builder.ordinal] *)
Definition ordinal (place_str : string) : string :=
  if negb (Py.truthy place_str) then EmptyString
  else
    let s := Py.strip place_str in
    let s := Py.rstrip_dot s in
    if negb (Py.isdigit s) then place_str
    else
      let n := Py.int_of_digits s in
      Py.str_of_int n +:+ suffix_10_20 n.

(** [find_line_index(lines, contains)] *)
Definition find_line_index (lines : list string) (contains : string)
    : option nat :=
  find_index (Py.contains contains) lines.

(** The entry of [recent_races] for one meet, without the name of the
    page, which comes from the file name. *)
Record recent_race : Type := RecentRace {
  meet_name : string;
  meet_date : string;
  indiv_dicts : list (gmap string string);
  skyline : list (gmap string string)
}.

Section Library.
Variable csv_reader : list string → list (list string).

(** The body of the loop over the meet files on the lines of one file. *)
Definition process_file (lines : list string) : skipped + recent_race :=
  if (length lines <? 6)%nat then inl NotEnoughLines
  else
    let meet_name := Py.strip (line lines 0) in
    let meet_date := Py.strip (line lines 1) in
    match find_line_index lines "Place,Team",
          find_line_index lines "Place,Grade,Name" with
    | Some _, Some indiv_header_idx =>
        let indiv_block_lines := block_from indiv_header_idx lines in
        let indiv_rows := parse_csv_block csv_reader indiv_block_lines in
        match indiv_rows with
        | indiv_header :: ((_ :: _) as indiv_data) =>
            let indiv_dicts := row_dicts indiv_header indiv_data in
            let skyline := skyline_of SKYLINE_TEAM_NAME indiv_dicts in
            inr (RecentRace meet_name meet_date indiv_dicts skyline)
        | _ => inl NoDataRows
        end
    | _, _ => inl MissingHeaders
    end.
End Library.

Definition MEETS_DIR : string := "meets".

(** The test at the head of the loop: [filename.lower().endswith(".csv")]. *)
Definition is_csv (filename : string) : bool :=
  Py.endswith ".csv" (Py.lower filename).

(** [race_html], the address of the page of the meet. *)
Definition race_html_of (filename : string) : string :=
  let base := Py.replace ".csv" EmptyString filename in
  MEETS_DIR +:+ "/" +:+ base +:+ "_race_page.html".

(** The value [recent_races] holds for a meet: [meet_date], [skyline] and
    [race_html]. *)
Record race_info : Type := RaceInfo {
  info_date : string;
  info_skyline : list (gmap string string);
  info_race_html : string
}.

(** [recent_races[meet_name] = value] on a dictionary kept as the list of
    its items in the order the keys came in: a key that is there keeps its
    place and takes the new value. *)
Fixpoint dict_set (k : string) (v : race_info) (d : list (string * race_info))
    : list (string * race_info) :=
  match d with
  | [] => [(k, v)]
  | (k', v') :: rest =>
      if String.eqb k' k then (k', v) :: rest else (k', v') :: dict_set k v rest
  end.

Section Files.
Variable csv_reader : list string → list (list string).

(** One pass of the loop over the meet files, on the name and the lines
    of a file. *)
Definition loop_body (recent_races : list (string * race_info))
    (file : string * list string) : list (string * race_info) :=
  if negb (is_csv file.1) then recent_races
  else
    match process_file csv_reader file.2 with
    | inl _ => recent_races
    | inr entry =>
        dict_set (meet_name entry)
          (RaceInfo (meet_date entry) (skyline entry) (race_html_of file.1))
          recent_races
    end.

(** [recent_races] after the loop over the files, in the order
    [os.listdir] gives them. *)
Definition recent_races (files : list (string * list string))
    : list (string * race_info) :=
  foldl loop_body [] files.
End Files.

(** An item of the list of top runners: the name, the time, and the
    address of the page of the athlete if the item is a link. *)
Record top_runner : Type := TopRunner {
  runner_name : string;
  runner_time : string;
  runner_link : option string
}.

Definition top_runner_of (r : gmap string string) : top_runner :=
  let name := safe_get r "Name" EmptyString in
  let time := safe_get r "Time" EmptyString in
  let athlete_id :=
    Py.replace ".jpeg" EmptyString
      (Py.replace ".jpg" EmptyString (safe_get r "Profile Pic" EmptyString)) in
  if Py.truthy name && Py.truthy athlete_id
  then TopRunner name time (Some ("../mens_team/" +:+ name +:+ athlete_id +:+ ".html"))
  else TopRunner name time None.

(** The items of the article of a meet: [skyline_runners[:4]]. *)
Definition top_runners (race_info_ : race_info) : list top_runner :=
  map top_runner_of (take 4 (info_skyline race_info_)).

(** The value [roster] takes for a name: the slug and [.html]. *)
Definition roster_link (name : string) : string :=
  let slug := Py.replace " " "-" (Py.lower name) in
  slug +:+ ".html".

(** [name in roster], and [roster[name]] for a name that is in it, on a
    dictionary kept as the list of its items. *)
Definition roster_has (name : string) (roster : list (string * string)) : bool :=
  existsb (λ item, String.eqb item.1 name) roster.
Fixpoint roster_get (name : string) (roster : list (string * string)) : string :=
  match roster with
  | [] => EmptyString
  | (k, v) :: rest => if String.eqb k name then v else roster_get name rest
  end.

(** The body of the inner loop that fills [roster]. *)
Definition roster_add (roster : list (string * string)) (r : gmap string string)
    : list (string * string) :=
  let name := safe_get r "Name" EmptyString in
  if negb (roster_has name roster)
  then roster ++ [(name, roster_link name)]
  else roster.

(** [roster] after the two loops. *)
Definition roster_of (recent_races : list (string * race_info))
    : list (string * string) :=
  foldl (λ roster item, foldl roster_add roster (info_skyline item.2))
    [] recent_races.

(** The lines of the roster, each with its [link] and its [name], in the
    order of [sorted(roster)]. *)
Definition roster_lines (recent_races : list (string * race_info))
    : list (string * string) :=
  let roster := roster_of recent_races in
  map (λ name, (roster_get name roster, name)) (Py.sort_str (map fst roster)).

End HomeBuilder.

Module RacePage.

(** The number of white-space characters at the head of [s]. *)
Fixpoint count_ws (s : string) : nat :=
  match s with
  | EmptyString => O
  | String c r => if Py.chr_isspace c then S (count_ws r) else O
  end.

Definition chr_is (letter c : ascii) : bool :=
  Py.chr_eqb (Py.chr_lower c) letter.

(** The pattern [<\s*br\s*/?>], letters in either case, at the head of
    [s]: the length of the match. *)
Definition br_match (s : string) : option nat :=
  match s with
  | String c r =>
      if Py.chr_eqb c "<"%char then
        match Py.lstrip_by Py.chr_isspace r with
        | String b (String r' rest) =>
            if chr_is "b"%char b && chr_is "r"%char r' then
              let n := (1 + count_ws r + 2 + count_ws rest)%nat in
              match Py.lstrip_by Py.chr_isspace rest with
              | String x (String y _) =>
                  if Py.chr_eqb x ">"%char then Some (n + 1)%nat
                  else if Py.chr_eqb x "/"%char && Py.chr_eqb y ">"%char
                       then Some (n + 2)%nat
                       else None
              | String x EmptyString =>
                  if Py.chr_eqb x ">"%char then Some (n + 1)%nat else None
              | EmptyString => None
              end
            else None
        | _ => None
        end
      else None
  | EmptyString => None
  end.

Definition newline : string := String (Ascii.ascii_of_N 10) EmptyString.

(** [strip_html_tags] *)
Definition strip_html_tags (unescape : string → string) (s : string) : string :=
  let s := Py.re_sub br_match newline s in
  let s := Py.re_sub MeetLines.tag_match EmptyString s in
  Py.strip (unescape s).

(** [csv_to_race_page_html.ordinal] *)
Definition ordinal (place : string) : string :=
  let place := Py.rstrip_dot (Py.strip place) in
  if negb (Py.isdigit place) then place
  else
    let n := Py.int_of_digits place in
    Py.str_of_int n +:+ suffix_11_13 n.

Record team_result : Type := TeamResult {
  tr_place : string;
  tr_team : string;
  tr_score : string
}.

Record individual_result : Type := IndividualResult {
  place : string;
  grade : string;
  name : string;
  athlete_link : string;
  time : string;
  team : string;
  team_link : string;
  profile_pic : string
}.

(** The dictionary [parse_custom_meet_csv] returns, without [meet_id]. *)
Record meet : Type := Meet {
  meet_name : string;
  meet_date : string;
  meet_url : string;
  summary_text : string;
  team_results : list team_result;
  individual_results : list individual_result
}.

(** [row[0]] *)
Definition first_cell (row : list string) : Py.result string :=
  match row with
  | [] => Py.raise Py.IndexError
  | c :: _ => Py.ret c
  end.

Definition cell (row : list string) (i : nat) : string := nth i row EmptyString.

(** The row has no cell, or every [c.strip()] of its cells is empty. *)
Definition blank (row : list string) : bool :=
  forallb (λ c, negb (Py.truthy (Py.strip c))) row.

(** The [while] loop over the team results: the rows it appends and the
    rows behind the index [i] it stops at. *)
Fixpoint team_loop (rows : list (list string))
    : list team_result * list (list string) :=
  match rows with
  | [] => ([], [])
  | row :: rest =>
      if blank row then ([], rest)
      else
        let '(found, behind) := team_loop rest in
        if (3 <=? length row)%nat
           && negb (String.eqb (Py.strip (cell row 0)) "Place")
        then (TeamResult (Py.strip (cell row 0)) (Py.strip (cell row 1))
                (Py.strip (cell row 2)) :: found, behind)
        else (found, behind)
  end.

(** The step over the header of the individual results. *)
Definition skip_header (rows : list (list string)) : list (list string) :=
  match rows with
  | row :: rest =>
      if (8 <=? length row)%nat && String.eqb (Py.strip (cell row 0)) "Place"
      then rest else rows
  | [] => rows
  end.

(** The [for] loop over the individual results. *)
Fixpoint individual_loop (rows : list (list string)) : list individual_result :=
  match rows with
  | [] => []
  | row :: rest =>
      if blank row then individual_loop rest
      else if (length row <? 8)%nat then individual_loop rest
      else
        IndividualResult
          (Py.strip (cell row 0)) (Py.strip (cell row 1))
          (Py.strip (cell row 2)) (Py.strip (cell row 3))
          (Py.strip (cell row 4)) (Py.strip (cell row 5))
          (Py.strip (cell row 6)) (Py.strip (cell row 7))
        :: individual_loop rest
  end.

Definition quoted_by (q : ascii) (s : string) : bool :=
  Py.startswith (String q EmptyString) s && Py.endswith_char q s.

(** [parse_custom_meet_csv] on the rows [csv.reader] returns for the file. *)
Definition parse_custom_meet_csv (unescape : string → string)
    (rows : list (list string)) : Py.result meet :=
  if (length rows <? 5)%nat then Py.raise Py.ValueError
  else
    Py.bind (first_cell (nth 0 rows [])) (λ c0,
    Py.bind (first_cell (nth 1 rows [])) (λ c1,
    Py.bind (first_cell (nth 2 rows [])) (λ c2,
    Py.bind (first_cell (nth 3 rows [])) (λ c3,
      let summary_raw := Py.strip c3 in
      let summary_raw :=
        if quoted_by (Ascii.ascii_of_N 34) summary_raw
           || quoted_by "'"%char summary_raw
        then Py.slice_1_m1 summary_raw else summary_raw in
      let '(team_results, behind) := team_loop (drop 4 rows) in
      Py.ret (Meet (Py.strip c0) (Py.strip c1) (Py.strip c2)
                (strip_html_tags unescape summary_raw)
                team_results
                (individual_loop (skip_header behind))))))).

(** The test of the comprehension in [build_race_page_html]. *)
Definition is_skyline (r : individual_result) : bool :=
  String.eqb (Py.lower (Py.strip (team r))) "ann arbor skyline".

(** [runners] in [build_race_page_html]: the rows of the results table. *)
Definition runners (m : meet) : list individual_result :=
  let skyline := filter (λ r, is_skyline r = true) (individual_results m) in
  match skyline with
  | [] => individual_results m
  | _ :: _ => skyline
  end.

(** What is left of [s] behind the literal [p], if [s] begins with it. *)
Fixpoint after_prefix (p s : string) : option string :=
  match p, s with
  | EmptyString, _ => Some s
  | String a p', String b s' =>
      if Py.chr_eqb a b then after_prefix p' s' else None
  | String _ _, EmptyString => None
  end.

(** The longest run of digits at the head of [s]: what [\d+] takes. *)
Fixpoint digits_prefix (s : string) : string :=
  match s with
  | String c r =>
      if Py.chr_isdigit c then String c (digits_prefix r) else EmptyString
  | EmptyString => EmptyString
  end.

(** The pattern [/meet/(\d+)] at the head of [s]: its group. *)
Definition meet_id_match (s : string) : option string :=
  match after_prefix "/meet/" s with
  | Some r =>
      let d := digits_prefix r in
      if Py.truthy d then Some d else None
  | None => None
  end.

(** [extract_meet_id]: [re.search] tries the pattern at each position from
    the left and keeps the first match. *)
Fixpoint extract_meet_id (url : string) : option string :=
  match meet_id_match url with
  | Some d => Some d
  | None =>
      match url with
      | EmptyString => None
      | String _ r => extract_meet_id r
      end
  end.

End RacePage.

Module AthleteBuilder.

(** [athlete_builder.ordinal]; the argument is a string at every call, so
    the [None] test at its head never fires. *)
Definition ordinal (place_str : string) : string :=
  let s := Py.rstrip_dot (Py.strip place_str) in
  if negb (Py.isdigit s) then Py.strip place_str
  else
    let n := Py.int_of_digits s in
    Py.str_of_int n +:+ suffix_10_20 n.

Definition chr_is (letter c : ascii) : bool :=
  Py.chr_eqb (Py.chr_lower c) letter.

(** The pattern [(PR|\*|SR)], letters in either case, at the head of [s]. *)
Definition annotation_match (s : string) : option nat :=
  match s with
  | String a r =>
      if Py.chr_eqb a "*"%char then Some 1%nat
      else
        match r with
        | String b _ =>
            if (chr_is "p"%char a || chr_is "s"%char a) && chr_is "r"%char b
            then Some 2%nat else None
        | EmptyString => None
        end
  | EmptyString => None
  end.

(** The characters that the substitution of the pattern [[^0-9:\.]] by the
    empty string keeps. *)
Definition kept (c : ascii) : bool :=
  Py.chr_isdigit c || Py.chr_eqb c ":"%char || Py.chr_eqb c "."%char.

(** The pattern [[^0-9:\.]] at the head of [s]. *)
Definition other_match (s : string) : option nat :=
  match s with
  | String c _ => if kept c then None else Some 1%nat
  | EmptyString => None
  end.

(** The first steps of [parse_time_to_seconds]: the argument trimmed, the
    annotations taken out, and the characters other than digits, colons and
    periods taken out. *)
Definition clean_time (t : string) : string :=
  let s := Py.strip t in
  let s := Py.strip (Py.re_sub annotation_match EmptyString s) in
  Py.re_sub other_match EmptyString s.

(** [parse_time_to_seconds] *)
Definition parse_time_to_seconds (t : string) : Py.result (option spec_float) :=
  if negb (Py.truthy t) then Py.ret None
  else
    let s := clean_time t in
    if negb (Py.contains ":" s) then Py.ret None
    else
      match Py.split_on ":"%char s with
      | [minutes_part; seconds_part] =>
          Py.except_ValueError
            (Py.bind (Py.int minutes_part) (λ minutes,
             Py.bind (Py.float seconds_part) (λ seconds,
             Py.bind (Py.float_of_int (minutes * 60)) (λ whole,
             Py.ret (Some (Py.float_add whole seconds))))))
            (Py.ret None)
      | _ => Py.ret None
      end.

(** The test of [find_header_index] on one row. *)
Definition is_header (r : list string) : bool :=
  match r with
  | [] => false
  | _ :: _ =>
      let joined := Py.lower (Py.join "," (map Py.strip r)) in
      Py.contains "meet url" joined && Py.contains "overall place" joined
  end.

(** [find_header_index]: the index and the row, [None] for [(-1, None)]. *)
Fixpoint find_header_index (rows : list (list string))
    : option (nat * list string) :=
  match rows with
  | [] => None
  | r :: rest =>
      if is_header r then Some (O, r)
      else option_map (λ ir, (S ir.1, ir.2)) (find_header_index rest)
  end.

(** [safe_get]; the values of a row are strings, never [None]. *)
Definition safe_get (d : gmap string string) (key : string) : string :=
  Py.dict_get d key EmptyString.

Record season_record : Type := SeasonRecord {
  year : string;
  sr_grade : string;
  sr : string
}.

Record race : Type := Race {
  grade : string;
  meet : string;
  url : string;
  time : string;
  place : string
}.

Record athlete : Type := Athlete {
  name : string;
  athlete_id : string;
  season_records : list season_record;
  races : list race;
  most_recent_grade : option string
}.

(** [[c.strip() for c in row]] has a non-empty member *)
Definition any_cell (row : list string) : bool :=
  existsb (λ cell, Py.truthy (Py.strip cell)) row.

(** The loop that fills [dict_rows]. *)
Fixpoint dict_rows_of (header_keys : list string) (data_rows : list (list string))
    : list (gmap string string) :=
  match data_rows with
  | [] => []
  | r :: rest =>
      if negb (any_cell r) then dict_rows_of header_keys rest
      else
        let r :=
          if (length r <? length header_keys)%nat
          then r ++ replicate (length header_keys - length r) EmptyString
          else r in
        Py.dict_zip header_keys r :: dict_rows_of header_keys rest
  end.

Inductive row_class : Type :=
| SeasonRow (s : season_record)
| RaceRow (r : race)
| Dropped.

(** The body of the loop over [dict_rows]. *)
Definition classify (dr : gmap string string) : row_class :=
  let overall_place := Py.strip (safe_get dr "Overall Place") in
  let grade := Py.strip (safe_get dr "Grade") in
  let time := Py.strip (safe_get dr "Time") in
  let meet := Py.strip (safe_get dr "Meet") in
  let meet_url := Py.strip (safe_get dr "Meet URL") in
  if Py.isdigit overall_place && (String.length overall_place =? 4)%nat
     && Py.truthy grade
  then SeasonRow (SeasonRecord overall_place grade time)
  else if Py.truthy meet
  then RaceRow (Race grade meet (if Py.truthy meet_url then meet_url else "#")
                  time overall_place)
  else Dropped.

(** The loop over [dict_rows]: [season_records] and [races], each in the
    order of the rows. *)
Fixpoint classify_rows (dict_rows : list (gmap string string))
    : list season_record * list race :=
  match dict_rows with
  | [] => ([], [])
  | dr :: rest =>
      let '(seasons, races) := classify_rows rest in
      match classify dr with
      | SeasonRow s => (s :: seasons, races)
      | RaceRow r => (seasons, r :: races)
      | Dropped => (seasons, races)
      end
  end.

(** The key of the sort of [season_records]. *)
Definition year_key (x : season_record) : Z :=
  if Py.isdigit (year x) then Py.int_of_digits (year x) else -1.

Definition most_recent_grade_of (season_records : list season_record)
    : option string :=
  match season_records with
  | [] => None
  | _ :: _ =>
      option_map sr_grade (Py.last_item (Py.sort_by year_key season_records))
  end.

Definition with_grade (g : string) (r : race) : race :=
  Race g (meet r) (url r) (time r) (place r).

(** The loop that assigns the most recent grade to the races without one. *)
Definition backfill (most_recent_grade : option string) (races : list race)
    : list race :=
  match most_recent_grade with
  | Some g =>
      if Py.truthy g
      then map (λ r, if negb (Py.truthy (grade r)) then with_grade g r else r) races
      else races
  | None => races
  end.

(** What [parse_athlete_csv] holds when the loop over [dict_rows] ends:
    the name, the id, [season_records] and [races]. *)
Record classified : Type := Classified {
  c_name : string;
  c_athlete_id : string;
  c_season_records : list season_record;
  c_races : list race
}.

(** [parse_athlete_csv] up to the end of the loop over [dict_rows], on the
    rows [csv.reader] returns for the file. *)
Definition read_rows (rows : list (list string)) : Py.result classified :=
  let athlete_name :=
    match rows with
    | (c :: _) :: _ => Py.strip c
    | _ => EmptyString
    end in
  let athlete_id :=
    match rows with
    | _ :: (c :: _) :: _ => Py.strip c
    | _ => EmptyString
    end in
  match find_header_index rows with
  | None => Py.raise Py.ValueError
  | Some (header_idx, header) =>
      let data_rows := drop (S header_idx) rows in
      let header_keys := map Py.strip header in
      let dict_rows := dict_rows_of header_keys data_rows in
      let '(season_records, races) := classify_rows dict_rows in
      Py.ret (Classified athlete_name athlete_id season_records races)
  end.

(** [parse_athlete_csv] from there on: the most recent grade and the
    races that take it. *)
Definition post_process (c : classified) : athlete :=
  let most_recent_grade := most_recent_grade_of (c_season_records c) in
  Athlete (c_name c) (c_athlete_id c) (c_season_records c)
    (backfill most_recent_grade (c_races c)) most_recent_grade.

(** [parse_athlete_csv] *)
Definition parse_athlete_csv (rows : list (list string)) : Py.result athlete :=
  Py.bind (read_rows rows) (λ c, Py.ret (post_process c)).

(** *** The grade tables

    [build_grade_tables] without its markup: the tables it writes, each
    with the grade it stands for, its caption and its rows in the order
    they are written. *)

(** The grade a race is filed under. *)
Definition group_label (r : race) : string :=
  let g := Py.strip (grade r) in
  if Py.truthy g then g else "Other".

(** [by_grade.setdefault(g, []).append(r)] on a dictionary kept as the list
    of its items, in the order the keys came in. *)
Fixpoint setdefault_append (g : string) (r : race)
    (by_grade : list (string * list race)) : list (string * list race) :=
  match by_grade with
  | [] => [(g, [r])]
  | (k, v) :: rest =>
      if String.eqb k g then (k, v ++ [r]) :: rest
      else (k, v) :: setdefault_append g r rest
  end.

(** The loop that fills [by_grade]. *)
Definition by_grade_of (races : list race) : list (string * list race) :=
  foldl (λ by_grade r, setdefault_append (group_label r) r by_grade) [] races.

(** [by_grade[g]] for a key of the dictionary. *)
Fixpoint by_grade_get (g : string) (by_grade : list (string * list race))
    : list race :=
  match by_grade with
  | [] => []
  | (k, v) :: rest => if String.eqb k g then v else by_grade_get g rest
  end.

(** [grade_sort_key] *)
Definition grade_sort_key (g : string) : Z :=
  if Py.isdigit g then Py.int_of_digits g else -999.

(** [sorted(by_grade.keys(), key=grade_sort_key, reverse=True)]: a sort
    with [reverse=True] keeps the order of the keys that compare equal, as
    the stable sort by the opposite key does. *)
Definition grade_keys_of (by_grade : list (string * list race)) : list string :=
  Py.sort_by (λ g, - grade_sort_key g) (map fst by_grade).

(** [place_key] of [build_grade_tables] *)
Definition place_key (r : race) : Z :=
  let p := Py.rstrip_dot (Py.strip (place r)) in
  if Py.isdigit p then Py.int_of_digits p else 999999.

Record grade_table : Type := GradeTable {
  table_grade : string;
  caption : string;
  table_rows : list race
}.

Definition caption_of (g : string) : string :=
  if Py.isdigit g then g +:+ "th Grade" else g.

(** [build_grade_tables]: the tables in the order they are written, each
    with its key [g], its [caption] and its [rows]. *)
Definition build_grade_tables (races : list race) : list grade_table :=
  let by_grade := by_grade_of races in
  map (λ g, GradeTable g (caption_of g)
              (Py.sort_by place_key (by_grade_get g by_grade)))
      (grade_keys_of by_grade).

(** *** The text of the page: [build_auto_bio] *)

(** The five variables of the loop of [build_auto_bio]. *)
Record bests : Type := Bests {
  best_time : option spec_float;
  best_time_str : option string;
  best_place : option Z;
  best_place_str : option string;
  best_place_meet : option string
}.

Definition no_bests : bests := Bests None None None None None.

(** [best_place is None or p_int < best_place] *)
Definition improves_place (p_int : Z) (b : bests) : bool :=
  match best_place b with
  | None => true
  | Some bp => p_int <? bp
  end.

(** [best_time is None or secs < best_time] *)
Definition improves_time (secs : spec_float) (b : bests) : bool :=
  match best_time b with
  | None => true
  | Some bt => SFltb secs bt
  end.

(** The first half of the body of the loop: the best place. *)
Definition place_step (b : bests) (r : race) : bests :=
  let p := Py.rstrip_dot (Py.strip (place r)) in
  if Py.isdigit p then
    let p_int := Py.int_of_digits p in
    if improves_place p_int b
    then Bests (best_time b) (best_time_str b)
           (Some p_int) (Some (ordinal p)) (Some (meet r))
    else b
  else b.

(** The second half: the best time.  [parse_time_to_seconds] may raise. *)
Definition time_step (b : bests) (r : race) : Py.result bests :=
  Py.bind (parse_time_to_seconds (time r)) (λ secs,
    match secs with
    | Some s =>
        if improves_time s b
        then Py.ret (Bests (Some s) (Some (time r))
                       (best_place b) (best_place_str b) (best_place_meet b))
        else Py.ret b
    | None => Py.ret b
    end).

(** The loop over the races. *)
Fixpoint bio_loop (b : bests) (races : list race) : Py.result bests :=
  match races with
  | [] => Py.ret b
  | r :: rest =>
      Py.bind (time_step (place_step b r) r) (λ b', bio_loop b' rest)
  end.

(** Truth value of a variable that is [None] or a string. *)
Definition opt_truthy (o : option string) : bool :=
  match o with
  | Some s => Py.truthy s
  | None => false
  end.

(** The first sentence; [data.get("most_recent_grade") or "?"]. *)
Definition intro_sentence (data : athlete) : string :=
  let grade :=
    match most_recent_grade data with
    | Some g => if Py.truthy g then g else "?"
    | None => "?"
    end in
  name data +:+ " is a Skyline runner currently listed as grade " +:+ grade
  +:+ ".".

(** The sentences that are appended under a condition, as the list of what
    is appended. *)
Definition placement_sentence (b : bests) : list string :=
  if opt_truthy (best_place_str b) && opt_truthy (best_place_meet b)
  then ["The best placement in these results is "
        +:+ Py.default_or (best_place_str b) EmptyString +:+ " at "
        +:+ Py.default_or (best_place_meet b) EmptyString +:+ "."]
  else [].

Definition time_sentence (b : bests) : list string :=
  if opt_truthy (best_time_str b)
  then ["The best recorded time in these results is "
        +:+ Py.default_or (best_time_str b) EmptyString +:+ "."]
  else [].

(** The last sentence.  Its apostrophe is a character outside ASCII, held
    here as the three bytes of its UTF-8 form. *)
Definition closing_sentence : string :=
  "This page is automatically generated from the team’s race CSV data.".

(** [build_auto_bio] *)
Definition build_auto_bio (data : athlete) : Py.result string :=
  Py.bind (bio_loop no_bests (races data)) (λ b,
    Py.ret (Py.join " "
      ([intro_sentence data] ++ placement_sentence b ++ time_sentence b
       ++ [closing_sentence]))).

(** *** The page: [generate_runner_page] *)





Section Library.
(** [html.escape] *)
Variable escape : string → string.


End Library.

End AthleteBuilder.

(** ** Reference notions *)

(** The English suffix of a positive number: [th] for the teens, eleven to
    nineteen, in every hundred, and by the last digit otherwise. *)
Definition english_suffix (n : Z) : string :=
  if (11 <=? n mod 100) && (n mod 100 <=? 19) then "th"
  else match n mod 10 with
       | 1 => "st"
       | 2 => "nd"
       | 3 => "rd"
       | _ => "th"
       end.

(** The three scripts with the boundary [10..20], one number at a time. *)
Definition ordinal_agrees (n : Z) : bool :=
  let want := Py.str_of_int n +:+ english_suffix n in
  String.eqb (HomeBuilder.ordinal (Py.str_of_int n)) want
  && String.eqb (MeetBuilder.ordinal (Py.str_of_int n)) want
  && String.eqb (AthleteBuilder.ordinal (Py.str_of_int n)) want.

(** The order a sort by [key] establishes. *)
Definition key_le {A : Type} (key : A → Z) (a b : A) : Prop := key a <= key b.

(** The place of a row as [place_key] reads it: trimmed, without trailing
    periods; whether it is a digit string; and its value if it is one. *)
Definition place_text (r : gmap string string) : string :=
  Py.rstrip_dot (Py.strip (MeetLines.safe_get r "Place" EmptyString)).
Definition numeric_place (r : gmap string string) : bool :=
  Py.isdigit (place_text r).
Definition place_value (r : gmap string string) : Z :=
  Py.int_of_digits (place_text r).

(** A row that has a place and nothing else. *)
Definition placed (place : string) : gmap string string :=
  Py.dict_zip ["Place"] [place].

(** The season record, and the race, a row of an athlete file yields. *)
Definition season_of (dr : gmap string string) : option AthleteBuilder.season_record :=
  match AthleteBuilder.classify dr with
  | AthleteBuilder.SeasonRow s => Some s
  | _ => None
  end.
Definition race_of (dr : gmap string string) : option AthleteBuilder.race :=
  match AthleteBuilder.classify dr with
  | AthleteBuilder.RaceRow r => Some r
  | _ => None
  end.

(** A season row: [Overall Place] is four digits and [Grade] is not empty. *)
Definition is_season_row (dr : gmap string string) : bool :=
  Py.isdigit (Py.strip (AthleteBuilder.safe_get dr "Overall Place"))
  && (String.length (Py.strip (AthleteBuilder.safe_get dr "Overall Place")) =? 4)%nat
  && Py.truthy (Py.strip (AthleteBuilder.safe_get dr "Grade")).

(** The rows of a small athlete file: the name, the id, the header, a
    season row and two races without a grade. *)
Definition sample_athlete_rows : list (list string) :=
  [["Jane Doe"]; ["12345"]; [];
   ["Name"; "Overall Place"; "Grade"; "Time"; "Date"; "Meet"; "Meet URL"];
   ["Jane Doe"; "2023"; "12"; "16:34.8 SR"];
   ["Jane Doe"; "5."; EmptyString; "17:01.2"; "Sep 1 2023"; "Invitational";
    "https://example.org/meet/1"];
   ["Jane Doe"; "12"; EmptyString; "16:34.8PR"; "Oct 1 2023"; "Regional"]].

(** The lines of a small meet file, and its rows for
    [parse_custom_meet_csv]: one team, and the header of the individual
    results with nothing behind it. *)
Definition sample_meet_lines : list string :=
  ["Sample Invitational"; "Sep 1 2023"; "https://example.org/meet/1";
   "<p>Fast &amp; flat</p>"; "Place,Team,Score"; "1,Ann Arbor Skyline,20";
   EmptyString;
   "Place,Grade,Name,Athlete Link,Time,Team,Team Link,Profile Pic";
   "2.,11,Jane Doe,https://example.org/a/1,18:01.0,Ann Arbor Skyline,,";
   "1.,12,Ann Roe,https://example.org/a/2,17:59.1,Pioneer,,";
   "3.,12,Amy Poe"].
Definition sample_meet_lines_no_data : list string := take 8 sample_meet_lines.
Definition sample_meet_rows_no_data : list (list string) :=
  Csv.reader sample_meet_lines_no_data.

(** A result of [parse_custom_meet_csv] with the given team. *)
Definition runner_of (team : string) : RacePage.individual_result :=
  RacePage.IndividualResult "1." "12" "Ann Roe" EmptyString "17:59.1" team
    EmptyString EmptyString.
Definition meet_of (results : list RacePage.individual_result) : RacePage.meet :=
  RacePage.Meet "Sample Invitational" "Sep 1 2023" EmptyString EmptyString []
    results.

(** The tests of the two team filters, as propositions. *)
Definition team_is (team_name : string) (r : gmap string string) : Prop :=
  Py.strip (MeetLines.safe_get r "Team" EmptyString) = team_name.
Definition team_is_lowered (r : RacePage.individual_result) : Prop :=
  Py.lower (Py.strip (RacePage.team r)) = "ann arbor skyline".

#[global] Instance team_is_dec (team_name : string) (r : gmap string string) :
  Decision (team_is team_name r) :=
  decide (Py.strip (MeetLines.safe_get r "Team" EmptyString) = team_name).
#[global] Instance team_is_lowered_dec (r : RacePage.individual_result) :
  Decision (team_is_lowered r) :=
  decide (Py.lower (Py.strip (RacePage.team r)) = "ann arbor skyline").

(** A time whose minutes are a one and 309 zeros. *)
Fixpoint zeros (n : nat) : string :=
  match n with
  | O => EmptyString
  | S k => String "0"%char (zeros k)
  end.
Definition overflowing_time : string := "1" +:+ zeros 309 +:+ ":00".

(** [s[k:]] *)
Fixpoint string_drop (k : nat) (s : string) : string :=
  match k, s with
  | S k', String _ r => string_drop k' r
  | _, _ => s
  end.

(** Whether a [>] occurs in a text, and whether the pattern of a tag
    matches somewhere in it. *)
Definition has_gt (s : string) : bool :=
  match MeetLines.index_gt s with
  | Some _ => true
  | None => false
  end.
Definition tag_here (s : string) : bool :=
  match MeetLines.tag_match s with
  | Some _ => true
  | None => false
  end.
Fixpoint has_tag (s : string) : bool :=
  match s with
  | EmptyString => false
  | String _ r => tag_here s || has_tag r
  end.

(** A text whose white space is collapsed: each white-space character is
    a space, with a character that is not white space on either side. *)
Fixpoint ws_collapsed_go (after_space : bool) (s : string) : bool :=
  match s with
  | EmptyString => negb after_space
  | String c r =>
      if Py.chr_eqb c " "%char then negb after_space && ws_collapsed_go true r
      else negb (Py.chr_isspace c) && ws_collapsed_go false r
  end.
Definition ws_collapsed (s : string) : bool :=
  match s with
  | EmptyString => true
  | String _ _ => ws_collapsed_go true s
  end.

(** The joined words of a text, written in one pass: [Start] before the
    first word, [InWord] inside a word, [Gap] in the white space behind a
    word. *)
Inductive reading : Type :=
| Start
| InWord
| Gap.
Fixpoint collapse (st : reading) (s : string) : string :=
  match s with
  | EmptyString => EmptyString
  | String c r =>
      if Py.chr_isspace c then
        match st with
        | Start => collapse Start r
        | InWord | Gap => collapse Gap r
        end
      else
        match st with
        | Gap => String " "%char (String c (collapse InWord r))
        | Start | InWord => String c (collapse InWord r)
        end
  end.

(** The number of occurrences of a character in a text. *)
Fixpoint count_char (c : ascii) (s : string) : nat :=
  match s with
  | EmptyString => O
  | String a r => if Py.chr_eqb a c then S (count_char c r) else count_char c r
  end.

(** The team results [parse_custom_meet_csv] reads from the rows of the
    team block: those of three cells or more that are not a header. *)
Fixpoint team_rows (rows : list (list string)) : list RacePage.team_result :=
  match rows with
  | [] => []
  | row :: rest =>
      if (3 <=? length row)%nat
         && negb (String.eqb (Py.strip (RacePage.cell row 0)) "Place")
      then RacePage.TeamResult (Py.strip (RacePage.cell row 0))
             (Py.strip (RacePage.cell row 1)) (Py.strip (RacePage.cell row 2))
           :: team_rows rest
      else team_rows rest
  end.

(** The rows of a custom meet file with no blank row in it. *)
Definition sample_meet_rows_no_blank : list (list string) :=
  [["Meet"]; ["Sep 1 2023"]; ["url"]; ["summary"];
   ["Place"; "Grade"; "Name"; "Athlete Link"; "Time"; "Team"; "Team Link";
    "Profile Pic"];
   ["2."; "11"; "Jane Doe"; "a"; "18:01.0"; "Ann Arbor Skyline"; "t"; "p"]].

(** The place of a race as the loop of [build_auto_bio] reads it:
    trimmed, without trailing periods; whether it is a digit string; and
    its value if it is one. *)
Definition race_place_text (r : AthleteBuilder.race) : string :=
  Py.rstrip_dot (Py.strip (AthleteBuilder.place r)).
Definition race_numeric (r : AthleteBuilder.race) : bool :=
  Py.isdigit (race_place_text r).
Definition race_place_value (r : AthleteBuilder.race) : Z :=
  Py.int_of_digits (race_place_text r).

(** [r] is the first of the races with the lowest numeric place: the
    numeric places before it are higher, those after it are not lower. *)
Definition first_lowest_place (races : list AthleteBuilder.race)
    (r : AthleteBuilder.race) : Prop :=
  ∃ l1 l2, races = l1 ++ r :: l2
    ∧ race_numeric r = true
    ∧ (∀ x, x ∈ l1 → race_numeric x = true →
         race_place_value r < race_place_value x)
    ∧ (∀ x, x ∈ l2 → race_numeric x = true →
         race_place_value r <= race_place_value x).

(** The seconds of a race. *)
Definition seconds_of (r : AthleteBuilder.race) : Py.result (option spec_float) :=
  AthleteBuilder.parse_time_to_seconds (AthleteBuilder.time r).

(** [r], of [s] seconds, is the first of the races with the lowest time:
    no race has a time below [s], and no race before [r] has [s] seconds. *)
Definition first_lowest_time (races : list AthleteBuilder.race)
    (r : AthleteBuilder.race) (s : spec_float) : Prop :=
  ∃ l1 l2, races = l1 ++ r :: l2
    ∧ seconds_of r = inr (Some s)
    ∧ (∀ x s', x ∈ races → seconds_of x = inr (Some s') → SFltb s' s = false)
    ∧ (∀ x, x ∈ l1 → seconds_of x ≠ inr (Some s)).

(** An athlete with four races: two share the lowest place, one has no
    place, one has no time. *)
Definition sample_races : list AthleteBuilder.race :=
  [AthleteBuilder.Race "12" "Invitational" "#" "17:01.2" "12.";
   AthleteBuilder.Race "12" "Regional" "#" "16:34.8PR" " 5. ";
   AthleteBuilder.Race "12" "Dual" "#" "n/a" "DNF";
   AthleteBuilder.Race "12" "Final" "#" "16:34.8" "5"].
Definition sample_athlete : AthleteBuilder.athlete :=
  AthleteBuilder.Athlete "Jane Doe" "12345" [] sample_races (Some "12").

(** What the loop knows of the best place after the races [races]. *)
Definition place_inv (races : list AthleteBuilder.race) (b : AthleteBuilder.bests) : Prop :=
  (AthleteBuilder.best_place b = None
   ∧ AthleteBuilder.best_place_str b = None
   ∧ AthleteBuilder.best_place_meet b = None
   ∧ ∀ r, r ∈ races → race_numeric r = false)
  ∨ ∃ r, first_lowest_place races r
      ∧ AthleteBuilder.best_place b = Some (race_place_value r)
      ∧ AthleteBuilder.best_place_str b
        = Some (AthleteBuilder.ordinal (race_place_text r))
      ∧ AthleteBuilder.best_place_meet b = Some (AthleteBuilder.meet r).

(** What it knows of the best time. *)
Definition time_inv (races : list AthleteBuilder.race) (b : AthleteBuilder.bests) : Prop :=
  (AthleteBuilder.best_time b = None
   ∧ AthleteBuilder.best_time_str b = None
   ∧ ∀ r, r ∈ races → seconds_of r = inr None)
  ∨ ∃ r s, first_lowest_time races r s
      ∧ AthleteBuilder.best_time b = Some s
      ∧ AthleteBuilder.best_time_str b = Some (AthleteBuilder.time r).

(** Whether a text begins with a digit. *)
Definition starts_with_digit (s : string) : bool :=
  match s with
  | String c _ => Py.chr_isdigit c
  | EmptyString => false
  end.


(** The files the loop of [home_builder.py] reads and does not skip, each
    with what the loop computes from it. *)
Definition read_files (csv_reader : list string → list (list string))
    (files : list (string * list string))
    : list (string * HomeBuilder.recent_race) :=
  omap (λ file,
    if HomeBuilder.is_csv file.1 then
      match HomeBuilder.process_file csv_reader file.2 with
      | inr entry => Some (file.1, entry)
      | inl _ => None
      end
    else None) files.

(** The value the loop stores for such a file. *)
Definition info_of (x : string * HomeBuilder.recent_race) : HomeBuilder.race_info :=
  HomeBuilder.RaceInfo (HomeBuilder.meet_date x.2) (HomeBuilder.skyline x.2)
    (HomeBuilder.race_html_of x.1).

(** The names of the Skyline rows of the meets of [recent_races], in the
    order the loops come to them. *)
Definition skyline_names (recent_races : list (string * HomeBuilder.race_info))
    : list string :=
  concat (map (λ item,
    map (λ r, MeetLines.safe_get r "Name" EmptyString)
      (HomeBuilder.info_skyline item.2)) recent_races).

(** * Properties *)

(** ** Ordinals *)

Lemma ordinal_agrees_upto_100 :
  forallb (λ k, ordinal_agrees (Z.of_nat k)) (seq 1 100) = true.
Proof. vm_compute. reflexivity. Qed.

(** C8.  For every [n] from 1 to 100, [ordinal(str(n))] is [n] followed by
    its English suffix, the teens taking [th] and the other numbers the
    suffix of their last digit, in [home_builder.py], [meet_builder.py] and
    [athlete_builder.py] alike; [ordinal] of [abc] is [abc], [ordinal] of
    the empty string is the empty string, and [ordinal] of [7.] is [7th]. *)
Theorem ordinal_small_numbers (n : Z) (Hn : 1 <= n <= 100) :
  HomeBuilder.ordinal (Py.str_of_int n) = Py.str_of_int n +:+ english_suffix n
  ∧ MeetBuilder.ordinal (Py.str_of_int n) = Py.str_of_int n +:+ english_suffix n
  ∧ AthleteBuilder.ordinal (Py.str_of_int n) = Py.str_of_int n +:+ english_suffix n
  ∧ HomeBuilder.ordinal "abc" = "abc"
  ∧ AthleteBuilder.ordinal "abc" = "abc"
  ∧ HomeBuilder.ordinal EmptyString = EmptyString
  ∧ AthleteBuilder.ordinal EmptyString = EmptyString
  ∧ HomeBuilder.ordinal "7." = "7th"
  ∧ AthleteBuilder.ordinal "7." = "7th".
Proof.
  assert (Hk : In (Z.to_nat n) (seq 1 100)) by (apply in_seq; lia).
  pose proof (proj1 (forallb_forall _ _) ordinal_agrees_upto_100 _ Hk) as Hok.
  cbv beta in Hok. rewrite Z2Nat.id in Hok by lia.
  unfold ordinal_agrees in Hok.
  apply andb_prop in Hok as [Hok Ha]. apply andb_prop in Hok as [Hh Hm].
  apply String.eqb_eq in Hh, Hm, Ha.
  repeat split; try assumption; reflexivity.
Qed.

Lemma ordinal_small_numbers_witness :
  HomeBuilder.ordinal (Py.str_of_int 22) = Py.str_of_int 22 +:+ english_suffix 22.
Proof. apply (ordinal_small_numbers 22). lia. Defined.

Lemma last_digit_of_mod_100 (n : Z) : n mod 10 = (n mod 100) mod 10.
Proof.
  symmetry. apply Z.mod_mod_divide. exists 10. reflexivity.
Qed.

Lemma suffix_boundaries_agree (n : Z) : suffix_10_20 n = suffix_11_13 n.
Proof.
  unfold suffix_10_20, suffix_11_13.
  rewrite (last_digit_of_mod_100 n).
  pose proof (Z.mod_pos_bound n 100 ltac:(lia)) as Hm.
  set (m := n mod 100) in *.
  destruct (10 <=? m) eqn:H10, (m <=? 20) eqn:H20,
           (11 <=? m) eqn:H11, (m <=? 13) eqn:H13; simpl; try reflexivity;
    try (apply Z.leb_le in H10); try (apply Z.leb_le in H20);
    try (apply Z.leb_le in H11); try (apply Z.leb_le in H13);
    try (apply Z.leb_gt in H10); try (apply Z.leb_gt in H20);
    try (apply Z.leb_gt in H11); try (apply Z.leb_gt in H13);
    try lia.
  - assert (Hc : m = 14 ∨ m = 15 ∨ m = 16 ∨ m = 17 ∨ m = 18 ∨ m = 19 ∨ m = 20)
      by lia.
    destruct Hc as [->|[->|[->|[->|[->|[->| ->]]]]]]; reflexivity.
  - assert (Hc : m = 10) by lia. rewrite Hc. reflexivity.
Qed.

Lemma isdigit_truthy (s : string) : Py.isdigit s = true → Py.truthy s = true.
Proof. unfold Py.isdigit. intros H. apply andb_prop in H. tauto. Qed.

Lemma strip_empty_input (s : string) :
  Py.truthy (Py.rstrip_dot (Py.strip s)) = true → Py.truthy s = true.
Proof. destruct s; [discriminate | reflexivity]. Qed.

(** C10.  On every input whose trimmed form without its trailing periods is
    a non-empty digit string, the ordinal with the boundary [10..20]
    ([home_builder.py], [meet_builder.py], [athlete_builder.py]) and the
    ordinal with the boundary [11..13] ([csv_to_race_page_html.py]) return
    the same string, because the two boundaries give every number the same
    suffix. *)
Theorem ordinal_boundaries_agree (s : string)
    (Hs : Py.isdigit (Py.rstrip_dot (Py.strip s)) = true) :
  HomeBuilder.ordinal s = RacePage.ordinal s
  ∧ MeetBuilder.ordinal s = RacePage.ordinal s
  ∧ AthleteBuilder.ordinal s = RacePage.ordinal s
  ∧ ∀ n : Z, suffix_10_20 n = suffix_11_13 n.
Proof.
  pose proof (strip_empty_input s (isdigit_truthy _ Hs)) as Ht.
  unfold HomeBuilder.ordinal, MeetBuilder.ordinal, AthleteBuilder.ordinal,
    RacePage.ordinal.
  rewrite Ht, Hs. simpl.
  rewrite suffix_boundaries_agree.
  repeat split. apply suffix_boundaries_agree.
Qed.

Lemma ordinal_boundaries_agree_witness :
  HomeBuilder.ordinal " 14. " = RacePage.ordinal " 14. ".
Proof. apply (ordinal_boundaries_agree " 14. "). reflexivity. Defined.

(** ** The stable sort *)

Section SortFacts.
Context {A : Type} (key : A → Z).

Local Abbreviation key_le := (key_le key).

Lemma insert_by_perm (x : A) (l : list A) : Py.insert_by key x l ≡ₚ x :: l.
Proof.
  induction l as [|y l IH]; simpl; [reflexivity|].
  destruct (key x <=? key y); [reflexivity|].
  rewrite IH. apply Permutation_swap.
Qed.

Lemma sort_by_perm (l : list A) : Py.sort_by key l ≡ₚ l.
Proof.
  induction l as [|x l IH]; simpl; [reflexivity|].
  rewrite insert_by_perm. by rewrite IH.
Qed.

Lemma insert_by_sorted (x : A) (l : list A) :
  StronglySorted key_le l → StronglySorted key_le (Py.insert_by key x l).
Proof.
  induction 1 as [|y l Hs IH Hall]; simpl.
  - repeat constructor.
  - destruct (key x <=? key y) eqn:Hxy.
    + apply Z.leb_le in Hxy. constructor; [by constructor|].
      constructor; [exact Hxy|].
      eapply Forall_impl; [exact Hall|]. unfold key_le. intros; simpl in *; lia.
    + apply Z.leb_gt in Hxy. constructor; [exact IH|].
      rewrite insert_by_perm. constructor; [unfold key_le; lia | exact Hall].
Qed.

Lemma sort_by_sorted (l : list A) : StronglySorted key_le (Py.sort_by key l).
Proof.
  induction l as [|x l IH]; simpl; [constructor|]. by apply insert_by_sorted.
Qed.

Section Stable.
Context (P : A → Prop) `{!∀ x, Decision (P x)}.

Lemma insert_by_filter_out (x : A) (l : list A) :
  ¬ P x → filter P (Py.insert_by key x l) = filter P l.
Proof.
  intros Hx. induction l as [|y l IH]; simpl.
  - by rewrite filter_cons_False.
  - destruct (key x <=? key y).
    + by rewrite (filter_cons_False _ x).
    + rewrite !(filter_cons _ y), IH. reflexivity.
Qed.

Lemma insert_by_filter_in (x : A) (l : list A) :
  P x → (∀ y, y ∈ l → key y < key x → ¬ P y) →
  filter P (Py.insert_by key x l) = x :: filter P l.
Proof.
  intros Hx. induction l as [|y l IH]; simpl; intros Hl.
  - by rewrite filter_cons_True.
  - destruct (key x <=? key y) eqn:Hxy.
    + by rewrite (filter_cons_True _ x).
    + apply Z.leb_gt in Hxy.
      assert (Hy : ¬ P y) by (apply Hl; [left | lia]).
      rewrite !(filter_cons_False _ y) by exact Hy.
      apply IH. intros z Hz. apply Hl. by right.
Qed.

(** The members of a class that shares one key keep their order. *)
Lemma sort_by_stable (l : list A) :
  (∀ a b, P a → P b → key a = key b) →
  filter P (Py.sort_by key l) = filter P l.
Proof.
  intros Hclass. induction l as [|x l IH]; simpl; [reflexivity|].
  destruct (decide (P x)) as [Hx|Hx].
  - rewrite insert_by_filter_in, IH, (filter_cons_True _ x); try done.
    intros y _ Hlt Hy. pose proof (Hclass _ _ Hx Hy). lia.
  - rewrite insert_by_filter_out, IH, (filter_cons_False _ x); done.
Qed.
End Stable.

Lemma last_insert_by (x : A) (l : list A) :
  StronglySorted key_le l →
  last (Py.insert_by key x l) =
    match last l with
    | None => Some x
    | Some y => if key x <=? key y then Some y else Some x
    end.
Proof.
  induction 1 as [|y l Hs IH Hall]; simpl; [reflexivity|].
  destruct (key x <=? key y) eqn:Hxy.
  - destruct l as [|z l]; simpl in *; [by rewrite Hxy|].
    change (last (z :: l)) with (last (y :: z :: l)).
    destruct (last (z :: l)) as [w|] eqn:Hw.
    + assert (Hin : w ∈ z :: l) by (apply last_Some_elem_of; exact Hw).
      rewrite Forall_forall in Hall. specialize (Hall w Hin).
      unfold key_le in Hall. apply Z.leb_le in Hxy.
      assert (Hle : (key x <=? key w) = true) by (apply Z.leb_le; lia).
      simpl in Hw. simpl. rewrite Hw, Hle. reflexivity.
    + apply last_None in Hw. discriminate.
  - destruct l as [|z l]; [simpl; by rewrite Hxy|].
    assert (Hne : Py.insert_by key x (z :: l) ≠ []).
    { intros Heq. pose proof (insert_by_perm x (z :: l)) as Hp.
      rewrite Heq in Hp. by apply Permutation_nil_cons in Hp. }
    destruct (Py.insert_by key x (z :: l)) as [|u v] eqn:Hins; [done|].
    change (last (y :: u :: v)) with (last (u :: v)).
    rewrite IH. reflexivity.
Qed.

(** The last element of the sorted list is the last element of the list
    that has the largest key. *)
Lemma last_sort_by (l : list A) :
  l ≠ [] →
  ∃ l1 r l2, l = l1 ++ r :: l2
    ∧ last (Py.sort_by key l) = Some r
    ∧ Forall (λ x, key x <= key r) l1
    ∧ Forall (λ x, key x < key r) l2.
Proof.
  induction l as [|x l IH]; [done|]. intros _. simpl.
  rewrite last_insert_by by apply sort_by_sorted.
  destruct l as [|x' l'].
  - exists [], x, []. simpl. repeat split; constructor.
  - destruct IH as (l1 & r & l2 & Hl & Hlast & H1 & H2); [done|].
    rewrite Hlast, Hl.
    destruct (key x <=? key r) eqn:Hxr.
    + apply Z.leb_le in Hxr. exists (x :: l1), r, l2.
      repeat split; try done. by constructor.
    + apply Z.leb_gt in Hxr. exists [], x, (l1 ++ r :: l2).
      repeat split; [constructor|].
      apply Forall_app. split.
      * eapply Forall_impl; [exact H1|]. intros; simpl in *; lia.
      * constructor; [lia|].
        eapply Forall_impl; [exact H2|]. intros; simpl in *; lia.
Qed.
End SortFacts.

(** ** The sort by place *)

Lemma sorted_lookup_le {A : Type} (R : A → A → Prop) (l : list A) (i j : nat) (a b : A) :
  StronglySorted R l → l !! i = Some a → l !! j = Some b → (i < j)%nat → R a b.
Proof.
  intros Hs. revert i j. induction Hs as [|x l Hs IH Hall]; intros i j Hi Hj Hlt.
  - by rewrite lookup_nil in Hi.
  - destruct j as [|j]; [lia|]. simpl in Hj.
    destruct i as [|i]; simpl in Hi.
    + injection Hi as ->. rewrite Forall_forall in Hall.
      apply Hall. apply list_elem_of_lookup. eauto.
    + apply (IH i j); [done..|lia].
Qed.

Lemma place_key_numeric (r : gmap string string) :
  numeric_place r = true → MeetLines.place_key r = place_value r.
Proof.
  unfold numeric_place, place_value, place_text, MeetLines.place_key,
    MeetLines.place_key_of. by intros ->.
Qed.

Lemma place_key_sentinel (r : gmap string string) :
  numeric_place r = false → MeetLines.place_key r = 999999.
Proof.
  unfold numeric_place, place_text, MeetLines.place_key, MeetLines.place_key_of.
  by intros ->.
Qed.

(** C5, as the claim states it, fails: a place above the sentinel is a
    number and still sorts behind a place that is not one. *)
Lemma place_above_sentinel_sorts_last :
  let sorted := Py.sort_by MeetLines.place_key [placed "abc"; placed "1000000"] in
  sorted !! 0%nat = Some (placed "abc")
  ∧ sorted !! 1%nat = Some (placed "1000000")
  ∧ numeric_place (placed "abc") = false
  ∧ numeric_place (placed "1000000") = true.
Proof. vm_compute. repeat split; reflexivity. Qed.

(** C5, amended.  The sort by [place_key] is a stable sort in ascending
    order of the key: the result is a rearrangement of the rows, its keys
    ascend, and the rows that share a key keep their order.  The key of a
    row whose place is a digit string is its value, and the key of any
    other row is 999999; so the rows whose place is not a number keep their
    order among themselves and stand behind every row whose place is a
    number below 999999.  Rows with the places 3, 1., abc, 2 come out in
    the order 1., 2, 3, abc. *)
Theorem place_sort_stable (rows : list (gmap string string)) :
  let sorted := Py.sort_by MeetLines.place_key rows in
  sorted ≡ₚ rows
  ∧ StronglySorted (key_le MeetLines.place_key) sorted
  ∧ (∀ k : Z, filter (λ r, MeetLines.place_key r = k) sorted
              = filter (λ r, MeetLines.place_key r = k) rows)
  ∧ (∀ r, MeetLines.place_key r
          = if numeric_place r then place_value r else 999999)
  ∧ filter (λ r, numeric_place r = false) sorted
    = filter (λ r, numeric_place r = false) rows
  ∧ (∀ (i j : nat) r1 r2,
       sorted !! i = Some r1 → sorted !! j = Some r2 →
       numeric_place r1 = true → place_value r1 < 999999 →
       numeric_place r2 = false → (i < j)%nat)
  ∧ Py.sort_by MeetLines.place_key
      [placed "3"; placed "1."; placed "abc"; placed "2"]
    = [placed "1."; placed "2"; placed "3"; placed "abc"].
Proof.
  intros sorted.
  pose proof (sort_by_sorted MeetLines.place_key rows) as Hsorted.
  split; [apply sort_by_perm|]. split; [exact Hsorted|].
  split; [intros k; apply sort_by_stable; congruence|].
  split.
  { intros r. destruct (numeric_place r) eqn:Hr;
      [by apply place_key_numeric | by apply place_key_sentinel]. }
  split.
  { apply sort_by_stable. intros a b Ha Hb.
    by rewrite !place_key_sentinel. }
  split; [|vm_compute; reflexivity].
  intros i j r1 r2 Hi Hj Hn1 Hv1 Hn2.
  destruct (decide (i < j)%nat) as [|Hge]; [done|exfalso].
  destruct (decide (i = j)) as [->|Hne].
  - rewrite Hi in Hj. injection Hj as ->. congruence.
  - pose proof (sorted_lookup_le _ _ j i r2 r1 Hsorted Hj Hi ltac:(lia)) as Hle.
    unfold key_le in Hle.
    rewrite (place_key_numeric r1 Hn1), (place_key_sentinel r2 Hn2) in Hle. lia.
Qed.

Lemma place_sort_stable_witness :
  let sorted := Py.sort_by MeetLines.place_key [placed "abc"; placed "7"] in
  sorted !! 0%nat = Some (placed "7")
  ∧ sorted !! 1%nat = Some (placed "abc")
  ∧ numeric_place (placed "7") = true
  ∧ place_value (placed "7") < 999999
  ∧ numeric_place (placed "abc") = false
  ∧ (0 < 1)%nat.
Proof.
  assert (H0 : Py.sort_by MeetLines.place_key [placed "abc"; placed "7"] !! 0%nat
               = Some (placed "7")) by (vm_compute; reflexivity).
  assert (H1 : Py.sort_by MeetLines.place_key [placed "abc"; placed "7"] !! 1%nat
               = Some (placed "abc")) by (vm_compute; reflexivity).
  assert (Hn : numeric_place (placed "7") = true) by (vm_compute; reflexivity).
  assert (Hv : place_value (placed "7") < 999999) by (vm_compute; reflexivity).
  assert (Hs : numeric_place (placed "abc") = false) by (vm_compute; reflexivity).
  repeat split; try assumption.
  exact (proj1 (proj2 (proj2 (proj2 (proj2 (proj2
    (place_sort_stable [placed "abc"; placed "7"]))))))
    0%nat 1%nat (placed "7") (placed "abc") H0 H1 Hn Hv Hs).
Defined.

(** ** Athlete files: the classification of the rows *)

Lemma classify_rows_omap (dict_rows : list (gmap string string)) :
  AthleteBuilder.classify_rows dict_rows
  = (omap season_of dict_rows, omap race_of dict_rows).
Proof.
  induction dict_rows as [|dr rest IH]; simpl; [reflexivity|].
  rewrite IH. unfold season_of, race_of.
  destruct (AthleteBuilder.classify dr); reflexivity.
Qed.

Lemma read_rows_inv (rows : list (list string)) (c : AthleteBuilder.classified) :
  AthleteBuilder.read_rows rows = inr c →
  ∃ idx header,
    AthleteBuilder.find_header_index rows = Some (idx, header)
    ∧ let dict_rows :=
        AthleteBuilder.dict_rows_of (map Py.strip header) (drop (S idx) rows) in
      AthleteBuilder.c_season_records c = omap season_of dict_rows
      ∧ AthleteBuilder.c_races c = omap race_of dict_rows.
Proof.
  unfold AthleteBuilder.read_rows.
  destruct (AthleteBuilder.find_header_index rows) as [[idx header]|]; [|discriminate].
  rewrite classify_rows_omap. intros [= <-]. exists idx, header. by simpl.
Qed.

(** C1.  Every row of the data is classified by two rules, tried in this
    order.  If its [Overall Place] is exactly four digits and its [Grade] is
    not empty, it gives a season record (the place as the year, the grade,
    the time) and no race.  Otherwise, if its [Meet] is not empty, it gives
    a race, whose url is [Meet URL], or [#] when that is empty.  Otherwise
    it gives nothing.  [season_records] and [races] are what the rows give,
    in the order of the rows, and they are what [parse_athlete_csv] holds
    for the rows behind the header that are not blank.  A row with the
    place 2023 and the grade 11 is a season record; a row with the meet
    Invitational, the place 2023 and no grade is a race. *)
Theorem row_classification (dr : gmap string string) :
  let overall_place := Py.strip (AthleteBuilder.safe_get dr "Overall Place") in
  let grade := Py.strip (AthleteBuilder.safe_get dr "Grade") in
  let time := Py.strip (AthleteBuilder.safe_get dr "Time") in
  let meet := Py.strip (AthleteBuilder.safe_get dr "Meet") in
  let meet_url := Py.strip (AthleteBuilder.safe_get dr "Meet URL") in
  (is_season_row dr = true →
     season_of dr = Some (AthleteBuilder.SeasonRecord overall_place grade time)
     ∧ race_of dr = None)
  ∧ (is_season_row dr = false → Py.truthy meet = true →
     season_of dr = None
     ∧ race_of dr = Some (AthleteBuilder.Race grade meet
                           (if Py.truthy meet_url then meet_url else "#")
                           time overall_place))
  ∧ (is_season_row dr = false → Py.truthy meet = false →
     season_of dr = None ∧ race_of dr = None)
  ∧ (∀ dict_rows,
       AthleteBuilder.classify_rows dict_rows
       = (omap season_of dict_rows, omap race_of dict_rows))
  ∧ (∀ rows c, AthleteBuilder.read_rows rows = inr c →
       ∃ idx header,
         AthleteBuilder.find_header_index rows = Some (idx, header)
         ∧ let dict_rows :=
             AthleteBuilder.dict_rows_of (map Py.strip header) (drop (S idx) rows) in
           AthleteBuilder.c_season_records c = omap season_of dict_rows
           ∧ AthleteBuilder.c_races c = omap race_of dict_rows)
  ∧ AthleteBuilder.classify (Py.dict_zip ["Overall Place"; "Grade"] ["2023"; "11"])
    = AthleteBuilder.SeasonRow (AthleteBuilder.SeasonRecord "2023" "11" EmptyString)
  ∧ AthleteBuilder.classify
      (Py.dict_zip ["Meet"; "Overall Place"; "Grade"]
                   ["Invitational"; "2023"; EmptyString])
    = AthleteBuilder.RaceRow
        (AthleteBuilder.Race EmptyString "Invitational" "#" EmptyString "2023").
Proof.
  intros overall_place grade time meet meet_url.
  unfold season_of, race_of, is_season_row, AthleteBuilder.classify.
  fold overall_place grade time meet meet_url.
  split; [by intros ->|].
  split; [by intros -> ->|].
  split; [by intros -> ->|].
  split; [apply classify_rows_omap|].
  split; [apply read_rows_inv|].
  split; vm_compute; reflexivity.
Qed.

Lemma row_classification_witness :
  let dr := Py.dict_zip ["Overall Place"; "Grade"; "Time"] ["2023"; "11"; "16:34.8"] in
  is_season_row dr = true
  ∧ season_of dr = Some (AthleteBuilder.SeasonRecord "2023" "11" "16:34.8")
  ∧ race_of dr = None.
Proof.
  intros dr.
  assert (H : is_season_row dr = true) by (vm_compute; reflexivity).
  split; [exact H|].
  exact (proj1 (row_classification dr) H).
Defined.

(** ** Athlete files: the most recent grade *)

Lemma season_of_digits (dr : gmap string string) (x : AthleteBuilder.season_record) :
  season_of dr = Some x →
  Py.isdigit (AthleteBuilder.year x) = true
  ∧ Py.truthy (AthleteBuilder.sr_grade x) = true.
Proof.
  unfold season_of, AthleteBuilder.classify.
  destruct (Py.isdigit _ && _ && Py.truthy _) eqn:Hc.
  - intros [= <-]. simpl.
    apply andb_prop in Hc as [Hc ?]. apply andb_prop in Hc as [? _]. done.
  - by destruct (Py.truthy (Py.strip (AthleteBuilder.safe_get dr "Meet"))).
Qed.

Lemma year_key_of_season (dict_rows : list (gmap string string)) :
  Forall (λ x, AthleteBuilder.year_key x = Py.int_of_digits (AthleteBuilder.year x))
    (omap season_of dict_rows).
Proof.
  apply Forall_forall. intros x Hx.
  apply list_elem_of_omap in Hx as (dr & _ & Hdr).
  apply season_of_digits in Hdr as [Hd _].
  unfold AthleteBuilder.year_key. by rewrite Hd.
Qed.

Lemma backfill_length (g : option string) (races : list AthleteBuilder.race) :
  length (AthleteBuilder.backfill g races) = length races.
Proof.
  unfold AthleteBuilder.backfill.
  destruct g as [g|]; [|done]. destruct (Py.truthy g); [|done].
  by rewrite length_map.
Qed.

Lemma backfill_lookup (g : option string) (races : list AthleteBuilder.race)
    (i : nat) (r0 : AthleteBuilder.race) :
  races !! i = Some r0 →
  ∃ r, AthleteBuilder.backfill g races !! i = Some r
    ∧ AthleteBuilder.meet r = AthleteBuilder.meet r0
    ∧ AthleteBuilder.url r = AthleteBuilder.url r0
    ∧ AthleteBuilder.time r = AthleteBuilder.time r0
    ∧ AthleteBuilder.place r = AthleteBuilder.place r0
    ∧ AthleteBuilder.grade r
      = if Py.truthy (AthleteBuilder.grade r0) then AthleteBuilder.grade r0
        else Py.default_or g EmptyString.
Proof.
  intros Hi. unfold AthleteBuilder.backfill.
  destruct g as [g|]; simpl.
  - destruct (Py.truthy g) eqn:Hg.
    + rewrite list_lookup_fmap, Hi. simpl.
      destruct (Py.truthy (AthleteBuilder.grade r0)) eqn:Hr0; simpl.
      * by exists r0.
      * by exists (AthleteBuilder.with_grade g r0).
    + exists r0. repeat split; [done|].
      destruct g; [|discriminate].
      by destruct (AthleteBuilder.grade r0).
  - exists r0. repeat split; [done|]. by destruct (AthleteBuilder.grade r0).
Qed.

(** C3.  After the post-processing of [parse_athlete_csv], the most recent
    grade is absent when there is no season record, and otherwise it is the
    grade of the season record with the largest year, the last of them when
    several have it.  The races are the classified races, in their order,
    with the meet, url, time and place they had; a race whose grade was not
    blank keeps its grade, and a race whose grade was blank has the most
    recent grade, or stays blank when there is none.  So when every race
    had a blank grade and the most recent grade is 12, every race has the
    grade 12. *)
Theorem grade_backfill (rows : list (list string)) (a : AthleteBuilder.athlete)
    (Ha : AthleteBuilder.parse_athlete_csv rows = inr a) :
  ∃ c, AthleteBuilder.read_rows rows = inr c
    ∧ AthleteBuilder.season_records a = AthleteBuilder.c_season_records c
    ∧ (AthleteBuilder.season_records a = [] →
       AthleteBuilder.most_recent_grade a = None)
    ∧ (AthleteBuilder.season_records a ≠ [] →
       ∃ l1 r l2,
         AthleteBuilder.season_records a = l1 ++ r :: l2
         ∧ AthleteBuilder.most_recent_grade a = Some (AthleteBuilder.sr_grade r)
         ∧ Py.truthy (AthleteBuilder.sr_grade r) = true
         ∧ Forall (λ x, Py.int_of_digits (AthleteBuilder.year x)
                        <= Py.int_of_digits (AthleteBuilder.year r)) l1
         ∧ Forall (λ x, Py.int_of_digits (AthleteBuilder.year x)
                        < Py.int_of_digits (AthleteBuilder.year r)) l2)
    ∧ length (AthleteBuilder.races a) = length (AthleteBuilder.c_races c)
    ∧ (∀ i r0, AthleteBuilder.c_races c !! i = Some r0 →
       ∃ r, AthleteBuilder.races a !! i = Some r
         ∧ AthleteBuilder.meet r = AthleteBuilder.meet r0
         ∧ AthleteBuilder.url r = AthleteBuilder.url r0
         ∧ AthleteBuilder.time r = AthleteBuilder.time r0
         ∧ AthleteBuilder.place r = AthleteBuilder.place r0
         ∧ AthleteBuilder.grade r
           = if Py.truthy (AthleteBuilder.grade r0) then AthleteBuilder.grade r0
             else Py.default_or (AthleteBuilder.most_recent_grade a) EmptyString)
    ∧ (AthleteBuilder.most_recent_grade a = Some "12" →
       Forall (λ r0, AthleteBuilder.grade r0 = EmptyString) (AthleteBuilder.c_races c) →
       Forall (λ r, AthleteBuilder.grade r = "12") (AthleteBuilder.races a)).
Proof.
  unfold AthleteBuilder.parse_athlete_csv in Ha.
  destruct (AthleteBuilder.read_rows rows) as [e|c] eqn:Hc; [discriminate|].
  simpl in Ha. injection Ha as <-. exists c. simpl.
  destruct (read_rows_inv rows c Hc) as (idx & header & _ & Hseasons & _).
  split; [done|]. split; [done|].
  split; [by intros ->|].
  split.
  { intros Hne. unfold AthleteBuilder.most_recent_grade_of.
    destruct (last_sort_by AthleteBuilder.year_key _ Hne)
      as (l1 & r & l2 & Hl & Hlast & H1 & H2).
    destruct (AthleteBuilder.c_season_records c) as [|x l] eqn:Hsr; [done|].
    unfold Py.last_item. rewrite Hlast. simpl.
    exists l1, r, l2. split; [done|]. split; [done|].
    pose proof (year_key_of_season
      (AthleteBuilder.dict_rows_of (map Py.strip header) (drop (S idx) rows))) as Hk.
    rewrite <- Hseasons, Hl in Hk.
    apply Forall_app in Hk as [Hk1 Hk2]. apply Forall_cons in Hk2 as [Hkr Hk2].
    assert (Hr : r ∈ omap season_of
      (AthleteBuilder.dict_rows_of (map Py.strip header) (drop (S idx) rows))).
    { rewrite <- Hseasons, Hl. apply elem_of_app. right. left. }
    apply list_elem_of_omap in Hr as (dr & _ & Hdr).
    apply season_of_digits in Hdr as [_ Hg].
    split; [done|]. split.
    - eapply Forall_impl; [exact (proj2 (Forall_and _ _) (conj Hk1 H1))|].
      simpl. intros y [Hy Hle]. lia.
    - eapply Forall_impl; [exact (proj2 (Forall_and _ _) (conj Hk2 H2))|].
      simpl. intros y [Hy Hle]. lia. }
  split; [apply backfill_length|].
  split; [intros i r0; apply backfill_lookup|].
  intros Hg Hblank. apply Forall_forall. intros r Hr.
  apply list_elem_of_lookup in Hr as [i Hi].
  assert (Hlt : (i < length (AthleteBuilder.c_races c))%nat).
  { rewrite <- (backfill_length
      (AthleteBuilder.most_recent_grade_of (AthleteBuilder.c_season_records c))).
    by eapply lookup_lt_Some. }
  apply lookup_lt_is_Some_2 in Hlt as [r0 Hr0].
  destruct (backfill_lookup
    (AthleteBuilder.most_recent_grade_of (AthleteBuilder.c_season_records c))
    _ _ _ Hr0) as (r' & Hr' & _ & _ & _ & _ & Hgrade).
  rewrite Hi in Hr'. injection Hr' as <-.
  rewrite Forall_forall in Hblank.
  rewrite (Hblank r0) in Hgrade by (apply list_elem_of_lookup; eauto).
  simpl in Hgrade. rewrite Hg in Hgrade. exact Hgrade.
Qed.

Lemma grade_backfill_witness :
  ∃ a, AthleteBuilder.parse_athlete_csv sample_athlete_rows = inr a
    ∧ AthleteBuilder.most_recent_grade a = Some "12"
    ∧ Forall (λ r, AthleteBuilder.grade r = "12") (AthleteBuilder.races a).
Proof.
  eexists. split; [vm_compute; reflexivity|].
  split; [vm_compute; reflexivity|].
  match goal with
  | |- Forall _ (AthleteBuilder.races ?a) =>
      destruct (grade_backfill sample_athlete_rows a ltac:(vm_compute; reflexivity))
        as (c & Hc & _ & _ & _ & _ & _ & Hall)
  end.
  apply Hall; [vm_compute; reflexivity|].
  vm_compute in Hc. injection Hc as <-.
  repeat constructor.
Defined.

(** ** Meet files: the rows of the individual results *)

Section MeetFacts.
Variable unescape : string → string.
Variable csv_reader : list string → list (list string).

Lemma meet_process_file_inv (lines : list string) (page : MeetBuilder.meet_page) :
  MeetBuilder.process_file unescape csv_reader lines = inr page →
  ∃ i j header row data,
    (6 <= length lines)%nat
    ∧ MeetBuilder.find_line_index lines "Place,Team,Score" = Some i
    ∧ MeetBuilder.find_line_index lines "Place,Grade,Name," = Some j
    ∧ MeetLines.parse_csv_block csv_reader (MeetLines.block_from j lines)
      = header :: row :: data
    ∧ MeetBuilder.indiv_header page = header
    ∧ MeetBuilder.indiv_dicts page = MeetLines.row_dicts header (row :: data)
    ∧ MeetBuilder.skyline page
      = MeetLines.skyline_of MeetBuilder.SKYLINE_TEAM_NAME
          (MeetBuilder.indiv_dicts page).
Proof.
  unfold MeetBuilder.process_file.
  destruct (length lines <? 6)%nat eqn:Hlen; [discriminate|].
  apply Nat.ltb_ge in Hlen.
  destruct (MeetBuilder.find_line_index lines "Place,Team,Score") as [i|];
    [|discriminate].
  destruct (MeetBuilder.find_line_index lines "Place,Grade,Name,") as [j|];
    [|discriminate].
  destruct (MeetLines.parse_csv_block csv_reader (MeetLines.block_from j lines))
    as [|header [|row data]] eqn:Hrows; try discriminate.
  intros [= <-]. exists i, j, header, row, data. by simpl.
Qed.

Lemma home_process_file_inv (lines : list string) (entry : HomeBuilder.recent_race) :
  HomeBuilder.process_file csv_reader lines = inr entry →
  ∃ i j header row data,
    (6 <= length lines)%nat
    ∧ HomeBuilder.find_line_index lines "Place,Team" = Some i
    ∧ HomeBuilder.find_line_index lines "Place,Grade,Name" = Some j
    ∧ MeetLines.parse_csv_block csv_reader (MeetLines.block_from j lines)
      = header :: row :: data
    ∧ HomeBuilder.indiv_dicts entry = MeetLines.row_dicts header (row :: data)
    ∧ HomeBuilder.skyline entry
      = MeetLines.skyline_of HomeBuilder.SKYLINE_TEAM_NAME
          (HomeBuilder.indiv_dicts entry).
Proof.
  unfold HomeBuilder.process_file.
  destruct (length lines <? 6)%nat eqn:Hlen; [discriminate|].
  apply Nat.ltb_ge in Hlen.
  destruct (HomeBuilder.find_line_index lines "Place,Team") as [i|];
    [|discriminate].
  destruct (HomeBuilder.find_line_index lines "Place,Grade,Name") as [j|];
    [|discriminate].
  destruct (MeetLines.parse_csv_block csv_reader (MeetLines.block_from j lines))
    as [|header [|row data]] eqn:Hrows; try discriminate.
  intros [= <-]. exists i, j, header, row, data. by simpl.
Qed.

(** A file with its lines and headers is skipped or not by the number of
    rows of the individual block alone. *)
Lemma meet_process_file_rows (lines : list string) (i j : nat) :
  (6 <= length lines)%nat →
  MeetBuilder.find_line_index lines "Place,Team,Score" = Some i →
  MeetBuilder.find_line_index lines "Place,Grade,Name," = Some j →
  let rows := MeetLines.parse_csv_block csv_reader (MeetLines.block_from j lines) in
  (tail rows = [] →
     MeetBuilder.process_file unescape csv_reader lines = inl MeetLines.NoDataRows)
  ∧ (tail rows ≠ [] →
     ∃ page, MeetBuilder.process_file unescape csv_reader lines = inr page).
Proof.
  intros Hlen Hi Hj rows. unfold MeetBuilder.process_file.
  apply Nat.ltb_ge in Hlen. rewrite Hlen, Hi, Hj. fold rows.
  destruct rows as [|header [|row data]]; simpl; split; try done; eauto.
Qed.

Lemma home_process_file_rows (lines : list string) (i j : nat) :
  (6 <= length lines)%nat →
  HomeBuilder.find_line_index lines "Place,Team" = Some i →
  HomeBuilder.find_line_index lines "Place,Grade,Name" = Some j →
  let rows := MeetLines.parse_csv_block csv_reader (MeetLines.block_from j lines) in
  (tail rows = [] →
     HomeBuilder.process_file csv_reader lines = inl MeetLines.NoDataRows)
  ∧ (tail rows ≠ [] →
     ∃ entry, HomeBuilder.process_file csv_reader lines = inr entry).
Proof.
  intros Hlen Hi Hj rows. unfold HomeBuilder.process_file.
  apply Nat.ltb_ge in Hlen. rewrite Hlen, Hi, Hj. fold rows.
  destruct rows as [|header [|row data]]; simpl; split; try done; eauto.
Qed.

Lemma row_dicts_length (header : list string) (data : list (list string)) :
  length (MeetLines.row_dicts header data) = length data.
Proof. unfold MeetLines.row_dicts. apply length_map. Qed.

End MeetFacts.

Lemma parse_custom_meet_csv_succeeds (unescape : string → string)
    (rows : list (list string)) :
  (5 <= length rows)%nat →
  Forall (λ row, row ≠ []) (take 4 rows) →
  ∃ m, RacePage.parse_custom_meet_csv unescape rows = inr m
    ∧ RacePage.individual_results m
      = RacePage.individual_loop
          (RacePage.skip_header (RacePage.team_loop (drop 4 rows)).2).
Proof.
  intros Hlen Hne. unfold RacePage.parse_custom_meet_csv.
  apply Nat.ltb_ge in Hlen. rewrite Hlen.
  destruct rows as [|r0 [|r1 [|r2 [|r3 rest]]]]; try (simpl in Hlen; discriminate).
  simpl in Hne.
  apply Forall_cons in Hne as [H0 Hne]. apply Forall_cons in Hne as [H1 Hne].
  apply Forall_cons in Hne as [H2 Hne]. apply Forall_cons in Hne as [H3 _].
  destruct r0 as [|c0 ?], r1 as [|c1 ?], r2 as [|c2 ?], r3 as [|c3 ?]; try done.
  simpl. rewrite !drop_0.
  destruct (RacePage.team_loop rest) as [found behind].
  eexists. split; reflexivity.
Qed.

(** C2, as the claim states it, fails for [parse_custom_meet_csv]: a file
    with the header of the individual results and no row behind it gives a
    record, and the individual results of the record are empty. *)
Lemma custom_meet_without_data_rows :
  RacePage.parse_custom_meet_csv Html.unescape sample_meet_rows_no_data
  = inr (RacePage.Meet "Sample Invitational" "Sep 1 2023"
           "https://example.org/meet/1" "Fast & flat"
           [RacePage.TeamResult "1" "Ann Arbor Skyline" "20"] []).
Proof. vm_compute. reflexivity. Qed.

(** C2, amended.  In [meet_builder.py] and in [home_builder.py] a file that
    has its six lines and its two headers is skipped, for want of data
    rows, exactly when the individual block has no row behind its first
    one; so every file these two scripts do not skip has one row of
    individual results or more.  [parse_custom_meet_csv] has no such test:
    with five rows or more, the first four of them not empty, it returns a
    record, whose individual results are the rows of eight cells or more
    behind the team results, and may be none. *)
Theorem data_rows_required (unescape : string → string)
    (csv_reader : list string → list (list string)) (lines : list string) :
  (∀ page, MeetBuilder.process_file unescape csv_reader lines = inr page →
     (1 <= length (MeetBuilder.indiv_dicts page))%nat)
  ∧ (∀ entry, HomeBuilder.process_file csv_reader lines = inr entry →
     (1 <= length (HomeBuilder.indiv_dicts entry))%nat)
  ∧ (∀ i j, (6 <= length lines)%nat →
     MeetBuilder.find_line_index lines "Place,Team,Score" = Some i →
     MeetBuilder.find_line_index lines "Place,Grade,Name," = Some j →
     (tail (MeetLines.parse_csv_block csv_reader (MeetLines.block_from j lines)) = [] →
        MeetBuilder.process_file unescape csv_reader lines = inl MeetLines.NoDataRows)
     ∧ (tail (MeetLines.parse_csv_block csv_reader (MeetLines.block_from j lines)) ≠ [] →
        ∃ page, MeetBuilder.process_file unescape csv_reader lines = inr page))
  ∧ (∀ i j, (6 <= length lines)%nat →
     HomeBuilder.find_line_index lines "Place,Team" = Some i →
     HomeBuilder.find_line_index lines "Place,Grade,Name" = Some j →
     (tail (MeetLines.parse_csv_block csv_reader (MeetLines.block_from j lines)) = [] →
        HomeBuilder.process_file csv_reader lines = inl MeetLines.NoDataRows)
     ∧ (tail (MeetLines.parse_csv_block csv_reader (MeetLines.block_from j lines)) ≠ [] →
        ∃ entry, HomeBuilder.process_file csv_reader lines = inr entry))
  ∧ (∀ rows, (5 <= length rows)%nat → Forall (λ row, row ≠ []) (take 4 rows) →
     ∃ m, RacePage.parse_custom_meet_csv unescape rows = inr m
       ∧ RacePage.individual_results m
         = RacePage.individual_loop
             (RacePage.skip_header (RacePage.team_loop (drop 4 rows)).2)).
Proof.
  split.
  { intros page Hp.
    destruct (meet_process_file_inv _ _ _ _ Hp)
      as (i & j & header & row & data & _ & _ & _ & _ & _ & -> & _).
    rewrite row_dicts_length. simpl. lia. }
  split.
  { intros entry He.
    destruct (home_process_file_inv _ _ _ He)
      as (i & j & header & row & data & _ & _ & _ & _ & -> & _).
    rewrite row_dicts_length. simpl. lia. }
  split; [intros i j; apply meet_process_file_rows|].
  split; [intros i j; apply home_process_file_rows|].
  intros rows. apply parse_custom_meet_csv_succeeds.
Qed.

Lemma data_rows_required_witness :
  ∃ page,
    MeetBuilder.process_file Html.unescape Csv.reader sample_meet_lines = inr page
    ∧ (1 <= length (MeetBuilder.indiv_dicts page))%nat.
Proof.
  eexists. split; [vm_compute; reflexivity|].
  apply (proj1 (data_rows_required Html.unescape Csv.reader sample_meet_lines)).
  vm_compute. reflexivity.
Defined.

(** ** Meet files: the team filter *)

Lemma skyline_of_sorted_filter (team_name : string)
    (indiv_dicts : list (gmap string string)) :
  MeetLines.skyline_of team_name indiv_dicts
  = Py.sort_by MeetLines.place_key (filter (team_is team_name) indiv_dicts).
Proof.
  unfold MeetLines.skyline_of.
  rewrite (list_filter_iff _ (team_is team_name)).
  - by destruct (filter (team_is team_name) indiv_dicts).
  - intros r. unfold MeetLines.is_skyline, team_is. apply String.eqb_eq.
Qed.

Lemma runners_filter (m : RacePage.meet) :
  RacePage.runners m
  = match filter team_is_lowered (RacePage.individual_results m) with
    | [] => RacePage.individual_results m
    | r :: rs => r :: rs
    end.
Proof.
  unfold RacePage.runners.
  rewrite (list_filter_iff _ team_is_lowered);
    [by destruct (filter team_is_lowered (RacePage.individual_results m))|].
  intros r. unfold RacePage.is_skyline, team_is_lowered. apply String.eqb_eq.
Qed.

(** C6, as the claim states it, fails for [build_race_page_html]: when no
    row is of the team, the table shows every row, and a team name in other
    letter case passes the filter. *)
Lemma race_page_filter_falls_back :
  RacePage.runners (meet_of [runner_of "Pioneer"]) = [runner_of "Pioneer"]
  ∧ RacePage.runners
      (meet_of [runner_of "ANN ARBOR SKYLINE"; runner_of "Pioneer"])
    = [runner_of "ANN ARBOR SKYLINE"].
Proof. vm_compute. split; reflexivity. Qed.

(** C6, amended.  In [meet_builder.py] and [home_builder.py] the rows of a
    file that is not skipped are filtered to those whose trimmed team is,
    letter for letter, [Ann Arbor Skyline], and sorted by place; a file
    with its lines, its headers and its data rows is not skipped whatever
    the teams are, and when no row is of the team the filtered rows are
    none.  In [build_race_page_html] the rows are filtered to those whose
    trimmed team, in lower case, is [ann arbor skyline], and when no row
    passes, all the rows are shown. *)
Theorem team_filter (unescape : string → string)
    (csv_reader : list string → list (list string)) (lines : list string) :
  (∀ page, MeetBuilder.process_file unescape csv_reader lines = inr page →
     MeetBuilder.skyline page
     = Py.sort_by MeetLines.place_key
         (filter (team_is "Ann Arbor Skyline") (MeetBuilder.indiv_dicts page))
     ∧ (filter (team_is "Ann Arbor Skyline") (MeetBuilder.indiv_dicts page) = [] →
        MeetBuilder.skyline page = []))
  ∧ (∀ entry, HomeBuilder.process_file csv_reader lines = inr entry →
     HomeBuilder.skyline entry
     = Py.sort_by MeetLines.place_key
         (filter (team_is "Ann Arbor Skyline") (HomeBuilder.indiv_dicts entry))
     ∧ (filter (team_is "Ann Arbor Skyline") (HomeBuilder.indiv_dicts entry) = [] →
        HomeBuilder.skyline entry = []))
  ∧ (∀ i j, (6 <= length lines)%nat →
     MeetBuilder.find_line_index lines "Place,Team,Score" = Some i →
     MeetBuilder.find_line_index lines "Place,Grade,Name," = Some j →
     tail (MeetLines.parse_csv_block csv_reader (MeetLines.block_from j lines)) ≠ [] →
     ∃ page, MeetBuilder.process_file unescape csv_reader lines = inr page)
  ∧ (∀ i j, (6 <= length lines)%nat →
     HomeBuilder.find_line_index lines "Place,Team" = Some i →
     HomeBuilder.find_line_index lines "Place,Grade,Name" = Some j →
     tail (MeetLines.parse_csv_block csv_reader (MeetLines.block_from j lines)) ≠ [] →
     ∃ entry, HomeBuilder.process_file csv_reader lines = inr entry)
  ∧ (∀ m, RacePage.runners m
          = match filter team_is_lowered (RacePage.individual_results m) with
            | [] => RacePage.individual_results m
            | r :: rs => r :: rs
            end).
Proof.
  split.
  { intros page Hp.
    destruct (meet_process_file_inv _ _ _ _ Hp)
      as (i & j & header & row & data & _ & _ & _ & _ & _ & _ & ->).
    rewrite skyline_of_sorted_filter. unfold MeetBuilder.SKYLINE_TEAM_NAME.
    split; [done|]. by intros ->. }
  split.
  { intros entry He.
    destruct (home_process_file_inv _ _ _ He)
      as (i & j & header & row & data & _ & _ & _ & _ & _ & ->).
    rewrite skyline_of_sorted_filter. unfold HomeBuilder.SKYLINE_TEAM_NAME.
    split; [done|]. by intros ->. }
  split.
  { intros i j Hlen Hi Hj.
    apply (meet_process_file_rows unescape csv_reader lines i j Hlen Hi Hj). }
  split.
  { intros i j Hlen Hi Hj.
    apply (home_process_file_rows csv_reader lines i j Hlen Hi Hj). }
  apply runners_filter.
Qed.

Lemma team_filter_witness :
  ∃ page,
    MeetBuilder.process_file Html.unescape Csv.reader sample_meet_lines = inr page
    ∧ MeetBuilder.skyline page
      = Py.sort_by MeetLines.place_key
          (filter (team_is "Ann Arbor Skyline") (MeetBuilder.indiv_dicts page)).
Proof.
  eexists. split; [vm_compute; reflexivity|].
  apply (proj1 (team_filter Html.unescape Csv.reader sample_meet_lines)).
  vm_compute. reflexivity.
Defined.

(** ** Meet files: short rows *)

Lemma foldl_insert_blank (key : string) (kvs : list (string * string))
    (d : gmap string string) :
  Forall (λ kv, kv.2 = EmptyString) kvs →
  key ∈ kvs.*1 ∨ d !! key = Some EmptyString →
  foldl (λ d kv, <[kv.1 := kv.2]> d) d kvs !! key = Some EmptyString.
Proof.
  revert d. induction kvs as [|[k v] kvs IH]; intros d Hblank Hkey; simpl.
  - destruct Hkey as [Hkey|Hkey]; [by apply elem_of_nil in Hkey | done].
  - apply Forall_cons in Hblank as [Hv Hblank]. simpl in Hv. subst v.
    apply IH; [done|].
    destruct (decide (key ∈ kvs.*1)) as [Hin|Hout]; [by left|right].
    destruct (decide (k = key)) as [->|Hne]; [by rewrite lookup_insert_eq|].
    rewrite lookup_insert_ne by done.
    destruct Hkey as [Hkey|Hkey]; [|done].
    simpl in Hkey. apply elem_of_cons in Hkey as [->|Hkey]; done.
Qed.

Lemma pad_short (header row : list string) :
  (length row < length header)%nat →
  MeetLines.pad header row
  = row ++ replicate (length header - length row) EmptyString
  ∧ length (MeetLines.pad header row) = length header.
Proof.
  intros Hlt. unfold MeetLines.pad.
  apply Nat.ltb_lt in Hlt as Hb. rewrite Hb. split; [done|].
  rewrite length_app, length_replicate. lia.
Qed.

(** A cell the row does not reach reads back as the empty string, also
    when another column has its name. *)
Lemma padded_cell_blank (header row : list string) (j : nat) (key default : string) :
  (length row <= j)%nat → header !! j = Some key →
  MeetLines.safe_get (Py.dict_zip header (MeetLines.pad header row)) key default
  = EmptyString.
Proof.
  intros Hj Hkey.
  pose proof (lookup_lt_Some _ _ _ Hkey) as Hlt.
  destruct (pad_short header row ltac:(lia)) as [-> _].
  unfold MeetLines.safe_get, Py.dict_get, Py.dict_zip.
  rewrite <- (take_drop (length row) header) at 1.
  rewrite zip_with_app by (rewrite length_take; lia).
  rewrite foldl_app, foldl_insert_blank; [done| |].
  - apply Forall_forall. intros [k v] Hkv. simpl.
    apply elem_of_zip_r in Hkv. by apply elem_of_replicate_inv in Hkv.
  - left. rewrite fst_zip by (rewrite length_drop, length_replicate; lia).
    apply (list_elem_of_lookup_2 _ (j - length row)).
    rewrite lookup_drop. rewrite <- Hkey. f_equal. lia.
Qed.

Lemma individual_loop_short (row : list string) (rest : list (list string)) :
  (length row < 8)%nat →
  RacePage.individual_loop (row :: rest) = RacePage.individual_loop rest.
Proof.
  intros Hlt. simpl. apply Nat.ltb_lt in Hlt. rewrite Hlt.
  by destruct (RacePage.blank row).
Qed.

(** C7, as the claim states it, fails for [parse_custom_meet_csv]: a row of
    seven cells is not padded, it is left out of the individual results. *)
Lemma custom_meet_drops_short_row :
  RacePage.individual_loop
    [["2."; "11"; "Jane Doe"; "https://example.org/a/1"; "18:01.0";
      "Ann Arbor Skyline"; EmptyString]]
  = [].
Proof. reflexivity. Qed.

(** C7, amended.  In [meet_builder.py] and [home_builder.py] a data row
    with fewer cells than the header is padded on the right with empty
    strings to the length of the header before it is zipped with the
    header, so every field the row does not reach reads back as the empty
    string, and each data row gives one dictionary, by a function that has
    no failing case.  In [parse_custom_meet_csv] a row with fewer than
    eight cells raises nothing either, but it is not padded: the loop
    passes over it. *)
Theorem short_rows_tolerated (header row : list string)
    (Hshort : (length row < length header)%nat) :
  MeetLines.pad header row
  = row ++ replicate (length header - length row) EmptyString
  ∧ length (MeetLines.pad header row) = length header
  ∧ (∀ (j : nat) key default,
       (length row <= j)%nat → header !! j = Some key →
       MeetLines.safe_get (Py.dict_zip header (MeetLines.pad header row)) key default
       = EmptyString)
  ∧ (∀ data, length (MeetLines.row_dicts header data) = length data)
  ∧ (∀ rest, (length row < 8)%nat →
       RacePage.individual_loop (row :: rest) = RacePage.individual_loop rest).
Proof.
  destruct (pad_short header row Hshort) as [Hpad Hlen].
  split; [done|]. split; [done|].
  split; [intros j key default; apply padded_cell_blank|].
  split; [apply row_dicts_length|].
  intros rest. apply individual_loop_short.
Qed.

Lemma short_rows_tolerated_witness :
  MeetLines.safe_get
    (Py.dict_zip ["Place"; "Grade"; "Name"; "Team"]
       (MeetLines.pad ["Place"; "Grade"; "Name"; "Team"] ["3."; "12"; "Amy Poe"]))
    "Team" "-"
  = EmptyString.
Proof.
  apply (proj1 (proj2 (proj2
    (short_rows_tolerated ["Place"; "Grade"; "Name"; "Team"]
       ["3."; "12"; "Amy Poe"] ltac:(simpl; lia)))) 3%nat);
    [simpl; lia | reflexivity].
Defined.

(** ** Times *)

Lemma re_sub_go_skip (matcher : string → option nat) (repl : string)
    (k : nat) (s : string) :
  Py.re_sub_go matcher repl k s = Py.re_sub_go matcher repl 0 (string_drop k s).
Proof.
  revert k. induction s as [|c r IH]; intros [|k]; simpl; try reflexivity.
  apply IH.
Qed.

Lemma filter_lstrip (p q : ascii → bool) (s : string) :
  (∀ c, q c = true → p c = false) →
  Py.filter_chars p (Py.lstrip_by q s) = Py.filter_chars p s.
Proof.
  intros Hpq. induction s as [|c r IH]; simpl; [reflexivity|].
  destruct (q c) eqn:Hq; [|reflexivity].
  by rewrite (Hpq c Hq).
Qed.

Lemma filter_rstrip (p q : ascii → bool) (s : string) :
  (∀ c, q c = true → p c = false) →
  Py.filter_chars p (Py.rstrip_by q s) = Py.filter_chars p s.
Proof.
  intros Hpq. induction s as [|c r IH]; simpl; [reflexivity|].
  destruct (Py.rstrip_by q r) as [|d r'] eqn:Hr.
  - simpl in IH. destruct (q c) eqn:Hq.
    + rewrite (Hpq c Hq). exact IH.
    + simpl. by rewrite <- IH.
  - simpl. simpl in IH. by rewrite IH.
Qed.

Lemma space_not_kept (c : ascii) :
  Py.chr_isspace c = true → AthleteBuilder.kept c = false.
Proof.
  destruct c as [[] [] [] [] [] [] [] []]; vm_compute; congruence.
Qed.

Lemma filter_strip (s : string) :
  Py.filter_chars AthleteBuilder.kept (Py.strip s)
  = Py.filter_chars AthleteBuilder.kept s.
Proof.
  unfold Py.strip.
  rewrite filter_rstrip, filter_lstrip; auto using space_not_kept.
Qed.

Lemma re_sub_other (s : string) :
  Py.re_sub AthleteBuilder.other_match EmptyString s
  = Py.filter_chars AthleteBuilder.kept s.
Proof.
  unfold Py.re_sub. induction s as [|c r IH]; simpl; [reflexivity|].
  destruct (AthleteBuilder.kept c); simpl; by rewrite IH.
Qed.

Lemma annotation_not_kept (a b : ascii) :
  (AthleteBuilder.chr_is "p" a || AthleteBuilder.chr_is "s" a)
  && AthleteBuilder.chr_is "r" b = true →
  AthleteBuilder.kept a = false ∧ AthleteBuilder.kept b = false.
Proof.
  assert (Hletter : ∀ c, AthleteBuilder.chr_is "p" c || AthleteBuilder.chr_is "s" c
                         || AthleteBuilder.chr_is "r" c = true →
                         AthleteBuilder.kept c = false).
  { intros c. destruct c as [[] [] [] [] [] [] [] []]; vm_compute; congruence. }
  intros H. apply andb_prop in H as [Ha Hb]. split; apply Hletter.
  - by rewrite Ha.
  - rewrite Hb. apply orb_true_r.
Qed.

Lemma star_not_kept (a : ascii) :
  Py.chr_eqb a "*" = true → AthleteBuilder.kept a = false.
Proof. intros Ha. apply Ascii.eqb_eq in Ha. by subst a. Qed.

Lemma filter_annotations_upto (n : nat) (s : string) :
  (String.length s <= n)%nat →
  Py.filter_chars AthleteBuilder.kept
    (Py.re_sub AthleteBuilder.annotation_match EmptyString s)
  = Py.filter_chars AthleteBuilder.kept s.
Proof.
  unfold Py.re_sub. revert s.
  induction n as [|n IH]; intros [|a r] Hlen; simpl in *; try reflexivity; try lia.
  destruct (Py.chr_eqb a "*") eqn:Hstar.
  - simpl. rewrite (star_not_kept a Hstar). apply IH. lia.
  - destruct r as [|b r'].
    + simpl. reflexivity.
    + destruct ((AthleteBuilder.chr_is "p" a || AthleteBuilder.chr_is "s" a)
                && AthleteBuilder.chr_is "r" b) eqn:Hpr.
      * destruct (annotation_not_kept a b Hpr) as [Ha Hb].
        cbn [Py.re_sub_go String.append Py.filter_chars].
        rewrite Ha, Hb. apply IH. simpl in Hlen. lia.
      * cbn [Py.filter_chars]. rewrite (IH (String b r')) by lia. reflexivity.
Qed.

(** What [parse_time_to_seconds] parses is its argument without the
    characters that are not digits, colons or periods: the annotations and
    the white space go with them. *)
Lemma clean_time_filter (t : string) :
  AthleteBuilder.clean_time t = Py.filter_chars AthleteBuilder.kept t.
Proof.
  unfold AthleteBuilder.clean_time.
  rewrite re_sub_other, filter_strip.
  rewrite (filter_annotations_upto (String.length (Py.strip t))) by lia.
  apply filter_strip.
Qed.

Lemma split_without_separator (s : string) :
  Py.contains ":" s = false → Py.split_on ":" s = [s].
Proof.
  induction s as [|c r IH]; [reflexivity|].
  cbn [Py.contains Py.startswith Py.split_on].
  rewrite andb_true_r. intros Hc. apply orb_false_elim in Hc as [Hc Hr].
  unfold Py.chr_eqb in *. rewrite Ascii.eqb_sym in Hc. rewrite Hc.
  by rewrite (IH Hr).
Qed.

Lemma int_raises_ValueError (s : string) (e : Py.exn) :
  Py.int s = inl e → e = Py.ValueError.
Proof. unfold Py.int. destruct (Py.isdigit s); [discriminate | by intros [= <-]]. Qed.

Lemma float_raises_ValueError (s : string) (e : Py.exn) :
  Py.float s = inl e → e = Py.ValueError.
Proof.
  unfold Py.float.
  destruct (Py.split_on "." s) as [|a [|b [|? ?]]]; try (by intros [= <-]).
  - destruct (Py.isdigit a); [discriminate | by intros [= <-]].
  - destruct (_ && _); [discriminate | by intros [= <-]].
Qed.

Lemma float_of_int_raises_OverflowError (n : Z) (e : Py.exn) :
  Py.float_of_int n = inl e → e = Py.OverflowError.
Proof.
  unfold Py.float_of_int.
  destruct (binary_normalize _ _ _ _ _); try discriminate. by intros [= <-].
Qed.

(** The result of [parse_time_to_seconds] on every argument. *)
Lemma parse_time_to_seconds_cases (t : string) :
  AthleteBuilder.parse_time_to_seconds t
  = match Py.split_on ":" (Py.filter_chars AthleteBuilder.kept t) with
    | [minutes_part; seconds_part] =>
        match Py.int minutes_part, Py.float seconds_part with
        | inr minutes, inr seconds =>
            match Py.float_of_int (minutes * 60) with
            | inr whole => inr (Some (Py.float_add whole seconds))
            | inl e => inl e
            end
        | _, _ => inr None
        end
    | _ => inr None
    end.
Proof.
  unfold AthleteBuilder.parse_time_to_seconds.
  destruct (Py.truthy t) eqn:Ht; [|by destruct t].
  rewrite clean_time_filter. simpl negb. cbv iota.
  destruct (Py.contains ":" (Py.filter_chars AthleteBuilder.kept t)) eqn:Hc.
  - simpl negb. cbv iota.
    destruct (Py.split_on ":" _) as [|m [|sec [|? ?]]]; try reflexivity.
    destruct (Py.int m) as [e1|minutes] eqn:Hm.
    { by rewrite (int_raises_ValueError _ _ Hm). }
    destruct (Py.float sec) as [e2|seconds] eqn:Hs.
    { by rewrite (float_raises_ValueError _ _ Hs). }
    simpl. destruct (Py.float_of_int (minutes * 60)) as [e3|whole] eqn:Hw.
    { by rewrite (float_of_int_raises_OverflowError _ _ Hw). }
    reflexivity.
  - by rewrite (split_without_separator _ Hc).
Qed.

(** C4.  [parse_time_to_seconds] takes the annotations out, discards every
    character other than digits, colon and period, and returns [None]
    unless what is left splits at colons in two parts, the first an
    integer and the second a decimal number; the times 16:34.8PR and
    21:08.4 give the floats 994.8 and 1268.4, and [bogus] and the empty
    string give [None].  But where the claim has the function return
    minutes * 60 + seconds, the function raises [OverflowError] when
    minutes * 60 is beyond the floats: the addition converts the integer,
    and the handler catches [ValueError] alone. *)
Theorem parse_time_to_seconds_raises :
  AthleteBuilder.parse_time_to_seconds overflowing_time = inl Py.OverflowError
  ∧ (∀ t, AthleteBuilder.clean_time t = Py.filter_chars AthleteBuilder.kept t)
  ∧ (∀ t, (∀ m sec, Py.split_on ":" (AthleteBuilder.clean_time t) ≠ [m; sec]) →
          AthleteBuilder.parse_time_to_seconds t = inr None)
  ∧ (∀ t m sec, Py.split_on ":" (AthleteBuilder.clean_time t) = [m; sec] →
       AthleteBuilder.parse_time_to_seconds t
       = match Py.int m, Py.float sec with
         | inr minutes, inr seconds =>
             match Py.float_of_int (minutes * 60) with
             | inr whole => inr (Some (Py.float_add whole seconds))
             | inl e => inl e
             end
         | _, _ => inr None
         end)
  ∧ (∃ x, AthleteBuilder.parse_time_to_seconds "16:34.8PR" = inr (Some x)
          ∧ Py.float "994.8" = inr x)
  ∧ (∃ x, AthleteBuilder.parse_time_to_seconds "21:08.4" = inr (Some x)
          ∧ Py.float "1268.4" = inr x)
  ∧ AthleteBuilder.parse_time_to_seconds "bogus" = inr None
  ∧ AthleteBuilder.parse_time_to_seconds EmptyString = inr None.
Proof.
  split; [vm_compute; reflexivity|].
  split; [apply clean_time_filter|].
  split.
  { intros t Hno. rewrite parse_time_to_seconds_cases, <- clean_time_filter.
    destruct (Py.split_on ":" _) as [|m [|sec [|? ?]]]; try reflexivity.
    by destruct (Hno m sec). }
  split.
  { intros t m sec Hsplit.
    by rewrite parse_time_to_seconds_cases, <- clean_time_filter, Hsplit. }
  split; [eexists; split; vm_compute; reflexivity|].
  split; [eexists; split; vm_compute; reflexivity|].
  split; vm_compute; reflexivity.
Qed.

(** ** Summaries *)

Lemma append_cons (c : ascii) (r s : string) :
  String c r +:+ s = String c (r +:+ s).
Proof. reflexivity. Qed.

Lemma append_empty_r (s : string) : s +:+ EmptyString = s.
Proof.
  induction s as [|c r IH]; [reflexivity|]. by rewrite append_cons, IH.
Qed.

Lemma append_assoc (a b c : string) : (a +:+ b) +:+ c = a +:+ (b +:+ c).
Proof.
  induction a as [|x a IH]; [reflexivity|]. by rewrite !append_cons, IH.
Qed.

Lemma rev_app_append (s acc : string) :
  String.rev_app s acc = String.rev s +:+ acc.
Proof.
  unfold String.rev. revert acc.
  induction s as [|c r IH]; intros acc; simpl; [reflexivity|].
  rewrite (IH (String c acc)), (IH (String c EmptyString)).
  by rewrite append_assoc.
Qed.

Lemma rev_cons (c : ascii) (w : string) :
  String.rev (String c w) = String.rev w +:+ String c EmptyString.
Proof. unfold String.rev at 1. simpl. apply rev_app_append. Qed.

Lemma join_cons (sep p : string) (ps : list string) :
  Py.join sep (p :: ps)
  = p +:+ match ps with
          | [] => EmptyString
          | _ :: _ => sep +:+ Py.join sep ps
          end.
Proof. destruct ps; simpl; [by rewrite append_empty_r | reflexivity]. Qed.

Lemma split_ws_go_word (w s : string) : Py.split_ws_go (Some w) s ≠ [].
Proof.
  revert w. induction s as [|c r IH]; intros w; simpl; [done|].
  destruct (Py.chr_isspace c); [done | apply IH].
Qed.

(** The joined words of a text are what the one pass writes. *)
Lemma join_split_ws_go (s : string) :
  (∀ w, Py.join " " (Py.split_ws_go (Some w) s) = String.rev w +:+ collapse InWord s)
  ∧ Py.join " " (Py.split_ws_go None s) = collapse Start s
  ∧ collapse Gap s
    = match Py.split_ws_go None s with
      | [] => EmptyString
      | _ :: _ => " " +:+ Py.join " " (Py.split_ws_go None s)
      end.
Proof.
  induction s as [|c r (IH1 & IH2 & IH3)].
  - simpl. split; [intros w; by rewrite append_empty_r | done].
  - cbn [Py.split_ws_go collapse].
    destruct (Py.chr_isspace c); (split; [intros w | split]).
    + rewrite join_cons, IH3. reflexivity.
    + exact IH2.
    + exact IH3.
    + rewrite IH1, rev_cons, append_assoc. reflexivity.
    + rewrite IH1. reflexivity.
    + destruct (Py.split_ws_go (Some (String c EmptyString)) r) eqn:Hw;
        [by apply split_ws_go_word in Hw|].
      rewrite <- Hw, IH1. reflexivity.
Qed.

Lemma join_split_ws (s : string) :
  Py.join " " (Py.split_ws s) = collapse Start s.
Proof. apply join_split_ws_go. Qed.

Lemma not_space_not_blank (c : ascii) :
  Py.chr_isspace c = false → Py.chr_eqb c " " = false.
Proof.
  intros Hc. destruct (Py.chr_eqb c " ") eqn:He; [|done].
  apply Ascii.eqb_eq in He. subst c. discriminate.
Qed.

Lemma collapse_ws_collapsed (s : string) :
  ws_collapsed_go false (collapse InWord s) = true
  ∧ ws_collapsed_go false (collapse Gap s) = true
  ∧ ws_collapsed (collapse Start s) = true.
Proof.
  induction s as [|c r (IH1 & IH2 & IH3)]; [done|].
  cbn [collapse]. destruct (Py.chr_isspace c) eqn:Hc; [done|].
  pose proof (not_space_not_blank c Hc) as Hb.
  unfold ws_collapsed. cbn [ws_collapsed_go]. simpl.
  rewrite Hb, Hc, IH1. done.
Qed.

Lemma collapse_rstrip (st : reading) (s : string) :
  Py.rstrip_by Py.chr_isspace (collapse st s) = collapse st s.
Proof.
  revert st. induction s as [|c r IH]; intros st; [reflexivity|].
  cbn [collapse]. destruct (Py.chr_isspace c) eqn:Hc.
  - destruct st; apply IH.
  - assert (Hword : Py.rstrip_by Py.chr_isspace (String c (collapse InWord r))
                    = String c (collapse InWord r)).
    { cbn [Py.rstrip_by]. rewrite IH, Hc. by destruct (collapse InWord r). }
    destruct st; try exact Hword.
    cbn [Py.rstrip_by]. cbn [Py.rstrip_by] in Hword. rewrite Hword. reflexivity.
Qed.

Lemma collapse_lstrip (s : string) :
  Py.lstrip_by Py.chr_isspace (collapse Start s) = collapse Start s.
Proof.
  induction s as [|c r IH]; [reflexivity|].
  cbn [collapse]. destruct (Py.chr_isspace c) eqn:Hc; [exact IH|].
  simpl. by rewrite Hc.
Qed.

Lemma collapse_strip (s : string) :
  Py.strip (collapse Start s) = collapse Start s.
Proof. unfold Py.strip. by rewrite collapse_lstrip, collapse_rstrip. Qed.

Lemma has_gt_cons (c : ascii) (r : string) :
  has_gt (String c r) = Py.chr_eqb c ">" || has_gt r.
Proof.
  unfold has_gt. simpl. destruct (Py.chr_eqb c ">"); [done|].
  by destruct (MeetLines.index_gt r).
Qed.

Lemma tag_here_cons (c : ascii) (x : string) :
  tag_here (String c x)
  = Py.chr_eqb c "<"
    && match x with
       | EmptyString => false
       | String d x' => negb (Py.chr_eqb d ">") && has_gt x'
       end.
Proof.
  unfold tag_here, has_gt. simpl. destruct x as [|d x']; simpl.
  - by rewrite andb_false_r.
  - destruct (Py.chr_eqb c "<"), (Py.chr_eqb d ">"); simpl; try done.
    by destruct (MeetLines.index_gt x').
Qed.

(** No tag begins at a [<] that has nothing behind it, or a [>] next to it,
    or no [>] behind it at all. *)
Lemma tag_here_false (c : ascii) (x : string) :
  x = EmptyString ∨ (∃ x', x = String ">" x') ∨ has_gt x = false →
  tag_here (String c x) = false.
Proof.
  rewrite tag_here_cons. intros [->|[[x' ->]|Hgt]].
  - apply andb_false_r.
  - simpl. apply andb_false_r.
  - destruct x as [|d x']; [apply andb_false_r|].
    rewrite has_gt_cons in Hgt. apply orb_false_elim in Hgt as [_ ->].
    by rewrite !andb_false_r.
Qed.

Lemma tag_here_false_inv (c : ascii) (x : string) :
  tag_here (String c x) = false →
  Py.chr_eqb c "<" = false
  ∨ x = EmptyString ∨ (∃ x', x = String ">" x') ∨ has_gt x = false.
Proof.
  rewrite tag_here_cons.
  destruct (Py.chr_eqb c "<"); [|by left]. right.
  destruct x as [|d x']; [by left|]. right.
  simpl in H. destruct (Py.chr_eqb d ">") eqn:Hd; simpl in H.
  - left. apply Ascii.eqb_eq in Hd. subst d. by exists x'.
  - right. by rewrite has_gt_cons, Hd, H.
Qed.

Lemma space_not_gt (c : ascii) :
  Py.chr_isspace c = true → Py.chr_eqb c ">" = false.
Proof.
  intros Hc. destruct (Py.chr_eqb c ">") eqn:He; [|done].
  apply Ascii.eqb_eq in He. subst c. discriminate.
Qed.

Lemma space_not_lt (c : ascii) :
  Py.chr_isspace c = true → Py.chr_eqb c "<" = false.
Proof.
  intros Hc. destruct (Py.chr_eqb c "<") eqn:He; [|done].
  apply Ascii.eqb_eq in He. subst c. discriminate.
Qed.

Lemma collapse_has_gt (st : reading) (s : string) :
  has_gt (collapse st s) = has_gt s.
Proof.
  revert st. induction s as [|c r IH]; intros st; [reflexivity|].
  cbn [collapse]. rewrite has_gt_cons.
  destruct (Py.chr_isspace c) eqn:Hc.
  - rewrite (space_not_gt c Hc). destruct st; apply IH.
  - destruct st; rewrite ?has_gt_cons, IH; reflexivity.
Qed.

Lemma has_tag_space (x : string) : has_tag (String " " x) = has_tag x.
Proof. cbn [has_tag]. by rewrite tag_here_cons. Qed.

(** Collapsing the white space of a text without tags makes no tag. *)
Lemma collapse_has_tag (st : reading) (s : string) :
  has_tag s = false → has_tag (collapse st s) = false.
Proof.
  revert st. induction s as [|c r IH]; intros st; [done|].
  cbn [has_tag]. intros Hs. apply orb_false_elim in Hs as [Hhere Hr].
  cbn [collapse]. destruct (Py.chr_isspace c) eqn:Hc.
  - destruct st; by apply IH.
  - assert (Hword : has_tag (String c (collapse InWord r)) = false).
    { cbn [has_tag]. rewrite (IH InWord Hr), orb_false_r.
      apply tag_here_false_inv in Hhere as [Hlt|[->|[[r' ->]|Hgt]]].
      - by rewrite tag_here_cons, Hlt.
      - apply tag_here_false. by left.
      - apply tag_here_false. right. left. cbn [collapse].
        assert (Py.chr_isspace ">" = false) as -> by reflexivity. eauto.
      - apply tag_here_false. right. right. by rewrite collapse_has_gt. }
    destruct st; [exact Hword..|]. by rewrite has_tag_space.
Qed.

Lemma tag_match_length (s : string) (k : nat) :
  MeetLines.tag_match s = Some k → (3 <= k)%nat.
Proof.
  unfold MeetLines.tag_match. destruct s as [|c [|d r]]; try discriminate.
  destruct (_ && _); [|discriminate].
  destruct (MeetLines.index_gt r); [|discriminate].
  intros [= <-]. lia.
Qed.

Lemma re_sub_has_gt (matcher : string → option nat) (k : nat) (s : string) :
  has_gt s = false → has_gt (Py.re_sub_go matcher EmptyString k s) = false.
Proof.
  revert k. induction s as [|c r IH]; intros k; [done|].
  rewrite has_gt_cons. intros Hs. apply orb_false_elim in Hs as [Hc Hr].
  cbn [Py.re_sub_go]. destruct k as [|k]; [|by apply IH].
  destruct (matcher (String c r)) as [[|k]|].
  - by rewrite has_gt_cons, Hc, IH.
  - by apply IH.
  - by rewrite has_gt_cons, Hc, IH.
Qed.

(** What is left when the tags are taken out has no tag. *)
Lemma re_sub_tag_has_tag (k : nat) (s : string) :
  has_tag (Py.re_sub_go MeetLines.tag_match EmptyString k s) = false.
Proof.
  revert k. induction s as [|c r IH]; intros k; [done|].
  cbn [Py.re_sub_go]. destruct k as [|k]; [|apply IH].
  destruct (MeetLines.tag_match (String c r)) as [[|k]|] eqn:Hm.
  - apply tag_match_length in Hm. lia.
  - apply IH.
  - cbn [has_tag]. rewrite IH, orb_false_r.
    assert (Hhere : tag_here (String c r) = false) by (unfold tag_here; by rewrite Hm).
    apply tag_here_false_inv in Hhere as [Hlt|[->|[[r' ->]|Hgt]]].
    + by rewrite tag_here_cons, Hlt.
    + apply tag_here_false. by left.
    + apply tag_here_false. right. left. cbn [Py.re_sub_go].
      assert (MeetLines.tag_match (String ">" r') = None) as ->
        by (by destruct r').
      eauto.
    + apply tag_here_false. right. right. by apply re_sub_has_gt.
Qed.

Lemma strip_html_collapse (unescape : string → string) (text : string) :
  Py.truthy text = true →
  MeetLines.strip_html unescape text
  = collapse Start (Py.re_sub MeetLines.tag_match EmptyString (unescape text)).
Proof.
  intros Ht. unfold MeetLines.strip_html. rewrite Ht. simpl negb. cbv iota.
  by rewrite join_split_ws, collapse_strip.
Qed.

(** C9, as the claim states it, fails for [strip_html_tags]: the tags are
    taken out before the entities are unescaped, so markup written with
    entities comes out as markup. *)
Lemma race_page_summary_keeps_encoded_markup :
  RacePage.strip_html_tags Html.unescape "&lt;b&gt;bold&lt;/b&gt; finish"
  = "<b>bold</b> finish"
  ∧ has_tag (RacePage.strip_html_tags Html.unescape
               "&lt;b&gt;bold&lt;/b&gt; finish") = true
  ∧ MeetLines.strip_html Html.unescape "&lt;b&gt;bold&lt;/b&gt; finish"
    = "bold finish".
Proof. vm_compute. repeat split; reflexivity. Qed.

(** C9, amended.  [strip_html] of [home_builder.py] and [meet_builder.py]
    unescapes the entities first, then takes the tags out, then joins the
    words of the text with single spaces: its result has no tag, whatever
    the entities stood for, and its white space is collapsed, with none at
    either end.  [strip_html_tags] of [csv_to_race_page_html.py] turns the
    tags of the [br] family into newlines and takes the other tags out
    before it unescapes the entities, and trims the result; it keeps the
    line breaks and the runs of white space inside the text. *)
Theorem summary_plain_text (unescape : string → string) (text : string) :
  (Py.truthy text = true →
     MeetLines.strip_html unescape text
     = Py.join " " (Py.split_ws
         (Py.re_sub MeetLines.tag_match EmptyString (unescape text))))
  ∧ has_tag (MeetLines.strip_html unescape text) = false
  ∧ ws_collapsed (MeetLines.strip_html unescape text) = true
  ∧ (∃ plain,
       plain = Py.re_sub MeetLines.tag_match EmptyString
                 (Py.re_sub RacePage.br_match RacePage.newline text)
       ∧ has_tag plain = false
       ∧ RacePage.strip_html_tags unescape text = Py.strip (unescape plain))
  ∧ RacePage.strip_html_tags Html.unescape "Line 1<br/>Line  2 "
    = "Line 1" +:+ RacePage.newline +:+ "Line  2"
  ∧ MeetLines.strip_html Html.unescape "Line 1<br/>Line  2 "
    = "Line 1Line 2".
Proof.
  split.
  { intros Ht. rewrite (strip_html_collapse unescape text Ht).
    symmetry. apply join_split_ws. }
  assert (Hcases : Py.truthy text = true ∨ MeetLines.strip_html unescape text = EmptyString).
  { destruct text; [right; reflexivity | left; reflexivity]. }
  split.
  { destruct Hcases as [Ht| ->]; [|reflexivity].
    rewrite (strip_html_collapse unescape text Ht).
    apply collapse_has_tag. apply re_sub_tag_has_tag. }
  split.
  { destruct Hcases as [Ht| ->]; [|reflexivity].
    rewrite (strip_html_collapse unescape text Ht).
    apply collapse_ws_collapsed. }
  split.
  { eexists. split; [reflexivity|]. split; [apply re_sub_tag_has_tag | reflexivity]. }
  split; vm_compute; reflexivity.
Qed.

Lemma summary_plain_text_witness :
  MeetLines.strip_html Html.unescape "<p>Fast &amp;  flat &lt;i&gt;course&lt;/i&gt;</p>"
  = Py.join " " (Py.split_ws
      (Py.re_sub MeetLines.tag_match EmptyString
         (Html.unescape "<p>Fast &amp;  flat &lt;i&gt;course&lt;/i&gt;</p>"))).
Proof.
  apply (proj1 (summary_plain_text Html.unescape
                  "<p>Fast &amp;  flat &lt;i&gt;course&lt;/i&gt;</p>")).
  reflexivity.
Defined.

(** ** The decimal digits of an integer *)

Lemma int_acc_app (a : Z) (x y : string) :
  Py.int_acc a (x +:+ y) = Py.int_acc (Py.int_acc a x) y.
Proof.
  revert a. induction x as [|c x IH]; intros a; [reflexivity|].
  rewrite append_cons. simpl. apply IH.
Qed.

Lemma str_pos_acc_app (fuel : nat) (n : Z) (acc : string) :
  Py.str_pos_acc fuel n acc = Py.str_pos_acc fuel n EmptyString +:+ acc.
Proof.
  revert n acc. induction fuel as [|fuel IH]; intros n acc; [reflexivity|].
  simpl. destruct (n <? 10); [reflexivity|].
  rewrite (IH _ (String _ acc)), (IH _ (String _ EmptyString)).
  by rewrite append_assoc.
Qed.

Lemma digit_value_char (d : Z) :
  0 <= d < 10 → Py.digit_value (Py.digit_char d) = d.
Proof.
  intros Hd.
  assert (Hc : d = 0 ∨ d = 1 ∨ d = 2 ∨ d = 3 ∨ d = 4 ∨ d = 5 ∨ d = 6 ∨ d = 7
               ∨ d = 8 ∨ d = 9) by lia.
  destruct Hc as [->|[->|[->|[->|[->|[->|[->|[->|[->| ->]]]]]]]]]; reflexivity.
Qed.

Lemma int_of_str_pos_acc (fuel : nat) (n : Z) :
  0 <= n < 10 ^ Z.of_nat fuel →
  Py.int_acc 0 (Py.str_pos_acc fuel n EmptyString) = n.
Proof.
  revert n. induction fuel as [|fuel IH]; intros n Hn.
  - simpl in Hn. assert (n = 0) as -> by lia. reflexivity.
  - rewrite Nat2Z.inj_succ, Z.pow_succ_r in Hn by lia.
    pose proof (Z.mod_pos_bound n 10 ltac:(lia)) as Hmod.
    pose proof (Z.div_mod n 10 ltac:(lia)) as Hdiv.
    cbn [Py.str_pos_acc]. destruct (n <? 10) eqn:Hlt.
    + apply Z.ltb_lt in Hlt. simpl.
      rewrite digit_value_char by lia. rewrite Z.mod_small; lia.
    + apply Z.ltb_ge in Hlt.
      rewrite str_pos_acc_app, int_acc_app, IH.
      * simpl. rewrite digit_value_char by lia. lia.
      * split; [apply Z.div_pos; lia|].
        apply Z.div_lt_upper_bound; lia.
Qed.

(** The fuel of [str_of_int] is enough: the digits it writes are a decimal
    numeral, the one [int] reads back as the number. *)
Lemma int_of_str_of_int (n : Z) :
  0 <= n → Py.int_of_digits (Py.str_of_int n) = n.
Proof.
  intros Hn. unfold Py.int_of_digits, Py.str_of_int.
  apply int_of_str_pos_acc. split; [done|].
  rewrite Nat2Z.inj_succ, Z2Nat.id by apply Z.log2_nonneg.
  destruct (decide (n = 0)) as [->|Hne]; [reflexivity|].
  pose proof (Z.log2_spec n ltac:(lia)) as [_ Hlog].
  pose proof (Z.log2_nonneg n) as Hnn.
  assert (2 ^ Z.succ (Z.log2 n) <= 10 ^ Z.succ (Z.log2 n))
    by (apply Z.pow_le_mono_l; lia).
  lia.
Qed.

(** * Further properties *)

(** ** Ordinals of every number *)

Lemma english_suffix_10_20 (n : Z) : suffix_10_20 n = english_suffix n.
Proof.
  unfold suffix_10_20, english_suffix, suffix_by_last_digit.
  rewrite (last_digit_of_mod_100 n).
  pose proof (Z.mod_pos_bound n 100 ltac:(lia)) as Hm.
  set (m := n mod 100) in *.
  destruct (10 <=? m) eqn:H10, (m <=? 20) eqn:H20,
           (11 <=? m) eqn:H11, (m <=? 19) eqn:H19; simpl; try reflexivity;
    try (apply Z.leb_le in H10); try (apply Z.leb_le in H20);
    try (apply Z.leb_le in H11); try (apply Z.leb_le in H19);
    try (apply Z.leb_gt in H10); try (apply Z.leb_gt in H20);
    try (apply Z.leb_gt in H11); try (apply Z.leb_gt in H19);
    try lia.
  - assert (m = 20) as -> by lia. reflexivity.
  - assert (m = 10) as -> by lia. reflexivity.
Qed.

Lemma digit_value_bounds (c : ascii) :
  Py.chr_isdigit c = true → 0 <= Py.digit_value c <= 9.
Proof.
  unfold Py.chr_isdigit, Py.digit_value. intros H.
  apply andb_prop in H as [H1 H2].
  apply N.leb_le in H1, H2. lia.
Qed.

Lemma int_acc_nonneg (a : Z) (s : string) :
  0 <= a → Py.all_chars Py.chr_isdigit s = true → 0 <= Py.int_acc a s.
Proof.
  revert a. induction s as [|c r IH]; intros a Ha Hs; simpl in *; [done|].
  apply andb_prop in Hs as [Hc Hr].
  pose proof (digit_value_bounds c Hc). apply IH; [lia | done].
Qed.

Lemma int_of_digits_nonneg (s : string) :
  Py.isdigit s = true → 0 <= Py.int_of_digits s.
Proof.
  unfold Py.isdigit, Py.int_of_digits. intros H.
  apply andb_prop in H as [_ H]. by apply int_acc_nonneg.
Qed.

(** X1.  On every input whose trimmed form without trailing periods is a
    digit string, of any length, the four [ordinal] functions return the
    decimal numeral of its value, without leading zeros, followed by the
    English suffix of the value. *)
Theorem ordinal_every_number (s : string)
    (Hs : Py.isdigit (Py.rstrip_dot (Py.strip s)) = true) :
  let n := Py.int_of_digits (Py.rstrip_dot (Py.strip s)) in
  0 <= n
  ∧ Py.int_of_digits (Py.str_of_int n) = n
  ∧ HomeBuilder.ordinal s = Py.str_of_int n +:+ english_suffix n
  ∧ MeetBuilder.ordinal s = Py.str_of_int n +:+ english_suffix n
  ∧ AthleteBuilder.ordinal s = Py.str_of_int n +:+ english_suffix n
  ∧ RacePage.ordinal s = Py.str_of_int n +:+ english_suffix n.
Proof.
  intros n. pose proof (int_of_digits_nonneg _ Hs) as Hn. fold n in Hn.
  split; [done|]. split; [by apply int_of_str_of_int|].
  pose proof (strip_empty_input s (isdigit_truthy _ Hs)) as Ht.
  unfold HomeBuilder.ordinal, MeetBuilder.ordinal, AthleteBuilder.ordinal,
    RacePage.ordinal.
  rewrite Ht, Hs. simpl. fold n.
  rewrite <- suffix_boundaries_agree, english_suffix_10_20. done.
Qed.

Lemma ordinal_every_number_witness :
  HomeBuilder.ordinal " 0112. " = "112th"
  ∧ RacePage.ordinal " 0112. " = "112th".
Proof.
  pose proof (ordinal_every_number " 0112. " ltac:(reflexivity))
    as (_ & _ & Hh & _ & _ & Hr).
  split; [exact Hh | exact Hr].
Defined.

(** ** Athlete files: the header and the failure *)

Lemma find_header_index_some (rows : list (list string)) (i : nat)
    (r : list string) :
  AthleteBuilder.find_header_index rows = Some (i, r) →
  rows !! i = Some r
  ∧ AthleteBuilder.is_header r = true
  ∧ ∀ j r', (j < i)%nat → rows !! j = Some r' → AthleteBuilder.is_header r' = false.
Proof.
  revert i. induction rows as [|x rows IH]; intros i; simpl; [discriminate|].
  destruct (AthleteBuilder.is_header x) eqn:Hx.
  - intros [= <- <-]. repeat split; [done|]. intros j r' Hj. lia.
  - destruct (AthleteBuilder.find_header_index rows) as [[i' r0]|]; [|discriminate].
    simpl. intros [= <- <-].
    destruct (IH i' eq_refl) as (Hl & Hh & Hbefore).
    repeat split; [done..|].
    intros [|j] r' Hj; simpl; [by intros [= <-]|].
    apply Hbefore. lia.
Qed.

Lemma find_header_index_none (rows : list (list string)) :
  AthleteBuilder.find_header_index rows = None
  ↔ Forall (λ r, AthleteBuilder.is_header r = false) rows.
Proof.
  induction rows as [|x rows IH]; simpl; [by split; [constructor|]|].
  destruct (AthleteBuilder.is_header x) eqn:Hx.
  - split; [discriminate|]. intros H. apply Forall_cons in H as [H _]. congruence.
  - destruct (AthleteBuilder.find_header_index rows) as [[i r]|]; simpl.
    + split; [discriminate|]. intros H. apply Forall_cons in H as [_ H].
      by apply IH in H.
    + split; [|done]. intros _. constructor; [done | by apply IH].
Qed.

(** X2.  [find_header_index] returns the first row whose trimmed cells,
    joined by commas and lowered, contain both [meet url] and
    [overall place]: the row stands at the returned index, and no row in
    front of it is such a row; it returns nothing exactly when no row
    is. *)
Theorem header_is_first_match (rows : list (list string)) :
  (∀ i r, AthleteBuilder.find_header_index rows = Some (i, r) →
     rows !! i = Some r
     ∧ AthleteBuilder.is_header r = true
     ∧ ∀ j r', (j < i)%nat → rows !! j = Some r' →
         AthleteBuilder.is_header r' = false)
  ∧ (AthleteBuilder.find_header_index rows = None
     ↔ Forall (λ r, AthleteBuilder.is_header r = false) rows).
Proof.
  split; [apply find_header_index_some | apply find_header_index_none].
Qed.

Lemma header_is_first_match_witness :
  sample_athlete_rows !! 3%nat
  = Some ["Name"; "Overall Place"; "Grade"; "Time"; "Date"; "Meet"; "Meet URL"].
Proof.
  apply (proj1 (header_is_first_match sample_athlete_rows) 3%nat).
  vm_compute. reflexivity.
Defined.



(** ** Athlete files: what the records hold *)

Lemma season_of_wellformed (dr : gmap string string) (x : AthleteBuilder.season_record) :
  season_of dr = Some x →
  Py.isdigit (AthleteBuilder.year x) = true
  ∧ String.length (AthleteBuilder.year x) = 4%nat
  ∧ Py.truthy (AthleteBuilder.sr_grade x) = true.
Proof.
  unfold season_of, AthleteBuilder.classify.
  destruct (Py.isdigit _ && _ && Py.truthy _) eqn:Hc.
  - intros [= <-]. simpl.
    apply andb_prop in Hc as [Hc ?]. apply andb_prop in Hc as [? Hl].
    apply Nat.eqb_eq in Hl. done.
  - by destruct (Py.truthy (Py.strip (AthleteBuilder.safe_get dr "Meet"))).
Qed.

Lemma race_of_wellformed (dr : gmap string string) (r : AthleteBuilder.race) :
  race_of dr = Some r →
  Py.truthy (AthleteBuilder.meet r) = true
  ∧ Py.truthy (AthleteBuilder.url r) = true.
Proof.
  unfold race_of, AthleteBuilder.classify.
  destruct (Py.isdigit _ && _ && Py.truthy _); [discriminate|].
  destruct (Py.truthy (Py.strip (AthleteBuilder.safe_get dr "Meet"))) eqn:Hm;
    [|discriminate].
  intros [= <-]. simpl. split; [done|].
  by destruct (Py.truthy (Py.strip (AthleteBuilder.safe_get dr "Meet URL"))) eqn:Hu.
Qed.

Lemma season_race_count (dict_rows : list (gmap string string)) :
  (length (omap season_of dict_rows) + length (omap race_of dict_rows)
   <= length dict_rows)%nat.
Proof.
  induction dict_rows as [|dr rest IH]; [simpl; lia|].
  change (omap season_of (dr :: rest))
    with (match season_of dr with
          | Some y => y :: omap season_of rest
          | None => omap season_of rest
          end).
  change (omap race_of (dr :: rest))
    with (match race_of dr with
          | Some y => y :: omap race_of rest
          | None => omap race_of rest
          end).
  unfold season_of at 1, race_of at 1.
  destruct (AthleteBuilder.classify dr); simpl length; lia.
Qed.

Lemma dict_rows_of_length (header_keys : list string) (data_rows : list (list string)) :
  (length (AthleteBuilder.dict_rows_of header_keys data_rows) <= length data_rows)%nat.
Proof.
  induction data_rows as [|r rest IH]; simpl; [lia|].
  destruct (negb (AthleteBuilder.any_cell r)); simpl; lia.
Qed.

Lemma backfill_Forall (P : AthleteBuilder.race → Prop) (g : option string)
    (races : list AthleteBuilder.race) :
  (∀ r g', P r → P (AthleteBuilder.with_grade g' r)) →
  Forall P races → Forall P (AthleteBuilder.backfill g races).
Proof.
  intros Hwith Hall. unfold AthleteBuilder.backfill.
  destruct g as [g|]; [|done]. destruct (Py.truthy g); [|done].
  apply Forall_fmap. eapply Forall_impl; [exact Hall|].
  intros r Hr. simpl. destruct (negb _); auto.
Qed.

(** X4.  In the record [parse_athlete_csv] returns, every season record has
    a year of exactly four digits and a grade that is not empty, every
    race has a meet and a url that are not empty, and each row of the data
    gave one record at most: the season records and the races together are
    no more than the rows behind the header. *)
Theorem athlete_records_wellformed (rows : list (list string))
    (a : AthleteBuilder.athlete)
    (Ha : AthleteBuilder.parse_athlete_csv rows = inr a) :
  Forall (λ x, Py.isdigit (AthleteBuilder.year x) = true
               ∧ String.length (AthleteBuilder.year x) = 4%nat
               ∧ Py.truthy (AthleteBuilder.sr_grade x) = true)
    (AthleteBuilder.season_records a)
  ∧ Forall (λ r, Py.truthy (AthleteBuilder.meet r) = true
                 ∧ Py.truthy (AthleteBuilder.url r) = true)
      (AthleteBuilder.races a)
  ∧ ∃ idx header,
      AthleteBuilder.find_header_index rows = Some (idx, header)
      ∧ (length (AthleteBuilder.season_records a) + length (AthleteBuilder.races a)
         <= length rows - S idx)%nat.
Proof.
  unfold AthleteBuilder.parse_athlete_csv in Ha.
  destruct (AthleteBuilder.read_rows rows) as [e|c] eqn:Hc; [discriminate|].
  simpl in Ha. injection Ha as <-. simpl.
  destruct (read_rows_inv rows c Hc) as (idx & header & Hf & Hseasons & Hraces).
  simpl in Hseasons, Hraces.
  split.
  { rewrite Hseasons. apply Forall_forall. intros x Hx.
    apply list_elem_of_omap in Hx as (dr & _ & Hdr).
    by apply season_of_wellformed in Hdr. }
  split.
  { apply backfill_Forall; [by intros [] g'|].
    rewrite Hraces. apply Forall_forall. intros r Hr.
    apply list_elem_of_omap in Hr as (dr & _ & Hdr).
    by apply race_of_wellformed in Hdr. }
  exists idx, header. split; [done|].
  rewrite backfill_length, Hseasons, Hraces.
  pose proof (season_race_count
    (AthleteBuilder.dict_rows_of (map Py.strip header) (drop (S idx) rows))).
  pose proof (dict_rows_of_length (map Py.strip header) (drop (S idx) rows)) as Hd.
  rewrite length_drop in Hd. lia.
Qed.

Lemma athlete_records_wellformed_witness :
  ∃ a, AthleteBuilder.parse_athlete_csv sample_athlete_rows = inr a
    ∧ Forall (λ r, Py.truthy (AthleteBuilder.meet r) = true
                   ∧ Py.truthy (AthleteBuilder.url r) = true)
        (AthleteBuilder.races a).
Proof.
  eexists. split; [vm_compute; reflexivity|].
  match goal with
  | |- Forall _ (AthleteBuilder.races ?a) =>
      exact (proj1 (proj2 (athlete_records_wellformed sample_athlete_rows a
               ltac:(vm_compute; reflexivity))))
  end.
Defined.

(** X5.  When the file has a season record, [parse_athlete_csv] returns a
    most recent grade that is not empty and leaves no race without a
    grade; when it has none, the most recent grade is absent and the races
    are returned as they were classified. *)
Theorem no_blank_grade_with_season (rows : list (list string))
    (a : AthleteBuilder.athlete) (c : AthleteBuilder.classified)
    (Hc : AthleteBuilder.read_rows rows = inr c)
    (Ha : AthleteBuilder.parse_athlete_csv rows = inr a) :
  (AthleteBuilder.c_season_records c ≠ [] →
     (∃ g, AthleteBuilder.most_recent_grade a = Some g ∧ Py.truthy g = true)
     ∧ Forall (λ r, Py.truthy (AthleteBuilder.grade r) = true)
         (AthleteBuilder.races a))
  ∧ (AthleteBuilder.c_season_records c = [] →
     AthleteBuilder.most_recent_grade a = None
     ∧ AthleteBuilder.races a = AthleteBuilder.c_races c).
Proof.
  unfold AthleteBuilder.parse_athlete_csv in Ha. rewrite Hc in Ha.
  simpl in Ha. injection Ha as <-. simpl.
  destruct (read_rows_inv rows c Hc) as (idx & header & _ & Hseasons & _).
  simpl in Hseasons.
  split; [|by intros ->].
  intros Hne.
  destruct (last_sort_by AthleteBuilder.year_key _ Hne)
    as (l1 & r & l2 & Hl & Hlast & _ & _).
  assert (Hg : Py.truthy (AthleteBuilder.sr_grade r) = true).
  { assert (Hr : r ∈ AthleteBuilder.c_season_records c)
      by (rewrite Hl; apply elem_of_app; right; left).
    rewrite Hseasons in Hr.
    apply list_elem_of_omap in Hr as (dr & _ & Hdr).
    by apply season_of_wellformed in Hdr as (_ & _ & ?). }
  assert (Hmrg : AthleteBuilder.most_recent_grade_of (AthleteBuilder.c_season_records c)
                 = Some (AthleteBuilder.sr_grade r)).
  { unfold AthleteBuilder.most_recent_grade_of, Py.last_item.
    destruct (AthleteBuilder.c_season_records c); [done|]. by rewrite Hlast. }
  rewrite Hmrg. split; [eauto|].
  unfold AthleteBuilder.backfill. rewrite Hg.
  apply Forall_fmap, Forall_forall. intros x _. simpl.
  destruct (Py.truthy (AthleteBuilder.grade x)) eqn:Hx; simpl; done.
Qed.

Lemma no_blank_grade_with_season_witness :
  ∃ a, AthleteBuilder.parse_athlete_csv sample_athlete_rows = inr a
    ∧ Forall (λ r, Py.truthy (AthleteBuilder.grade r) = true)
        (AthleteBuilder.races a).
Proof.
  eexists. split; [vm_compute; reflexivity|].
  match goal with
  | |- Forall _ (AthleteBuilder.races ?a) =>
      refine (proj2 (proj1 (no_blank_grade_with_season sample_athlete_rows a _
               ltac:(vm_compute; reflexivity) ltac:(vm_compute; reflexivity)) _))
  end.
  vm_compute. discriminate.
Defined.

(** ** Times: what the result depends on *)

Lemma filter_chars_idem (p : ascii → bool) (s : string) :
  Py.filter_chars p (Py.filter_chars p s) = Py.filter_chars p s.
Proof.
  induction s as [|c r IH]; simpl; [reflexivity|].
  destruct (p c) eqn:Hc; simpl; rewrite ?Hc, IH; reflexivity.
Qed.

(** X6.  [parse_time_to_seconds] reads the digits, colons and periods of
    its argument and nothing else: two times with the same digits, colons
    and periods, in the same order, give the same result, whatever
    annotations, letters or white space stand between them. *)
Theorem time_depends_on_kept_chars (t t' : string)
    (Hsame : Py.filter_chars AthleteBuilder.kept t
             = Py.filter_chars AthleteBuilder.kept t') :
  AthleteBuilder.parse_time_to_seconds t = AthleteBuilder.parse_time_to_seconds t'
  ∧ AthleteBuilder.parse_time_to_seconds t
    = AthleteBuilder.parse_time_to_seconds (Py.filter_chars AthleteBuilder.kept t).
Proof.
  rewrite !parse_time_to_seconds_cases, filter_chars_idem, Hsame. done.
Qed.

Lemma time_depends_on_kept_chars_witness :
  AthleteBuilder.parse_time_to_seconds " 17:55.6 sr *"
  = AthleteBuilder.parse_time_to_seconds "17:55.6".
Proof.
  apply (time_depends_on_kept_chars " 17:55.6 sr *" "17:55.6"). reflexivity.
Defined.

(** X7.  The one exception [parse_time_to_seconds] lets out is
    [OverflowError], and it lets it out only when the text in front of the
    single colon is a digit string whose value times sixty is beyond the
    floats, and the text behind the colon is a decimal number; a
    [ValueError] of [int] or [float] never leaves the function. *)
Theorem time_raises_overflow_only (t : string) (e : Py.exn)
    (He : AthleteBuilder.parse_time_to_seconds t = inl e) :
  e = Py.OverflowError
  ∧ ∃ m sec minutes seconds,
      Py.split_on ":" (Py.filter_chars AthleteBuilder.kept t) = [m; sec]
      ∧ Py.int m = inr minutes
      ∧ Py.float sec = inr seconds
      ∧ Py.float_of_int (minutes * 60) = inl Py.OverflowError.
Proof.
  rewrite parse_time_to_seconds_cases in He.
  destruct (Py.split_on ":" _) as [|m [|sec [|? ?]]]; try discriminate.
  destruct (Py.int m) as [?|minutes] eqn:Hm; [discriminate|].
  destruct (Py.float sec) as [?|seconds] eqn:Hs; [discriminate|].
  destruct (Py.float_of_int (minutes * 60)) as [e'|whole] eqn:Hw; [|discriminate].
  injection He as <-.
  pose proof (float_of_int_raises_OverflowError _ _ Hw) as ->.
  split; [done|]. by exists m, sec, minutes, seconds.
Qed.

Lemma time_raises_overflow_only_witness :
  ∃ e, AthleteBuilder.parse_time_to_seconds overflowing_time = inl e
    ∧ e = Py.OverflowError.
Proof.
  eexists. split; [vm_compute; reflexivity|].
  match goal with
  | |- ?e = _ =>
      exact (proj1 (time_raises_overflow_only overflowing_time e
               ltac:(vm_compute; reflexivity)))
  end.
Defined.

Lemma split_on_length (c : ascii) (s : string) :
  length (Py.split_on c s) = S (count_char c s).
Proof.
  induction s as [|a r IH]; [reflexivity|].
  cbn [Py.split_on count_char].
  destruct (Py.chr_eqb a c); simpl; [by rewrite IH|].
  destruct (Py.split_on c r); simpl in *; lia.
Qed.

Lemma count_char_filter (p : ascii → bool) (c : ascii) (s : string) :
  p c = true → count_char c (Py.filter_chars p s) = count_char c s.
Proof.
  intros Hp. induction s as [|a r IH]; [reflexivity|].
  cbn [Py.filter_chars count_char].
  destruct (p a) eqn:Ha; cbn [count_char]; rewrite IH; [done|].
  destruct (Py.chr_eqb a c) eqn:Hac; [|done].
  apply Ascii.eqb_eq in Hac. congruence.
Qed.

(** X8.  A time with no colon, or with two colons or more, gives [None]:
    [parse_time_to_seconds] takes minutes and seconds only, and never reads
    hours. *)
Theorem time_needs_one_colon (t : string)
    (Hcolons : count_char ":" t ≠ 1%nat) :
  AthleteBuilder.parse_time_to_seconds t = inr None.
Proof.
  rewrite parse_time_to_seconds_cases.
  pose proof (split_on_length ":" (Py.filter_chars AthleteBuilder.kept t)) as Hlen.
  rewrite count_char_filter in Hlen by reflexivity.
  destruct (Py.split_on ":" _) as [|m [|sec [|? ?]]]; try reflexivity.
  simpl in Hlen. lia.
Qed.

Lemma time_needs_one_colon_witness :
  AthleteBuilder.parse_time_to_seconds "1:02:03.5" = inr None.
Proof. apply time_needs_one_colon. vm_compute. discriminate. Defined.

(** ** Meet files: the rows that are shown *)

Lemma skyline_of_facts (team_name : string) (indiv_dicts : list (gmap string string)) :
  Forall (team_is team_name) (MeetLines.skyline_of team_name indiv_dicts)
  ∧ StronglySorted (key_le MeetLines.place_key)
      (MeetLines.skyline_of team_name indiv_dicts)
  ∧ MeetLines.skyline_of team_name indiv_dicts ⊆+ indiv_dicts.
Proof.
  rewrite skyline_of_sorted_filter.
  pose proof (sort_by_perm MeetLines.place_key
                (filter (team_is team_name) indiv_dicts)) as Hperm.
  split; [|split].
  - rewrite Hperm. apply Forall_forall. intros r Hr.
    by apply list_elem_of_filter in Hr as [Hr _].
  - apply sort_by_sorted.
  - rewrite Hperm. apply sublist_submseteq, sublist_filter.
Qed.

(** X9.  In a page of [meet_builder.py] and in an entry of
    [home_builder.py] the rows shown are rows of the individual results,
    each one once at most, every one of them is of the team, and their
    place keys ascend; the table of [meet_builder.py] has one line for each
    of them, in the same order. *)
Theorem shown_rows (unescape : string → string)
    (csv_reader : list string → list (list string)) (lines : list string) :
  (∀ page, MeetBuilder.process_file unescape csv_reader lines = inr page →
     Forall (team_is "Ann Arbor Skyline") (MeetBuilder.skyline page)
     ∧ StronglySorted (key_le MeetLines.place_key) (MeetBuilder.skyline page)
     ∧ MeetBuilder.skyline page ⊆+ MeetBuilder.indiv_dicts page
     ∧ MeetBuilder.skyline_rows page
       = map MeetBuilder.table_row_of (MeetBuilder.skyline page))
  ∧ (∀ entry, HomeBuilder.process_file csv_reader lines = inr entry →
     Forall (team_is "Ann Arbor Skyline") (HomeBuilder.skyline entry)
     ∧ StronglySorted (key_le MeetLines.place_key) (HomeBuilder.skyline entry)
     ∧ HomeBuilder.skyline entry ⊆+ HomeBuilder.indiv_dicts entry).
Proof.
  split.
  - intros page Hp.
    assert (Hrows : MeetBuilder.skyline_rows page
                    = map MeetBuilder.table_row_of (MeetBuilder.skyline page)).
    { unfold MeetBuilder.process_file in Hp.
      destruct (length lines <? 6)%nat; [discriminate|].
      destruct (MeetBuilder.find_line_index lines "Place,Team,Score"); [|discriminate].
      destruct (MeetBuilder.find_line_index lines "Place,Grade,Name,") as [j|];
        [|discriminate].
      destruct (MeetLines.parse_csv_block csv_reader (MeetLines.block_from j lines))
        as [|header [|row data]]; try discriminate.
      by injection Hp as <-. }
    destruct (meet_process_file_inv _ _ _ _ Hp)
      as (i & j & header & row & data & _ & _ & _ & _ & _ & _ & Hsky).
    rewrite Hsky in *.
    destruct (skyline_of_facts MeetBuilder.SKYLINE_TEAM_NAME
                (MeetBuilder.indiv_dicts page)) as (? & ? & ?).
    done.
  - intros entry He.
    destruct (home_process_file_inv _ _ _ He)
      as (i & j & header & row & data & _ & _ & _ & _ & _ & Hsky).
    rewrite Hsky.
    apply (skyline_of_facts HomeBuilder.SKYLINE_TEAM_NAME).
Qed.

Lemma shown_rows_witness :
  ∃ page,
    MeetBuilder.process_file Html.unescape Csv.reader sample_meet_lines = inr page
    ∧ Forall (team_is "Ann Arbor Skyline") (MeetBuilder.skyline page).
Proof.
  eexists. split; [vm_compute; reflexivity|].
  apply (proj1 (shown_rows Html.unescape Csv.reader sample_meet_lines)).
  vm_compute. reflexivity.
Defined.

(** ** Meet files: the two ways to find a header *)

Lemma startswith_append (p q s : string) :
  Py.startswith (p +:+ q) s = true → Py.startswith p s = true.
Proof.
  revert s. induction p as [|a p IH]; intros s; [done|].
  rewrite append_cons. destruct s as [|b s]; simpl; [done|].
  intros H. apply andb_prop in H as [-> H]. by apply IH.
Qed.

Lemma startswith_contains (p s : string) :
  Py.startswith p s = true → Py.contains p s = true.
Proof. intros H. destruct s; simpl in *; by rewrite H. Qed.

Lemma find_index_weaker (test1 test2 : string → bool) (lines : list string) (i : nat) :
  (∀ l, test1 l = true → test2 l = true) →
  MeetLines.find_index test1 lines = Some i →
  ∃ j, (j <= i)%nat ∧ MeetLines.find_index test2 lines = Some j.
Proof.
  intros Himp. revert i. induction lines as [|l lines IH]; intros i; simpl;
    [discriminate|].
  destruct (test1 l) eqn:H1.
  - intros [= <-]. rewrite (Himp l H1). by exists 0%nat.
  - destruct (MeetLines.find_index test1 lines) as [i'|]; [|discriminate].
    simpl. intros [= <-]. destruct (IH i' eq_refl) as (j & Hj & ->).
    destruct (test2 l); [exists 0%nat; split; [lia|done]|].
    exists (S j). split; [lia|done].
Qed.

(** X10.  A header that [meet_builder.py] finds, as the beginning of a
    line, [home_builder.py] finds too, as a part of a line, at that line or
    at an earlier one.  So a file that [home_builder.py] skips for its
    headers or for its number of lines, [meet_builder.py] skips for the
    same reason. *)
Theorem headers_found_by_both (unescape : string → string)
    (csv_reader : list string → list (list string)) (lines : list string) :
  (∀ i, MeetBuilder.find_line_index lines "Place,Team,Score" = Some i →
     ∃ i', (i' <= i)%nat ∧ HomeBuilder.find_line_index lines "Place,Team" = Some i')
  ∧ (∀ j, MeetBuilder.find_line_index lines "Place,Grade,Name," = Some j →
     ∃ j', (j' <= j)%nat
       ∧ HomeBuilder.find_line_index lines "Place,Grade,Name" = Some j')
  ∧ (HomeBuilder.process_file csv_reader lines = inl MeetLines.MissingHeaders →
     MeetBuilder.process_file unescape csv_reader lines = inl MeetLines.MissingHeaders)
  ∧ (HomeBuilder.process_file csv_reader lines = inl MeetLines.NotEnoughLines
     ↔ MeetBuilder.process_file unescape csv_reader lines
       = inl MeetLines.NotEnoughLines).
Proof.
  assert (H1 : ∀ i, MeetBuilder.find_line_index lines "Place,Team,Score" = Some i →
     ∃ i', (i' <= i)%nat ∧ HomeBuilder.find_line_index lines "Place,Team" = Some i').
  { intros i. apply find_index_weaker. intros l Hl.
    apply startswith_contains. by apply (startswith_append _ ",Score"). }
  assert (H2 : ∀ j, MeetBuilder.find_line_index lines "Place,Grade,Name," = Some j →
     ∃ j', (j' <= j)%nat
       ∧ HomeBuilder.find_line_index lines "Place,Grade,Name" = Some j').
  { intros j. apply find_index_weaker. intros l Hl.
    apply startswith_contains. by apply (startswith_append _ ","). }
  split; [done|]. split; [done|].
  unfold HomeBuilder.process_file, MeetBuilder.process_file.
  destruct (length lines <? 6)%nat; [split; [discriminate | done]|].
  destruct (MeetBuilder.find_line_index lines "Place,Team,Score") as [i|] eqn:Hi.
  - destruct (H1 i eq_refl) as (i' & _ & ->).
    destruct (MeetBuilder.find_line_index lines "Place,Grade,Name,") as [j|] eqn:Hj.
    + destruct (H2 j eq_refl) as (j' & _ & ->).
      destruct (MeetLines.parse_csv_block csv_reader (MeetLines.block_from j' lines))
        as [|? [|? ?]];
      destruct (MeetLines.parse_csv_block csv_reader (MeetLines.block_from j lines))
        as [|? [|? ?]]; split; try discriminate; split; discriminate.
    + split; [done|]. split; [|discriminate].
      destruct (HomeBuilder.find_line_index lines "Place,Grade,Name"); [|discriminate].
      by destruct (MeetLines.parse_csv_block _ _) as [|? [|? ?]].
  - split; [done|]. split; [|discriminate].
    destruct (HomeBuilder.find_line_index lines "Place,Team"); [|discriminate].
    destruct (HomeBuilder.find_line_index lines "Place,Grade,Name"); [|discriminate].
    by destruct (MeetLines.parse_csv_block _ _) as [|? [|? ?]].
Qed.

Lemma headers_found_by_both_witness :
  ∃ j', (j' <= 7)%nat
    ∧ HomeBuilder.find_line_index sample_meet_lines "Place,Grade,Name" = Some j'.
Proof.
  apply (proj1 (proj2 (headers_found_by_both Html.unescape Csv.reader
                         sample_meet_lines)) 7%nat).
  vm_compute. reflexivity.
Defined.

(** ** Meet files: reading a cell back *)

Lemma foldl_insert_lookup_in (kvs : list (string * string)) (d : gmap string string)
    (k v : string) :
  NoDup kvs.*1 → (k, v) ∈ kvs →
  foldl (λ d kv, <[kv.1 := kv.2]> d) d kvs !! k = Some v.
Proof.
  revert d. induction kvs as [|[k' v'] kvs IH]; intros d Hnd Hin; simpl.
  - by apply elem_of_nil in Hin.
  - simpl in Hnd. apply NoDup_cons in Hnd as [Hnotin Hnd].
    apply elem_of_cons in Hin as [[= -> ->]|Hin].
    + clear IH. revert d. induction kvs as [|[k2 v2] kvs IH2]; intros d; simpl.
      * apply lookup_insert_eq.
      * simpl in Hnotin, Hnd. apply not_elem_of_cons in Hnotin as [Hne Hnotin].
        apply NoDup_cons in Hnd as [_ Hnd].
        rewrite insert_insert_ne by done. by apply IH2.
    + by apply IH.
Qed.

Lemma foldl_insert_lookup_out (kvs : list (string * string)) (d : gmap string string)
    (k : string) :
  k ∉ kvs.*1 →
  foldl (λ d kv, <[kv.1 := kv.2]> d) d kvs !! k = d !! k.
Proof.
  revert d. induction kvs as [|[k' v'] kvs IH]; intros d Hout; simpl; [done|].
  simpl in Hout. apply not_elem_of_cons in Hout as [Hne Hout].
  rewrite IH by done. by rewrite lookup_insert_ne.
Qed.

Lemma pad_lookup (header row : list string) (j : nat) :
  (j < length header)%nat →
  MeetLines.pad header row !! j = Some (default EmptyString (row !! j)).
Proof.
  intros Hj. unfold MeetLines.pad.
  destruct (length row <? length header)%nat eqn:Hlen.
  - apply Nat.ltb_lt in Hlen.
    destruct (decide (j < length row)%nat) as [Hlt|Hge].
    + rewrite lookup_app_l by done.
      destruct (lookup_lt_is_Some_2 row j Hlt) as [x ->]. done.
    + rewrite lookup_app_r by lia.
      rewrite lookup_replicate_2 by lia.
      by rewrite (proj2 (lookup_ge_None row j)) by lia.
  - apply Nat.ltb_ge in Hlen.
    destruct (lookup_lt_is_Some_2 row j ltac:(lia)) as [x ->]. done.
Qed.

(** X11.  When the names of the header are all different, the dictionary
    of a data row gives back, under the name of a column, the cell of the
    row in that column, or the empty string when the row does not reach
    the column; under a name that is no column it gives the default. *)
Theorem row_dict_lookup (header row : list string) (Hnodup : NoDup header) :
  (∀ (j : nat) key dflt,
     header !! j = Some key →
     MeetLines.safe_get (Py.dict_zip header (MeetLines.pad header row)) key dflt
     = default EmptyString (row !! j))
  ∧ (∀ key dflt, key ∉ header →
     MeetLines.safe_get (Py.dict_zip header (MeetLines.pad header row)) key dflt
     = dflt).
Proof.
  split.
  - intros j key dflt Hj.
    pose proof (lookup_lt_Some _ _ _ Hj) as Hlt.
    pose proof (pad_lookup header row j Hlt) as Hpad.
    unfold MeetLines.safe_get, Py.dict_get, Py.dict_zip.
    rewrite (foldl_insert_lookup_in _ _ key (default EmptyString (row !! j)));
      [done| |].
    + rewrite fst_zip; [done|].
      unfold MeetLines.pad. destruct (length row <? length header)%nat eqn:Hlen.
      * apply Nat.ltb_lt in Hlen. rewrite length_app, length_replicate. lia.
      * apply Nat.ltb_ge in Hlen. lia.
    + apply (list_elem_of_lookup_2 _ j). by apply lookup_zip_Some.
  - intros key dflt Hout.
    unfold MeetLines.safe_get, Py.dict_get, Py.dict_zip.
    rewrite foldl_insert_lookup_out; [by rewrite lookup_empty|].
    intros Hin. apply Hout.
    apply list_elem_of_fmap in Hin as ([k v] & -> & Hkv).
    by apply elem_of_zip_l in Hkv.
Qed.

Lemma row_dict_lookup_witness :
  MeetLines.safe_get
    (Py.dict_zip ["Place"; "Grade"; "Name"; "Team"]
       (MeetLines.pad ["Place"; "Grade"; "Name"; "Team"] ["3."; "12"; "Amy Poe"]))
    "Name" "-"
  = "Amy Poe".
Proof.
  apply (proj1 (row_dict_lookup ["Place"; "Grade"; "Name"; "Team"]
                  ["3."; "12"; "Amy Poe"] ltac:(by apply NoDup_ListNoDup; repeat constructor; simpl; intuition discriminate)) 2%nat).
  reflexivity.
Defined.

(** ** The custom meet file: failures and layout *)

Lemma first_cell_inv (row : list string) :
  (row = [] ∧ RacePage.first_cell row = inl Py.IndexError)
  ∨ (∃ c rest, row = c :: rest ∧ RacePage.first_cell row = inr c).
Proof. destruct row as [|c rest]; [left | right]; eauto. Qed.

(** X12.  [parse_custom_meet_csv] raises [ValueError] exactly when the file
    has fewer than five rows, and [IndexError] exactly when it has five or
    more and one of its first four rows is empty; it raises nothing else,
    whatever the rows behind the fourth are. *)
Theorem custom_meet_failures (unescape : string → string)
    (rows : list (list string)) :
  (RacePage.parse_custom_meet_csv unescape rows = inl Py.ValueError
   ↔ (length rows < 5)%nat)
  ∧ (RacePage.parse_custom_meet_csv unescape rows = inl Py.IndexError
     ↔ (5 <= length rows)%nat ∧ Exists (λ row, row = []) (take 4 rows))
  ∧ (∀ e, RacePage.parse_custom_meet_csv unescape rows = inl e →
       e = Py.ValueError ∨ e = Py.IndexError).
Proof.
  unfold RacePage.parse_custom_meet_csv.
  destruct (length rows <? 5)%nat eqn:Hlen.
  { apply Nat.ltb_lt in Hlen.
    split; [done|]. split; [|intros e [= <-]; by left].
    split; [discriminate|]. intros [? _]. lia. }
  apply Nat.ltb_ge in Hlen.
  destruct rows as [|r0 [|r1 [|r2 [|r3 rest]]]]; try (simpl in Hlen; lia).
  simpl in Hlen. cbn [nth take].
  destruct r0 as [|c0 ?]; simpl.
  { split; [split; [discriminate|lia]|]. split; [|intros e [= <-]; by right].
    split; [intros _; split; [lia|by left] | done]. }
  destruct r1 as [|c1 ?]; simpl.
  { split; [split; [discriminate|lia]|]. split; [|intros e [= <-]; by right].
    split; [intros _; split; [lia|right; by left] | done]. }
  destruct r2 as [|c2 ?]; simpl.
  { split; [split; [discriminate|lia]|]. split; [|intros e [= <-]; by right].
    split; [intros _; split; [lia|right; right; by left] | done]. }
  destruct r3 as [|c3 ?]; simpl.
  { split; [split; [discriminate|lia]|]. split; [|intros e [= <-]; by right].
    split; [intros _; split; [lia|right; right; right; by left] | done]. }
  destruct (RacePage.team_loop (drop 0 rest)) as [found behind].
  split; [split; [discriminate|lia]|]. split; [|discriminate].
  split; [discriminate|]. intros [_ Hex].
  repeat (apply Exists_cons in Hex as [Hex|Hex]; [discriminate|]).
  by apply Exists_nil in Hex.
Qed.

Lemma custom_meet_failures_witness :
  RacePage.parse_custom_meet_csv Html.unescape
    [["Meet"]; []; ["url"]; ["summary"]; ["Place"; "Team"; "Score"]]
  = inl Py.IndexError.
Proof.
  apply (proj1 (proj2 (custom_meet_failures Html.unescape
    [["Meet"]; []; ["url"]; ["summary"]; ["Place"; "Team"; "Score"]]))).
  split; [simpl; lia|]. right. by left.
Defined.

Lemma team_loop_block (team : list (list string)) (b : list string)
    (rest : list (list string)) :
  Forall (λ row, RacePage.blank row = false) team →
  RacePage.blank b = true →
  RacePage.team_loop (team ++ b :: rest) = (team_rows team, rest).
Proof.
  intros Hteam Hb. induction Hteam as [|row team Hrow _ IH]; simpl.
  - by rewrite Hb.
  - rewrite Hrow, IH. by destruct (_ && _).
Qed.

Lemma team_loop_no_blank (rows : list (list string)) :
  Forall (λ row, RacePage.blank row = false) rows →
  RacePage.team_loop rows = (team_rows rows, []).
Proof.
  induction 1 as [|row rows Hrow _ IH]; simpl; [done|].
  rewrite Hrow, IH. by destruct (_ && _).
Qed.

(** X13.  For a file laid out as the docstring of [parse_custom_meet_csv]
    has it (four rows of one cell or more, the rows of the team block with
    no blank row among them, a blank row, the header of the individual
    results with eight cells or more and [Place] in the first, and the data
    rows), the team results are read from the team block alone and the
    individual results from the data rows alone: the header is in neither. *)
Theorem custom_meet_layout (unescape : string → string)
    (meta team data : list (list string)) (b header : list string)
    (Hmeta : length meta = 4%nat)
    (Hcells : Forall (λ row, row ≠ []) meta)
    (Hteam : Forall (λ row, RacePage.blank row = false) team)
    (Hblank : RacePage.blank b = true)
    (Hlen : (8 <= length header)%nat)
    (Hplace : Py.strip (RacePage.cell header 0) = "Place") :
  ∃ m,
    RacePage.parse_custom_meet_csv unescape (meta ++ team ++ b :: header :: data)
    = inr m
    ∧ RacePage.team_results m = team_rows team
    ∧ RacePage.individual_results m = RacePage.individual_loop data.
Proof.
  destruct meta as [|r0 [|r1 [|r2 [|r3 [|? ?]]]]]; try discriminate.
  apply Forall_cons in Hcells as [H0 Hcells]. apply Forall_cons in Hcells as [H1 Hcells].
  apply Forall_cons in Hcells as [H2 Hcells]. apply Forall_cons in Hcells as [H3 _].
  destruct r0 as [|c0 t0], r1 as [|c1 t1], r2 as [|c2 t2], r3 as [|c3 t3];
    try done.
  unfold RacePage.parse_custom_meet_csv.
  assert (Hn : (length (((c0 :: t0) :: (c1 :: t1) :: (c2 :: t2) :: [c3 :: t3])
                  ++ team ++ b :: header :: data) <? 5)%nat = false).
  { apply Nat.ltb_ge. rewrite length_app, length_app. simpl. lia. }
  rewrite Hn. simpl. rewrite drop_0.
  rewrite (team_loop_block team b (header :: data) Hteam Hblank).
  eexists. split; [reflexivity|].
  cbn [RacePage.team_results RacePage.individual_results snd].
  split; [done|]. unfold RacePage.skip_header.
  apply Nat.leb_le in Hlen. rewrite Hlen, Hplace. reflexivity.
Qed.

Lemma custom_meet_layout_witness :
  ∃ m,
    RacePage.parse_custom_meet_csv Html.unescape
      ([["Meet"]; ["Sep 1 2023"]; ["url"]; ["summary"]]
       ++ [["Place"; "Team"; "Score"]; ["1"; "Ann Arbor Skyline"; "20"]]
       ++ [] :: ["Place"; "Grade"; "Name"; "Athlete Link"; "Time"; "Team";
                 "Team Link"; "Profile Pic"]
          :: [["2."; "11"; "Jane Doe"; "a"; "18:01.0"; "Ann Arbor Skyline"; "t"; "p"]])
    = inr m
    ∧ RacePage.team_results m
      = team_rows [["Place"; "Team"; "Score"]; ["1"; "Ann Arbor Skyline"; "20"]]
    ∧ RacePage.individual_results m
      = RacePage.individual_loop
          [["2."; "11"; "Jane Doe"; "a"; "18:01.0"; "Ann Arbor Skyline"; "t"; "p"]].
Proof.
  apply custom_meet_layout; try reflexivity; try (simpl; lia);
    repeat constructor; discriminate.
Defined.

(** X14.  When no row behind the fourth is blank, [parse_custom_meet_csv]
    takes every one of them for the team block: the individual results are
    empty, and the rows of the individual results, header apart, are among
    the team results. *)
Theorem custom_meet_needs_blank_row (unescape : string → string)
    (rows : list (list string)) (m : RacePage.meet)
    (Hnoblank : Forall (λ row, RacePage.blank row = false) (drop 4 rows))
    (Hm : RacePage.parse_custom_meet_csv unescape rows = inr m) :
  RacePage.individual_results m = []
  ∧ RacePage.team_results m = team_rows (drop 4 rows).
Proof.
  unfold RacePage.parse_custom_meet_csv in Hm.
  destruct (length rows <? 5)%nat; [discriminate|].
  destruct (RacePage.first_cell (nth 0 rows [])); [discriminate|].
  destruct (RacePage.first_cell (nth 1 rows [])); [discriminate|].
  destruct (RacePage.first_cell (nth 2 rows [])); [discriminate|].
  destruct (RacePage.first_cell (nth 3 rows [])); [discriminate|].
  simpl in Hm. rewrite (team_loop_no_blank _ Hnoblank) in Hm.
  by injection Hm as <-.
Qed.

Lemma custom_meet_needs_blank_row_witness :
  ∃ m,
    RacePage.parse_custom_meet_csv Html.unescape sample_meet_rows_no_blank = inr m
    ∧ RacePage.individual_results m = [].
Proof.
  assert (Hnoblank : Forall (λ row, RacePage.blank row = false)
                       (drop 4 sample_meet_rows_no_blank))
    by (repeat constructor).
  destruct (RacePage.parse_custom_meet_csv Html.unescape sample_meet_rows_no_blank)
    as [e|m] eqn:Hm; [vm_compute in Hm; discriminate|].
  exists m. split; [reflexivity|].
  exact (proj1 (custom_meet_needs_blank_row Html.unescape
                  sample_meet_rows_no_blank m Hnoblank Hm)).
Defined.

(** ** Athlete pages: the grade tables *)

Lemma setdefault_append_get (g k : string) (r : AthleteBuilder.race)
    (d : list (string * list AthleteBuilder.race)) :
  AthleteBuilder.by_grade_get k (AthleteBuilder.setdefault_append g r d)
  = if decide (k = g) then AthleteBuilder.by_grade_get g d ++ [r]
    else AthleteBuilder.by_grade_get k d.
Proof.
  induction d as [|[k' v] d IH]; simpl.
  - destruct (String.eqb g k) eqn:Hgk.
    + apply String.eqb_eq in Hgk. by rewrite decide_True.
    + apply String.eqb_neq in Hgk. by rewrite decide_False.
  - destruct (String.eqb k' g) eqn:Hkg; simpl.
    + apply String.eqb_eq in Hkg. subst k'.
      destruct (String.eqb g k) eqn:Hgk.
      * apply String.eqb_eq in Hgk. by rewrite decide_True.
      * apply String.eqb_neq in Hgk. by rewrite decide_False.
    + apply String.eqb_neq in Hkg.
      destruct (String.eqb k' k) eqn:Hk'k.
      * apply String.eqb_eq in Hk'k. subst k'. by rewrite decide_False.
      * exact IH.
Qed.

Lemma setdefault_append_keys (g : string) (r : AthleteBuilder.race)
    (d : list (string * list AthleteBuilder.race)) :
  map fst (AthleteBuilder.setdefault_append g r d)
  = if decide (g ∈ map fst d) then map fst d else map fst d ++ [g].
Proof.
  induction d as [|[k v] d IH]; simpl; [done|].
  destruct (String.eqb k g) eqn:Hkg; simpl.
  - apply String.eqb_eq in Hkg. subst k. rewrite decide_True; [done | left].
  - apply String.eqb_neq in Hkg. rewrite IH.
    destruct (decide (g ∈ map fst d)) as [Hin|Hout].
    + rewrite decide_True; [done | by right].
    + rewrite decide_False; [done|].
      intros Hin. apply elem_of_cons in Hin as [->|Hin]; done.
Qed.

(** The dictionary [by_grade] has each label once, in the order the labels
    came in, and under each label the races of that label, in their
    order. *)
Lemma by_grade_of_spec (races : list AthleteBuilder.race) :
  NoDup (map fst (AthleteBuilder.by_grade_of races))
  ∧ (∀ g, AthleteBuilder.by_grade_get g (AthleteBuilder.by_grade_of races)
          = filter (λ r, AthleteBuilder.group_label r = g) races)
  ∧ (∀ g, g ∈ map fst (AthleteBuilder.by_grade_of races)
          ↔ ∃ r, r ∈ races ∧ AthleteBuilder.group_label r = g).
Proof.
  induction races as [|r races (Hnd & Hget & Hkeys)] using rev_ind.
  - split; [constructor|]. split; [done|].
    intros g. split; [by intros ?%elem_of_nil|].
    by intros (r & ?%elem_of_nil & _).
  - unfold AthleteBuilder.by_grade_of in *. rewrite foldl_app. simpl.
    set (d := foldl _ [] races) in *.
    split; [|split].
    + rewrite setdefault_append_keys.
      destruct (decide (AthleteBuilder.group_label r ∈ map fst d)); [done|].
      apply NoDup_app. split; [done|]. split; [|apply NoDup_singleton].
      intros x Hx ->%list_elem_of_singleton. done.
    + intros g. rewrite setdefault_append_get, filter_app, !Hget.
      destruct (decide (g = AthleteBuilder.group_label r)) as [->|Hne].
      * by rewrite (filter_cons_True _ r []).
      * rewrite (filter_cons_False _ r []) by congruence.
        by rewrite filter_nil, app_nil_r.
    + intros g. rewrite setdefault_append_keys.
      assert (Hiff : g ∈ map fst d ++ [AthleteBuilder.group_label r]
                     ↔ ∃ r0, r0 ∈ races ++ [r] ∧ AthleteBuilder.group_label r0 = g).
      { rewrite elem_of_app, Hkeys, list_elem_of_singleton. split.
        - intros [(r0 & Hr0 & <-)| ->].
          + exists r0. split; [apply elem_of_app; by left | done].
          + exists r. split; [apply elem_of_app; right; by left | done].
        - intros (r0 & [Hr0| ->%list_elem_of_singleton]%elem_of_app & <-);
            [left; eauto | by right]. }
      destruct (decide (AthleteBuilder.group_label r ∈ map fst d)) as [Hin|Hout];
        [|exact Hiff].
      rewrite <- Hiff, elem_of_app, list_elem_of_singleton. split; [by left|].
      intros [?| ->]; done.
Qed.

Lemma concat_filters_perm {A : Type} (label : A → string) (keys : list string)
    (l : list A) :
  NoDup keys → (∀ x, x ∈ l → label x ∈ keys) →
  concat (map (λ g, filter (λ x, label x = g) l) keys) ≡ₚ l.
Proof.
  intros Hnd. induction l as [|x l IH]; intros Hcover.
  - clear. induction keys as [|k keys IH]; simpl; [done | exact IH].
  - assert (Hx : label x ∈ keys) by (apply Hcover; left).
    apply list_elem_of_split in Hx as (k1 & k2 & Hk).
    rewrite Hk in Hnd. apply NoDup_app in Hnd as (Hnd1 & Hk1 & Hnd2).
    apply NoDup_cons in Hnd2 as [Hk2 Hnd2].
    assert (Hout : ∀ ks, label x ∉ ks →
      map (λ g, filter (λ y, label y = g) (x :: l)) ks
      = map (λ g, filter (λ y, label y = g) l) ks).
    { intros ks Hks. apply map_ext_in. intros g Hg.
      apply filter_cons_False. intros <-. apply Hks. by apply list_elem_of_In. }
    assert (IH' : concat (map (λ g, filter (λ y, label y = g) l) keys) ≡ₚ l).
    { apply IH. intros y Hy. apply Hcover. by right. }
    rewrite Hk in IH' |- *.
    rewrite !map_app, !concat_app in IH' |- *. simpl in IH' |- *.
    rewrite (Hout k1), (Hout k2), (filter_cons_True _ x) by
      (done || (intros Hin; by apply (Hk1 _ Hin); left)).
    simpl. rewrite <- Permutation_middle. by apply Permutation_skip.
Qed.

Lemma concat_sorted_perm {A : Type} (key : A → Z) (groups : list (list A)) :
  concat (map (Py.sort_by key) groups) ≡ₚ concat groups.
Proof.
  induction groups as [|g groups IH]; simpl; [done|].
  by rewrite sort_by_perm, IH.
Qed.

(** X15 ([build_grade_tables]).  The page has one table for each grade
    label that occurs among the races (the stripped grade, or the word
    Other where it is blank), and no table twice.  A table holds the races
    of its label and no others, sorted by place with the rows that cannot
    be told apart by place in the order of the input; no table is empty.
    The tables come by falling grade number, the labels that are not
    numbers after all the numbers; and all the tables together hold each
    race once. *)
Theorem grade_tables_partition (races : list AthleteBuilder.race) :
  let tables := AthleteBuilder.build_grade_tables races in
  NoDup (map AthleteBuilder.table_grade tables)
  ∧ (∀ r, r ∈ races →
       AthleteBuilder.group_label r ∈ map AthleteBuilder.table_grade tables)
  ∧ Forall (λ t,
       AthleteBuilder.table_rows t
       = Py.sort_by AthleteBuilder.place_key
           (filter (λ r, AthleteBuilder.group_label r
                         = AthleteBuilder.table_grade t) races)
       ∧ AthleteBuilder.table_rows t ≠ []
       ∧ AthleteBuilder.caption t
         = AthleteBuilder.caption_of (AthleteBuilder.table_grade t)) tables
  ∧ StronglySorted (λ a b,
       AthleteBuilder.grade_sort_key (AthleteBuilder.table_grade b)
       <= AthleteBuilder.grade_sort_key (AthleteBuilder.table_grade a)) tables
  ∧ concat (map AthleteBuilder.table_rows tables) ≡ₚ races.
Proof.
  intros tables. subst tables. unfold AthleteBuilder.build_grade_tables.
  destruct (by_grade_of_spec races) as (Hnd & Hget & Hkeys).
  set (d := AthleteBuilder.by_grade_of races) in *.
  assert (Hperm : AthleteBuilder.grade_keys_of d ≡ₚ map fst d)
    by apply sort_by_perm.
  assert (Hgrades : ∀ ks, map AthleteBuilder.table_grade
      (map (λ g, AthleteBuilder.GradeTable g (AthleteBuilder.caption_of g)
         (Py.sort_by AthleteBuilder.place_key (AthleteBuilder.by_grade_get g d)))
         ks) = ks).
  { intros ks. rewrite map_map. simpl. apply map_id. }
  assert (Hcover : ∀ r, r ∈ races →
      AthleteBuilder.group_label r ∈ AthleteBuilder.grade_keys_of d).
  { intros r Hr. rewrite Hperm. apply Hkeys. eauto. }
  split; [|split; [|split; [|split]]].
  - rewrite Hgrades, Hperm. exact Hnd.
  - intros r Hr. rewrite Hgrades. by apply Hcover.
  - apply Forall_map, Forall_forall. intros g Hg. simpl.
    rewrite Hget. split; [done|]. split; [|done].
    rewrite Hperm in Hg. apply Hkeys in Hg as (r & Hr & Hlabel).
    intros Hnil.
    assert (Hin : r ∈ Py.sort_by AthleteBuilder.place_key
              (filter (λ r, AthleteBuilder.group_label r = g) races)).
    { rewrite sort_by_perm. by apply list_elem_of_filter. }
    rewrite Hnil in Hin. by apply elem_of_nil in Hin.
  - unfold AthleteBuilder.grade_keys_of.
    pose proof (sort_by_sorted (λ g, - AthleteBuilder.grade_sort_key g)
                  (map fst d)) as Hsorted.
    induction Hsorted as [|g ks Hs IH Hall]; simpl; constructor; [exact IH|].
    apply Forall_map. eapply Forall_impl; [exact Hall|].
    unfold key_le. simpl. intros; lia.
  - rewrite map_map. simpl.
    rewrite <- (map_map (λ g, AthleteBuilder.by_grade_get g d)
                  (Py.sort_by AthleteBuilder.place_key)).
    rewrite concat_sorted_perm.
    rewrite (map_ext _ (λ g, filter (λ r, AthleteBuilder.group_label r = g) races))
      by exact Hget.
    apply concat_filters_perm; [|exact Hcover].
    rewrite Hperm. exact Hnd.
Qed.

(** ** Athlete pages: the text *)

Lemma bio_loop_app (b : AthleteBuilder.bests) (l1 l2 : list AthleteBuilder.race) :
  AthleteBuilder.bio_loop b (l1 ++ l2)
  = Py.bind (AthleteBuilder.bio_loop b l1) (λ b', AthleteBuilder.bio_loop b' l2).
Proof.
  revert b. induction l1 as [|r l1 IH]; intros b; simpl; [done|].
  destruct (AthleteBuilder.time_step _ r) as [e|b']; simpl; [done | apply IH].
Qed.

(** The loop ends without an exception if no time raises one. *)
Lemma bio_loop_returns (races : list AthleteBuilder.race) (b : AthleteBuilder.bests) :
  Forall (λ r, ∃ v, seconds_of r = inr v) races →
  ∃ b', AthleteBuilder.bio_loop b races = inr b'.
Proof.
  intros Hall. revert b.
  induction Hall as [|r races [v Hv] _ IH]; intros b; simpl; [by eexists|].
  unfold AthleteBuilder.time_step. unfold seconds_of in Hv. rewrite Hv. simpl.
  destruct v as [s|]; [destruct (AthleteBuilder.improves_time s _)|];
    simpl; apply IH.
Qed.

Lemma rstrip_by_none (p : ascii → bool) (s : string) :
  Py.all_chars (λ c, negb (p c)) s = true → Py.rstrip_by p s = s.
Proof.
  induction s as [|c r IH]; simpl; [done|].
  intros [Hc Hr]%andb_prop. rewrite IH by done.
  destruct r; [|done]. apply negb_true_iff in Hc. by rewrite Hc.
Qed.

Lemma lstrip_by_none (p : ascii → bool) (s : string) :
  Py.all_chars (λ c, negb (p c)) s = true → Py.lstrip_by p s = s.
Proof.
  destruct s as [|c r]; simpl; [done|].
  intros [Hc _]%andb_prop. apply negb_true_iff in Hc. by rewrite Hc.
Qed.

Lemma all_chars_impl (p q : ascii → bool) (s : string) :
  (∀ c, p c = true → q c = true) →
  Py.all_chars p s = true → Py.all_chars q s = true.
Proof.
  intros Hpq. induction s as [|c r IH]; simpl; [done|].
  intros [Hc Hr]%andb_prop. by rewrite (Hpq c Hc), IH.
Qed.

Lemma digit_not_space_or_dot (c : ascii) :
  Py.chr_isdigit c = true →
  negb (Py.chr_isspace c) = true ∧ negb (Py.chr_eqb "."%char c) = true.
Proof. by destruct c as [[] [] [] [] [] [] [] []]; vm_compute. Qed.

(** A digit string is its own trimmed form. *)
Lemma digits_strip (s : string) :
  Py.isdigit s = true → Py.rstrip_dot (Py.strip s) = s.
Proof.
  unfold Py.isdigit. intros [_ Hs]%andb_prop.
  unfold Py.rstrip_dot, Py.strip.
  assert (Hspace : Py.all_chars (λ c, negb (Py.chr_isspace c)) s = true).
  { eapply all_chars_impl; [|exact Hs]. intros c Hc.
    by destruct (digit_not_space_or_dot c Hc). }
  assert (Hdot : Py.all_chars (λ c, negb (Py.chr_eqb "."%char c)) s = true).
  { eapply all_chars_impl; [|exact Hs]. intros c Hc.
    by destruct (digit_not_space_or_dot c Hc). }
  by rewrite (lstrip_by_none _ s Hspace), (rstrip_by_none _ s Hspace),
    (rstrip_by_none _ s Hdot).
Qed.

Lemma truthy_append_r (a b : string) :
  Py.truthy b = true → Py.truthy (a +:+ b) = true.
Proof. destruct a; [done|]. by rewrite append_cons. Qed.

(** The ordinal the loop keeps for a race with a numeric place. *)
Lemma ordinal_of_place_text (r : AthleteBuilder.race) :
  race_numeric r = true →
  AthleteBuilder.ordinal (race_place_text r)
  = Py.str_of_int (race_place_value r) +:+ english_suffix (race_place_value r)
  ∧ Py.truthy (AthleteBuilder.ordinal (race_place_text r)) = true.
Proof.
  unfold race_numeric, race_place_value. intros Hnum.
  assert (Hord : AthleteBuilder.ordinal (race_place_text r)
    = Py.str_of_int (Py.int_of_digits (race_place_text r))
      +:+ english_suffix (Py.int_of_digits (race_place_text r))).
  { unfold AthleteBuilder.ordinal. rewrite (digits_strip _ Hnum), Hnum. simpl.
    by rewrite english_suffix_10_20. }
  split; [exact Hord|]. rewrite Hord. apply truthy_append_r.
  unfold english_suffix.
  destruct (_ && _); [done|].
  by destruct (Py.int_of_digits (race_place_text r) mod 10) as [|[[|[]|]|[|[]|]|]|].
Qed.

Lemma place_inv_step (races : list AthleteBuilder.race) (b : AthleteBuilder.bests)
    (r : AthleteBuilder.race) :
  place_inv races b → place_inv (races ++ [r]) (AthleteBuilder.place_step b r).
Proof.
  unfold AthleteBuilder.place_step.
  fold (race_place_text r). fold (race_numeric r). fold (race_place_value r).
  intros [(Hp & Hs & Hm & Hnone)|(r0 & (l1 & l2 & Hsplit & Hnum0 & Hl1 & Hl2)
                                   & Hp & Hs & Hm)].
  - unfold AthleteBuilder.improves_place. rewrite Hp.
    destruct (race_numeric r) eqn:Hnum; simpl.
    + right. exists r. split; [|done].
      exists races, []. split; [done|]. split; [done|].
      split; [|by intros x ?%elem_of_nil].
      intros x Hx Hxn. rewrite (Hnone x Hx) in Hxn. done.
    + left. repeat split; try done.
      intros x [Hx| ->%list_elem_of_singleton]%elem_of_app; [by apply Hnone | done].
  - unfold AthleteBuilder.improves_place. rewrite Hp.
    destruct (race_numeric r) eqn:Hnum; simpl;
      [destruct (race_place_value r <? race_place_value r0) eqn:Hlt; simpl|].
    + apply Z.ltb_lt in Hlt. right. exists r. split; [|done].
      exists races, []. split; [done|]. split; [done|].
      split; [|by intros x ?%elem_of_nil].
      intros x Hx Hxn. rewrite Hsplit in Hx.
      apply elem_of_app in Hx as [Hx|Hx]; [specialize (Hl1 x Hx Hxn); lia|].
      apply elem_of_cons in Hx as [->|Hx]; [done|].
      specialize (Hl2 x Hx Hxn). lia.
    + apply Z.ltb_ge in Hlt. right. exists r0. split; [|done].
      exists l1, (l2 ++ [r]). split; [by rewrite Hsplit, <- app_assoc|].
      split; [done|]. split; [done|].
      intros x [Hx| ->%list_elem_of_singleton]%elem_of_app Hxn;
        [by apply Hl2 | done].
    + right. exists r0. split; [|done].
      exists l1, (l2 ++ [r]). split; [by rewrite Hsplit, <- app_assoc|].
      split; [done|]. split; [done|].
      intros x [Hx| ->%list_elem_of_singleton]%elem_of_app Hxn;
        [by apply Hl2 | congruence].
Qed.

(** The order of the seconds: [<] on floats has no cycle. *)
Lemma SFltb_irrefl (x : spec_float) : SFltb x x = false.
Proof.
  unfold SFltb, SFcompare.
  destruct x as [s|s| |s m e]; try destruct s; try done;
    by rewrite Z.compare_refl, Pos.compare_cont_refl.
Qed.

Lemma SFltb_trans (x y z : spec_float) :
  SFltb x y = true → SFltb y z = true → SFltb x z = true.
Proof.
  unfold SFltb, SFcompare.
  destruct x as [sx|sx| |sx mx ex], y as [sy|sy| |sy my ey],
           z as [sz|sz| |sz mz ez];
    try destruct sx; try destruct sy; try destruct sz; try done;
    change (Pos.compare_cont Eq) with Pos.compare;
    destruct (Z.compare_spec ex ey), (Z.compare_spec ey ez),
             (Z.compare_spec ex ez); try done; try lia;
    destruct (Pos.compare_spec mx my), (Pos.compare_spec my mz),
             (Pos.compare_spec mx mz); simpl; try done; try lia.
Qed.

Lemma time_inv_step (races : list AthleteBuilder.race) (b b' : AthleteBuilder.bests)
    (r : AthleteBuilder.race) :
  time_inv races b → AthleteBuilder.time_step b r = inr b' →
  time_inv (races ++ [r]) b'.
Proof.
  unfold AthleteBuilder.time_step. fold (seconds_of r).
  intros Hinv Hstep.
  destruct (seconds_of r) as [e|[s|]] eqn:Hsec; simpl in Hstep; [done| |].
  - unfold AthleteBuilder.improves_time in Hstep.
    destruct Hinv as [(Ht & Hs & Hnone)|(r0 & s0 & (l1 & l2 & Hsplit & Hs0 & Hlow
                                          & Hfirst) & Ht & Hs)];
      rewrite Ht in Hstep.
    + injection Hstep as <-. right. exists r, s. split; [|done].
      exists races, []. split; [done|]. split; [done|]. split.
      * intros x s' [Hx| ->%list_elem_of_singleton]%elem_of_app Hx'.
        -- rewrite (Hnone x Hx) in Hx'. done.
        -- rewrite Hsec in Hx'. injection Hx' as <-. apply SFltb_irrefl.
      * intros x Hx. by rewrite (Hnone x Hx).
    + destruct (SFltb s s0) eqn:Hlt; injection Hstep as <-.
      * right. exists r, s. split; [|done].
        exists races, []. split; [done|]. split; [done|]. split.
        -- intros x s' [Hx| ->%list_elem_of_singleton]%elem_of_app Hx'.
           ++ destruct (SFltb s' s) eqn:Hlt'; [|done].
              pose proof (SFltb_trans _ _ _ Hlt' Hlt) as Hbad.
              by rewrite (Hlow x s' Hx Hx') in Hbad.
           ++ rewrite Hsec in Hx'. injection Hx' as <-. apply SFltb_irrefl.
        -- intros x Hx Hx'. rewrite (Hlow x s Hx Hx') in Hlt. done.
      * right. exists r0, s0. split; [|done].
        exists l1, (l2 ++ [r]). split; [by rewrite Hsplit, <- app_assoc|].
        split; [done|]. split; [|done].
        intros x s' [Hx| ->%list_elem_of_singleton]%elem_of_app Hx';
          [by eapply Hlow|].
        rewrite Hsec in Hx'. by injection Hx' as <-.
  - injection Hstep as <-.
    destruct Hinv as [(Ht & Hs & Hnone)|(r0 & s0 & (l1 & l2 & Hsplit & Hs0 & Hlow
                                          & Hfirst) & Ht & Hs)].
    + left. repeat split; try done.
      intros x [Hx| ->%list_elem_of_singleton]%elem_of_app; [by apply Hnone | done].
    + right. exists r0, s0. split; [|done].
      exists l1, (l2 ++ [r]). split; [by rewrite Hsplit, <- app_assoc|].
      split; [done|]. split; [|done].
      intros x s' [Hx| ->%list_elem_of_singleton]%elem_of_app Hx';
        [by eapply Hlow|].
      rewrite Hsec in Hx'. done.
Qed.

(** Each half of the body leaves the variables of the other half alone. *)
Lemma place_step_time (b : AthleteBuilder.bests) (r : AthleteBuilder.race) :
  AthleteBuilder.best_time (AthleteBuilder.place_step b r) = AthleteBuilder.best_time b
  ∧ AthleteBuilder.best_time_str (AthleteBuilder.place_step b r)
    = AthleteBuilder.best_time_str b.
Proof.
  unfold AthleteBuilder.place_step.
  destruct (Py.isdigit _); [destruct (AthleteBuilder.improves_place _ _)|]; done.
Qed.

Lemma time_step_place (b b' : AthleteBuilder.bests) (r : AthleteBuilder.race) :
  AthleteBuilder.time_step b r = inr b' →
  AthleteBuilder.best_place b' = AthleteBuilder.best_place b
  ∧ AthleteBuilder.best_place_str b' = AthleteBuilder.best_place_str b
  ∧ AthleteBuilder.best_place_meet b' = AthleteBuilder.best_place_meet b.
Proof.
  unfold AthleteBuilder.time_step.
  destruct (AthleteBuilder.parse_time_to_seconds _) as [e|[s|]]; simpl; [done| |].
  - destruct (AthleteBuilder.improves_time s b); by intros [= <-].
  - by intros [= <-].
Qed.

Lemma bio_loop_inv (races : list AthleteBuilder.race) (b : AthleteBuilder.bests) :
  AthleteBuilder.bio_loop AthleteBuilder.no_bests races = inr b →
  place_inv races b ∧ time_inv races b.
Proof.
  revert b. induction races as [|r races IH] using rev_ind; intros b.
  - simpl. intros [= <-]. split; left; repeat split; try done;
      by intros r ?%elem_of_nil.
  - rewrite bio_loop_app.
    destruct (AthleteBuilder.bio_loop _ races) as [e|b0]; [done|]. simpl.
    destruct (AthleteBuilder.time_step _ r) as [e|b1] eqn:Hstep; [done|]. simpl.
    intros [= <-]. destruct (IH b0 eq_refl) as [Hplace Htime].
    pose proof (place_inv_step races b0 r Hplace) as Hplace'.
    destruct (time_step_place _ _ _ Hstep) as (Hp & Hs & Hm).
    destruct (place_step_time b0 r) as (Ht & Hts).
    split.
    + unfold place_inv in *. by rewrite Hp, Hs, Hm.
    + apply (time_inv_step races (AthleteBuilder.place_step b0 r)); [|done].
      unfold time_inv in *. by rewrite Ht, Hts.
Qed.

(** X16 ([build_auto_bio], the best placement).  If the time of no race
    raises an exception, [build_auto_bio] returns its sentences joined by
    single spaces: the first sentence, the sentence of the best placement
    if there is one, the sentence of the best time if there is one, and the
    last sentence.  The sentence of the best placement is absent if no race
    has a numeric place.  Otherwise it is about the first of the races with
    the lowest numeric place: it gives the ordinal of that place and the
    meet of that race, and it is absent if that race has no meet name,
    whatever the other races are. *)
Theorem bio_best_placement (data : AthleteBuilder.athlete)
    (Htimes : Forall (λ r, ∃ v, seconds_of r = inr v) (AthleteBuilder.races data)) :
  ∃ b placement,
    AthleteBuilder.build_auto_bio data
    = inr (Py.join " "
        ([AthleteBuilder.intro_sentence data] ++ placement
         ++ AthleteBuilder.time_sentence b ++ [AthleteBuilder.closing_sentence]))
    ∧ ((∀ r, r ∈ AthleteBuilder.races data → race_numeric r = false)
       ∧ placement = []
       ∨ ∃ r, first_lowest_place (AthleteBuilder.races data) r
           ∧ placement =
             if Py.truthy (AthleteBuilder.meet r)
             then ["The best placement in these results is "
                   +:+ (Py.str_of_int (race_place_value r)
                        +:+ english_suffix (race_place_value r))
                   +:+ " at " +:+ AthleteBuilder.meet r +:+ "."]
             else []).
Proof.
  destruct (bio_loop_returns _ AthleteBuilder.no_bests Htimes) as [b Hb].
  destruct (bio_loop_inv _ _ Hb) as [Hplace _].
  exists b, (AthleteBuilder.placement_sentence b). split.
  { unfold AthleteBuilder.build_auto_bio. by rewrite Hb. }
  unfold AthleteBuilder.placement_sentence.
  destruct Hplace as [(Hp & Hs & Hm & Hnone)|(r & Hfirst & Hp & Hs & Hm)].
  - left. split; [exact Hnone|]. by rewrite Hs.
  - right. exists r. split; [exact Hfirst|].
    destruct Hfirst as (l1 & l2 & _ & Hnum & _).
    destruct (ordinal_of_place_text r Hnum) as [Hord Htruthy].
    rewrite Hs, Hm. simpl. rewrite Htruthy, Hord. done.
Qed.

Lemma bio_best_placement_witness :
  ∃ b placement,
    AthleteBuilder.build_auto_bio sample_athlete
    = inr (Py.join " "
        ([AthleteBuilder.intro_sentence sample_athlete] ++ placement
         ++ AthleteBuilder.time_sentence b ++ [AthleteBuilder.closing_sentence]))
    ∧ ((∀ r, r ∈ AthleteBuilder.races sample_athlete → race_numeric r = false)
       ∧ placement = []
       ∨ ∃ r, first_lowest_place (AthleteBuilder.races sample_athlete) r
           ∧ placement =
             if Py.truthy (AthleteBuilder.meet r)
             then ["The best placement in these results is "
                   +:+ (Py.str_of_int (race_place_value r)
                        +:+ english_suffix (race_place_value r))
                   +:+ " at " +:+ AthleteBuilder.meet r +:+ "."]
             else []).
Proof.
  apply (bio_best_placement sample_athlete).
  repeat (constructor; [eexists; vm_compute; reflexivity|]). constructor.
Defined.

(** X17 ([build_auto_bio], the best time).  Under the same condition, the
    sentence of the best time is absent if the time of no race can be read.
    Otherwise it is about the first of the races with the lowest time: no
    race has a time below it and no race before it has the same, and the
    sentence gives the time of that race as it is written in the file,
    annotations included. *)
Theorem bio_best_time (data : AthleteBuilder.athlete)
    (Htimes : Forall (λ r, ∃ v, seconds_of r = inr v) (AthleteBuilder.races data)) :
  ∃ b timing,
    AthleteBuilder.build_auto_bio data
    = inr (Py.join " "
        ([AthleteBuilder.intro_sentence data]
         ++ AthleteBuilder.placement_sentence b ++ timing
         ++ [AthleteBuilder.closing_sentence]))
    ∧ ((∀ r, r ∈ AthleteBuilder.races data → seconds_of r = inr None)
       ∧ timing = []
       ∨ ∃ r s, first_lowest_time (AthleteBuilder.races data) r s
           ∧ timing = ["The best recorded time in these results is "
                       +:+ AthleteBuilder.time r +:+ "."]).
Proof.
  destruct (bio_loop_returns _ AthleteBuilder.no_bests Htimes) as [b Hb].
  destruct (bio_loop_inv _ _ Hb) as [_ Htime].
  exists b, (AthleteBuilder.time_sentence b). split.
  { unfold AthleteBuilder.build_auto_bio. by rewrite Hb. }
  unfold AthleteBuilder.time_sentence.
  destruct Htime as [(Ht & Hs & Hnone)|(r & s & Hfirst & Ht & Hs)].
  - left. split; [exact Hnone|]. by rewrite Hs.
  - right. exists r, s. split; [exact Hfirst|].
    destruct Hfirst as (l1 & l2 & _ & Hsec & _).
    rewrite Hs. simpl.
    unfold seconds_of, AthleteBuilder.parse_time_to_seconds in Hsec.
    destruct (Py.truthy (AthleteBuilder.time r)); [done|]. simpl in Hsec. done.
Qed.

Lemma bio_best_time_witness :
  ∃ b timing,
    AthleteBuilder.build_auto_bio sample_athlete
    = inr (Py.join " "
        ([AthleteBuilder.intro_sentence sample_athlete]
         ++ AthleteBuilder.placement_sentence b ++ timing
         ++ [AthleteBuilder.closing_sentence]))
    ∧ ((∀ r, r ∈ AthleteBuilder.races sample_athlete → seconds_of r = inr None)
       ∧ timing = []
       ∨ ∃ r s, first_lowest_time (AthleteBuilder.races sample_athlete) r s
           ∧ timing = ["The best recorded time in these results is "
                       +:+ AthleteBuilder.time r +:+ "."]).
Proof.
  apply (bio_best_time sample_athlete).
  repeat (constructor; [eexists; vm_compute; reflexivity|]). constructor.
Defined.

(** ** Race pages: the number of the meet *)

Lemma after_prefix_spec (p s r : string) :
  RacePage.after_prefix p s = Some r ↔ s = p +:+ r.
Proof.
  revert s. induction p as [|a p IH]; intros s; simpl.
  - split; [by intros [= ->] | by intros ->].
  - rewrite append_cons. destruct s as [|b s]; [done|].
    unfold Py.chr_eqb. destruct (Ascii.eqb a b) eqn:Hab.
    + apply Ascii.eqb_eq in Hab as ->. rewrite IH.
      split; [by intros -> | by intros [= ->]].
    + apply Ascii.eqb_neq in Hab. split; [done | by intros [= <- _]].
Qed.

Lemma digits_prefix_split (s : string) :
  ∃ post, s = RacePage.digits_prefix s +:+ post
    ∧ Py.all_chars Py.chr_isdigit (RacePage.digits_prefix s) = true
    ∧ starts_with_digit post = false.
Proof.
  induction s as [|c r (post & Hr & Hall & Hpost)]; simpl.
  - by exists EmptyString.
  - destruct (Py.chr_isdigit c) eqn:Hc.
    + exists post. rewrite append_cons, <- Hr. simpl. by rewrite Hc.
    + exists (String c r). simpl. by rewrite Hc.
Qed.

Lemma digits_prefix_append (d post : string) :
  Py.all_chars Py.chr_isdigit d = true → starts_with_digit post = false →
  RacePage.digits_prefix (d +:+ post) = d.
Proof.
  intros Hd Hpost. induction d as [|c d IH].
  - destruct post as [|c r]; [done|]. simpl in *. by rewrite Hpost.
  - simpl in Hd. apply andb_prop in Hd as [Hc Hd]. rewrite append_cons. simpl.
    by rewrite Hc, IH.
Qed.

(** Where the pattern matches at the head of a text. *)
Lemma meet_id_match_spec (s id : string) :
  RacePage.meet_id_match s = Some id ↔
  ∃ post, s = "/meet/" +:+ id +:+ post
    ∧ Py.isdigit id = true ∧ starts_with_digit post = false.
Proof.
  unfold RacePage.meet_id_match. split.
  - destruct (RacePage.after_prefix "/meet/" s) as [r|] eqn:Hr; [|done].
    apply after_prefix_spec in Hr.
    destruct (digits_prefix_split r) as (post & Hsplit & Hall & Hpost).
    destruct (Py.truthy (RacePage.digits_prefix r)) eqn:Ht; [|done].
    intros [= <-]. exists post. split; [by rewrite <- Hsplit|].
    split; [|done]. unfold Py.isdigit. by rewrite Ht, Hall.
  - intros (post & -> & Hid & Hpost).
    assert (Hr : RacePage.after_prefix "/meet/" ("/meet/" +:+ id +:+ post)
                 = Some (id +:+ post)) by by apply after_prefix_spec.
    rewrite Hr. unfold Py.isdigit in Hid. apply andb_prop in Hid as [Ht Hall].
    by rewrite (digits_prefix_append id post Hall Hpost), Ht.
Qed.

Lemma extract_at_head (s d : string) :
  RacePage.meet_id_match s = Some d → RacePage.extract_meet_id s = Some d.
Proof. intros H. destruct s; cbn [RacePage.extract_meet_id]; by rewrite H. Qed.

(** X18 ([extract_meet_id]).  The function returns [id] if and only if the
    address reads: some text, then [/meet/], then the digit string [id],
    then a text that does not go on with a digit, where [/meet/] followed
    by a digit occurs nowhere earlier in the address.  So the result is
    the whole number behind the first [/meet/] that has a number behind
    it; and the function returns [None] if and only if there is no such
    place in the address. *)
Theorem meet_id_is_first_number (url : string) :
  (∀ id, RacePage.extract_meet_id url = Some id ↔
     ∃ pre post, url = pre +:+ "/meet/" +:+ id +:+ post
       ∧ Py.isdigit id = true
       ∧ starts_with_digit post = false
       ∧ ∀ k, (k < String.length pre)%nat →
           RacePage.meet_id_match (string_drop k url) = None)
  ∧ (RacePage.extract_meet_id url = None ↔
     ∀ k, RacePage.meet_id_match (string_drop k url) = None).
Proof.
  split.
  - intros id. split.
    + induction url as [|c r IH].
      * simpl. done.
      * cbn [RacePage.extract_meet_id].
        destruct (RacePage.meet_id_match (String c r)) as [d|] eqn:Hm.
        -- intros [= ->]. apply meet_id_match_spec in Hm as (post & Hurl & Hid & Hpost).
           exists EmptyString, post. split; [done|]. split; [done|].
           split; [done|]. intros k Hk. simpl in Hk. lia.
        -- intros (pre & post & Hurl & Hid & Hpost & Hfirst)%IH.
           exists (String c pre), post. rewrite append_cons, <- Hurl.
           split; [done|]. split; [done|]. split; [done|].
           intros [|k] Hk; [exact Hm|]. simpl in *. apply Hfirst. lia.
    + intros (pre & post & Hurl & Hid & Hpost & Hfirst). subst url.
      induction pre as [|c pre IH].
      * apply extract_at_head, meet_id_match_spec. by exists post.
      * rewrite append_cons. cbn [RacePage.extract_meet_id].
        pose proof (Hfirst O ltac:(simpl; lia)) as H0.
        rewrite append_cons in H0. simpl in H0. rewrite H0.
        apply IH. intros k Hk.
        specialize (Hfirst (S k) ltac:(simpl; lia)).
        by rewrite append_cons in Hfirst.
  - induction url as [|c r IH].
    + simpl. split; [|done]. intros _ [|k]; done.
    + cbn [RacePage.extract_meet_id].
      destruct (RacePage.meet_id_match (String c r)) as [d|] eqn:Hm.
      * split; [done|]. intros Hall. specialize (Hall O). simpl in Hall.
        congruence.
      * rewrite IH. split.
        -- intros Hall [|k]; [exact Hm | apply Hall].
        -- intros Hall k. apply (Hall (S k)).
Qed.

Lemma meet_id_is_first_number_witness :
  RacePage.extract_meet_id
    "https://www.athletic.net/meet/x/CrossCountry/meet/235827x/meet/7"
  = Some "235827".
Proof.
  apply (meet_id_is_first_number
    "https://www.athletic.net/meet/x/CrossCountry/meet/235827x/meet/7").
  exists "https://www.athletic.net/meet/x/CrossCountry", "x/meet/7".
  split; [reflexivity|]. split; [reflexivity|]. split; [reflexivity|].
  intros k Hk. simpl in Hk.
  do 44 (destruct k as [|k]; [reflexivity|]). lia.
Defined.

(** ** Athlete pages: which files give a page *)






(** ** The home page: the meets it lists *)

Lemma dict_set_keys (k : string) (v : HomeBuilder.race_info)
    (d : list (string * HomeBuilder.race_info)) :
  map fst (HomeBuilder.dict_set k v d)
  = if decide (k ∈ map fst d) then map fst d else map fst d ++ [k].
Proof.
  induction d as [|[k' v'] d IH]; simpl; [done|].
  destruct (String.eqb k' k) eqn:Hk; simpl.
  - apply String.eqb_eq in Hk. subst k'. rewrite decide_True; [done | left].
  - apply String.eqb_neq in Hk. rewrite IH.
    destruct (decide (k ∈ map fst d)) as [Hin|Hout].
    + rewrite decide_True; [done | by right].
    + rewrite decide_False; [done|].
      intros Hin. apply elem_of_cons in Hin as [->|Hin]; done.
Qed.

Lemma dict_set_elem (k : string) (v : HomeBuilder.race_info)
    (d : list (string * HomeBuilder.race_info)) (n : string)
    (info : HomeBuilder.race_info) :
  NoDup (map fst d) → (n, info) ∈ HomeBuilder.dict_set k v d →
  (n = k ∧ info = v) ∨ (n ≠ k ∧ (n, info) ∈ d).
Proof.
  induction d as [|[k' v'] d IH]; simpl; intros Hnd Hin.
  - apply list_elem_of_singleton in Hin as [= -> ->]. by left.
  - apply NoDup_cons in Hnd as [Hk' Hnd].
    destruct (String.eqb k' k) eqn:Hk.
    + apply String.eqb_eq in Hk. subst k'.
      apply elem_of_cons in Hin as [[= -> ->]|Hin]; [by left|].
      right. split; [|by right]. intros ->. apply Hk'.
      apply list_elem_of_fmap. by exists (k, info).
    + apply String.eqb_neq in Hk.
      apply elem_of_cons in Hin as [[= -> ->]|Hin].
      * right. split; [done | left].
      * destruct (IH Hnd Hin) as [?|[? ?]]; [by left|].
        right. split; [done | by right].
Qed.

(** X20 (the loop of [home_builder.py] over the meet files).  The meets of
    the home page go by their names.  [recent_races] has one entry for
    each name that is the first line of a file that is read and not
    skipped, and no name twice; the entry of a name holds the date, the
    Skyline rows and the address of the page of the last such file with
    that name, so of two files with the same first line the one that
    comes first leaves no trace.  A file that is not a [.csv] file, or
    that is skipped, changes nothing. *)
Theorem recent_races_last_file_wins
    (csv_reader : list string → list (list string))
    (files : list (string * list string)) :
  let recent := HomeBuilder.recent_races csv_reader files in
  let read := read_files csv_reader files in
  NoDup (map fst recent)
  ∧ (∀ n, n ∈ map fst recent ↔ ∃ x, x ∈ read ∧ HomeBuilder.meet_name x.2 = n)
  ∧ (∀ n info, (n, info) ∈ recent →
       ∃ l1 x l2, read = l1 ++ x :: l2
         ∧ HomeBuilder.meet_name x.2 = n
         ∧ Forall (λ y, HomeBuilder.meet_name y.2 ≠ n) l2
         ∧ info = info_of x).
Proof.
  simpl. unfold HomeBuilder.recent_races, read_files.
  induction files as [|file files (Hnd & Hkeys & Hlast)] using rev_ind.
  - simpl. split; [constructor|]. split.
    + intros n. split; [by intros ?%elem_of_nil|].
      by intros (x & ?%elem_of_nil & _).
    + by intros n info ?%elem_of_nil.
  - rewrite foldl_app, omap_app. simpl.
    set (recent := foldl _ [] files) in *.
    set (read := omap _ files) in *.
    unfold HomeBuilder.loop_body.
    destruct (HomeBuilder.is_csv file.1); simpl;
      [|by rewrite app_nil_r].
    destruct (HomeBuilder.process_file csv_reader file.2) as [skip|entry];
      simpl; [by rewrite app_nil_r|].
    set (v := HomeBuilder.RaceInfo _ _ _).
    split; [|split].
    + rewrite dict_set_keys.
      destruct (decide (HomeBuilder.meet_name entry ∈ map fst recent)); [done|].
      apply NoDup_app. split; [done|]. split; [|apply NoDup_singleton].
      intros x Hx ->%list_elem_of_singleton. done.
    + intros n. rewrite dict_set_keys.
      assert (Hiff : n ∈ map fst recent ++ [HomeBuilder.meet_name entry]
                ↔ ∃ x, x ∈ read ++ [(file.1, entry)]
                       ∧ HomeBuilder.meet_name x.2 = n).
      { rewrite elem_of_app, Hkeys, list_elem_of_singleton. split.
        - intros [(x & Hx & <-)| ->].
          + exists x. split; [apply elem_of_app; by left | done].
          + exists (file.1, entry). split; [apply elem_of_app; right; by left | done].
        - intros (x & [Hx| ->%list_elem_of_singleton]%elem_of_app & <-);
            [left; eauto | by right]. }
      destruct (decide (HomeBuilder.meet_name entry ∈ map fst recent)) as [Hin|Hout];
        [|exact Hiff].
      rewrite <- Hiff, elem_of_app, list_elem_of_singleton. split; [by left|].
      intros [?| ->]; done.
    + intros n info Hin.
      destruct (dict_set_elem _ _ _ _ _ Hnd Hin) as [[-> ->]|[Hne Hin']].
      * exists read, (file.1, entry), []. repeat split; done.
      * destruct (Hlast n info Hin') as (l1 & x & l2 & Hread & Hn & Hl2 & Hinfo).
        exists l1, x, (l2 ++ [(file.1, entry)]).
        split; [by rewrite Hread, <- app_assoc|]. split; [done|].
        split; [|done]. apply Forall_app. split; [done|].
        constructor; [|constructor]. simpl. congruence.
Qed.

(** X21 (the articles of the home page).  The top runners of a meet are
    the first four of its Skyline rows in the order of their place keys,
    or all of them where there are fewer: the Skyline rows of the file are
    the rows that are shown and the rows that are not, and no row that is
    not shown has a place key below that of a row that is shown. *)
Theorem top_runners_are_best (csv_reader : list string → list (list string))
    (filename : string) (lines : list string) (entry : HomeBuilder.recent_race)
    (Hentry : HomeBuilder.process_file csv_reader lines = inr entry) :
  ∃ shown rest,
    HomeBuilder.top_runners (info_of (filename, entry))
    = map HomeBuilder.top_runner_of shown
    ∧ filter (team_is "Ann Arbor Skyline") (HomeBuilder.indiv_dicts entry)
      ≡ₚ shown ++ rest
    ∧ length shown = (4 `min` length (shown ++ rest))%nat
    ∧ StronglySorted (key_le MeetLines.place_key) shown
    ∧ ∀ r r', r ∈ shown → r' ∈ rest →
        MeetLines.place_key r <= MeetLines.place_key r'.
Proof.
  destruct (home_process_file_inv _ _ _ Hentry)
    as (i & j & header & row & data & _ & _ & _ & _ & _ & Hsky).
  rewrite skyline_of_sorted_filter in Hsky.
  exists (take 4 (HomeBuilder.skyline entry)), (drop 4 (HomeBuilder.skyline entry)).
  pose proof (sort_by_sorted MeetLines.place_key
                (filter (team_is HomeBuilder.SKYLINE_TEAM_NAME)
                   (HomeBuilder.indiv_dicts entry))) as Hsorted.
  rewrite <- Hsky in Hsorted.
  split; [done|]. rewrite take_drop.
  split; [by rewrite Hsky, sort_by_perm|].
  split; [apply length_take|].
  rewrite <- (take_drop 4 (HomeBuilder.skyline entry)) in Hsorted.
  split; [by apply StronglySorted_app_1_l in Hsorted|].
  intros r r' Hr Hr'. by apply (StronglySorted_app_1_elem_of _ _ _ _ _ Hsorted).
Qed.

Lemma top_runners_are_best_witness :
  ∃ entry shown rest,
    HomeBuilder.process_file Csv.reader sample_meet_lines = inr entry
    ∧ HomeBuilder.top_runners (info_of ("sample.csv", entry))
      = map HomeBuilder.top_runner_of shown
    ∧ filter (team_is "Ann Arbor Skyline") (HomeBuilder.indiv_dicts entry)
      ≡ₚ shown ++ rest.
Proof.
  destruct (HomeBuilder.process_file Csv.reader sample_meet_lines)
    as [skip|entry] eqn:Hentry; [vm_compute in Hentry; discriminate|].
  destruct (top_runners_are_best Csv.reader "sample.csv" sample_meet_lines
              entry Hentry) as (shown & rest & Htop & Hperm & _).
  by exists entry, shown, rest.
Defined.

(** ** The home page: the address of the page of a meet *)

Lemma length_append (a b : string) :
  String.length (a +:+ b) = (String.length a + String.length b)%nat.
Proof.
  induction a as [|c a IH]; [done|]. rewrite append_cons. simpl. by rewrite IH.
Qed.

Lemma length_lower (s : string) : String.length (Py.lower s) = String.length s.
Proof. induction s as [|c s IH]; simpl; [done | by rewrite IH]. Qed.

Lemma length_substring_le (m : nat) (s : string) :
  (String.length (String.substring 0 m s) <= m)%nat.
Proof.
  revert s. induction m as [|m IH]; intros [|c s]; simpl; try lia.
  specialize (IH s). lia.
Qed.

Lemma substring_append (a b : string) :
  String.substring 0 (String.length a) (a +:+ b) = a.
Proof.
  induction a as [|c a IH]; [by destruct b|].
  rewrite append_cons. simpl. by rewrite IH.
Qed.

(** [replace] leaves a text without an occurrence as it is. *)
Lemma replace_absent (old new s : string) :
  Py.contains old s = false → Py.replace old new s = s.
Proof.
  unfold Py.replace, Py.re_sub.
  destruct old as [|a old]; [by destruct s|].
  induction s as [|c r IH]; [done|].
  cbn [Py.contains Py.re_sub_go]. intros [Hhead Hrest]%orb_false_elim.
  rewrite Hhead. by rewrite IH.
Qed.

Lemma startswith_csv_app (c : ascii) (r : string) :
  Py.startswith ".csv" (String c r +:+ ".csv") = Py.startswith ".csv" (String c r).
Proof.
  destruct r as [|b [|d [|e r]]]; rewrite ?append_cons; simpl;
    rewrite ?andb_false_r; done.
Qed.

(** It takes the extension off a name that has [.csv] at its end only. *)
Lemma replace_csv_suffix (base : string) :
  Py.contains ".csv" base = false →
  Py.replace ".csv" EmptyString (base +:+ ".csv") = base.
Proof.
  unfold Py.replace, Py.re_sub.
  induction base as [|c r IH]; [done|].
  cbn [Py.contains]. intros [Hhead Hrest]%orb_false_elim.
  pose proof (startswith_csv_app c r) as Happ. rewrite Hhead in Happ.
  rewrite append_cons in Happ |- *. cbn [Py.re_sub_go]. rewrite Happ.
  by rewrite IH.
Qed.

(** X22 (the address [home_builder.py] gives the page of a meet, and the
    name [meet_builder.py] writes the page under).  For a file whose name
    has [.csv] at its end and nowhere else, the address is the folder of
    the meets and the name of the page.  For a file that both scripts
    read but whose name has no [.csv] in small letters, as with the
    extension in capitals, the address keeps the whole name of the file
    and is not the name of the page. *)
Theorem race_page_address :
  (∀ base, Py.contains ".csv" base = false →
     HomeBuilder.race_html_of (base +:+ ".csv")
     = HomeBuilder.MEETS_DIR +:+ "/" +:+ MeetBuilder.output_file (base +:+ ".csv"))
  ∧ (∀ filename,
       HomeBuilder.is_csv filename = true → MeetBuilder.is_csv filename = true →
       Py.contains ".csv" filename = false →
       HomeBuilder.race_html_of filename
       = HomeBuilder.MEETS_DIR +:+ "/" +:+ filename +:+ "_race_page.html"
       ∧ HomeBuilder.race_html_of filename
         ≠ HomeBuilder.MEETS_DIR +:+ "/" +:+ MeetBuilder.output_file filename).
Proof.
  split.
  - intros base Hbase.
    unfold HomeBuilder.race_html_of, MeetBuilder.output_file, Py.slice_to_minus.
    rewrite (replace_csv_suffix base Hbase), length_append. simpl String.length.
    by rewrite Nat.add_sub, substring_append.
  - intros filename Hcsv _ Habsent.
    unfold HomeBuilder.race_html_of, MeetBuilder.output_file, Py.slice_to_minus.
    rewrite (replace_absent _ _ _ Habsent). split; [done|].
    intros Heq. apply (f_equal String.length) in Heq.
    rewrite !length_append in Heq.
    unfold HomeBuilder.is_csv, Py.endswith in Hcsv.
    apply andb_prop in Hcsv as [Hlen _]. apply Nat.leb_le in Hlen.
    rewrite length_lower in Hlen. simpl in Hlen.
    pose proof (length_substring_le (String.length filename - 4) filename).
    change (String.length MeetBuilder.OUTPUT_SUFFIX)
      with (String.length "_race_page.html") in Heq.
    lia.
Qed.

Lemma race_page_address_witness :
  HomeBuilder.race_html_of "Regional.CSV" = "meets/Regional.CSV_race_page.html"
  ∧ MeetBuilder.output_file "Regional.CSV" = "Regional_race_page.html".
Proof.
  split; [|reflexivity].
  apply (proj2 race_page_address "Regional.CSV"); reflexivity.
Defined.

(** ** Athlete pages: from the file to the tables *)

Lemma rstrip_by_idem (p : ascii → bool) (s : string) :
  Py.rstrip_by p (Py.rstrip_by p s) = Py.rstrip_by p s.
Proof.
  induction s as [|c r IH]; simpl; [done|].
  destruct (Py.rstrip_by p r) as [|a t] eqn:Hr.
  - destruct (p c) eqn:Hc; simpl; [done | by rewrite Hc].
  - cbn [Py.rstrip_by]. cbn [Py.rstrip_by] in IH. by rewrite IH.
Qed.

Lemma lstrip_by_head (p : ascii → bool) (s : string) :
  Py.lstrip_by p s = EmptyString
  ∨ ∃ c r, Py.lstrip_by p s = String c r ∧ p c = false.
Proof.
  induction s as [|c r IH]; simpl; [by left|].
  destruct (p c) eqn:Hc; [exact IH | right; eauto].
Qed.

Lemma strip_idem (s : string) : Py.strip (Py.strip s) = Py.strip s.
Proof.
  unfold Py.strip.
  assert (Hl : Py.lstrip_by Py.chr_isspace
                 (Py.rstrip_by Py.chr_isspace (Py.lstrip_by Py.chr_isspace s))
               = Py.rstrip_by Py.chr_isspace (Py.lstrip_by Py.chr_isspace s)).
  { destruct (lstrip_by_head Py.chr_isspace s) as [->|(c & r & -> & Hc)]; [done|].
    cbn [Py.rstrip_by].
    destruct (Py.rstrip_by Py.chr_isspace r); rewrite ?Hc; simpl; by rewrite Hc. }
  by rewrite Hl, rstrip_by_idem.
Qed.

(** A grade that is trimmed and not empty is its own label. *)
Lemma group_label_trimmed (r : AthleteBuilder.race) (x : string) :
  AthleteBuilder.grade r = Py.strip x → Py.truthy (AthleteBuilder.grade r) = true →
  AthleteBuilder.group_label r = AthleteBuilder.grade r.
Proof.
  intros Hg Ht. unfold AthleteBuilder.group_label.
  rewrite Hg, strip_idem, <- Hg. simpl. by rewrite Ht.
Qed.

Lemma race_of_grade (dr : gmap string string) (r : AthleteBuilder.race) :
  race_of dr = Some r →
  AthleteBuilder.grade r = Py.strip (AthleteBuilder.safe_get dr "Grade").
Proof.
  unfold race_of, AthleteBuilder.classify.
  destruct (Py.isdigit _ && _ && Py.truthy _); [discriminate|].
  destruct (Py.truthy (Py.strip (AthleteBuilder.safe_get dr "Meet")));
    [|discriminate].
  by intros [= <-].
Qed.

Lemma season_of_grade (dr : gmap string string) (x : AthleteBuilder.season_record) :
  season_of dr = Some x →
  AthleteBuilder.sr_grade x = Py.strip (AthleteBuilder.safe_get dr "Grade")
  ∧ Py.truthy (AthleteBuilder.sr_grade x) = true.
Proof.
  intros Hx. split; [|by apply season_of_digits in Hx as [_ ?]].
  revert Hx. unfold season_of, AthleteBuilder.classify.
  destruct (Py.isdigit _ && _ && Py.truthy _); [by intros [= <-]|].
  by destruct (Py.truthy (Py.strip (AthleteBuilder.safe_get dr "Meet"))).
Qed.

(** Every race is in the table of its label. *)
Lemma race_in_its_table (races : list AthleteBuilder.race) (r : AthleteBuilder.race) :
  r ∈ races →
  ∃ t, t ∈ AthleteBuilder.build_grade_tables races
    ∧ AthleteBuilder.table_grade t = AthleteBuilder.group_label r
    ∧ r ∈ AthleteBuilder.table_rows t.
Proof.
  intros Hr. unfold AthleteBuilder.build_grade_tables.
  destruct (by_grade_of_spec races) as (_ & Hget & Hkeys).
  set (d := AthleteBuilder.by_grade_of races) in *.
  eexists. split; [|split].
  - apply list_elem_of_fmap. exists (AthleteBuilder.group_label r).
    split; [reflexivity|].
    unfold AthleteBuilder.grade_keys_of. rewrite sort_by_perm.
    apply Hkeys. eauto.
  - done.
  - simpl. rewrite sort_by_perm, Hget. by apply list_elem_of_filter.
Qed.

(** X23 ([parse_athlete_csv], then [build_grade_tables]).  On the page of
    an athlete every race of the file stands in a table, and the table is
    that of the grade the row has in the file; a race whose grade is blank
    in the file stands in the table of the most recent grade when the file
    has a season record, and in the table [Other] when it has none. *)
Theorem races_tabled_by_grade (rows : list (list string))
    (c : AthleteBuilder.classified) (a : AthleteBuilder.athlete)
    (Hc : AthleteBuilder.read_rows rows = inr c)
    (Ha : AthleteBuilder.parse_athlete_csv rows = inr a) :
  ∀ i r0, AthleteBuilder.c_races c !! i = Some r0 →
    ∃ r t, AthleteBuilder.races a !! i = Some r
      ∧ t ∈ AthleteBuilder.build_grade_tables (AthleteBuilder.races a)
      ∧ r ∈ AthleteBuilder.table_rows t
      ∧ AthleteBuilder.table_grade t
        = if Py.truthy (AthleteBuilder.grade r0) then AthleteBuilder.grade r0
          else Py.default_or (AthleteBuilder.most_recent_grade a) "Other".
Proof.
  intros i r0 Hi.
  unfold AthleteBuilder.parse_athlete_csv in Ha. rewrite Hc in Ha.
  simpl in Ha. injection Ha as <-. simpl.
  destruct (read_rows_inv rows c Hc) as (idx & header & _ & Hseasons & Hraces).
  simpl in Hseasons, Hraces.
  set (mrg := AthleteBuilder.most_recent_grade_of (AthleteBuilder.c_season_records c)).
  destruct (backfill_lookup mrg _ i r0 Hi) as (r & Hr & _ & _ & _ & _ & Hgrade).
  assert (Hin : r ∈ AthleteBuilder.backfill mrg (AthleteBuilder.c_races c))
    by (by eapply list_elem_of_lookup_2).
  destruct (race_in_its_table _ r Hin) as (t & Ht & Hkey & Hrow).
  exists r, t. split; [done|]. split; [done|]. split; [done|].
  rewrite Hkey.
  assert (Hr0 : ∃ x, AthleteBuilder.grade r0 = Py.strip x).
  { apply list_elem_of_lookup_2 in Hi. rewrite Hraces in Hi.
    apply list_elem_of_omap in Hi as (dr & _ & Hdr).
    eexists. by apply race_of_grade in Hdr. }
  destruct Hr0 as [x Hx].
  destruct (Py.truthy (AthleteBuilder.grade r0)) eqn:Ht0.
  - rewrite <- Hgrade. apply (group_label_trimmed r x); rewrite Hgrade; done.
  - destruct mrg as [g|] eqn:Hmrg; simpl in Hgrade |- *.
    + rewrite <- Hgrade.
      unfold mrg, AthleteBuilder.most_recent_grade_of in Hmrg.
      destruct (AthleteBuilder.c_season_records c) as [|s0 seasons] eqn:Hs;
        [discriminate|].
      destruct (Py.last_item _) as [s|] eqn:Hlast; [|discriminate].
      injection Hmrg as <-.
      assert (Hs_in : s ∈ s0 :: seasons).
      { rewrite <- (sort_by_perm AthleteBuilder.year_key (s0 :: seasons)).
        by apply last_Some_elem_of. }
      rewrite Hseasons in Hs_in.
      apply list_elem_of_omap in Hs_in as (dr & _ & Hdr).
      apply season_of_grade in Hdr as [Hsg Hst].
      apply (group_label_trimmed r (AthleteBuilder.safe_get dr "Grade"));
        rewrite Hgrade; done.
    + unfold AthleteBuilder.group_label. by rewrite Hgrade.
Qed.

Lemma races_tabled_by_grade_witness :
  ∃ c a r t,
    AthleteBuilder.read_rows sample_athlete_rows = inr c
    ∧ AthleteBuilder.parse_athlete_csv sample_athlete_rows = inr a
    ∧ AthleteBuilder.races a !! 1%nat = Some r
    ∧ t ∈ AthleteBuilder.build_grade_tables (AthleteBuilder.races a)
    ∧ r ∈ AthleteBuilder.table_rows t
    ∧ AthleteBuilder.table_grade t = "12".
Proof.
  destruct (AthleteBuilder.read_rows sample_athlete_rows) as [e|c] eqn:Hc;
    [vm_compute in Hc; discriminate|].
  destruct (AthleteBuilder.parse_athlete_csv sample_athlete_rows) as [e|a] eqn:Ha;
    [vm_compute in Ha; discriminate|].
  destruct (AthleteBuilder.c_races c !! 1%nat) as [r0|] eqn:Hr0;
    [|vm_compute in Hc; injection Hc as <-; vm_compute in Hr0; discriminate].
  destruct (races_tabled_by_grade sample_athlete_rows c a Hc Ha 1%nat r0 Hr0)
    as (r & t & Hr & Ht & Hrow & Hkey).
  exists c, a, r, t. repeat split; try done.
  rewrite Hkey. vm_compute in Hc, Ha. injection Hc as <-. injection Ha as <-.
  vm_compute in Hr0. injection Hr0 as <-. reflexivity.
Defined.

(** ** The home page: the roster *)

Lemma ascii_compare_spec (a b : ascii) :
  CompareSpec (a = b) (N_of_ascii a < N_of_ascii b)%N
    (N_of_ascii b < N_of_ascii a)%N (Ascii.compare a b).
Proof.
  unfold Ascii.compare.
  destruct (N.compare_spec (N_of_ascii a) (N_of_ascii b)) as [Heq| |];
    constructor; try done.
  by rewrite <- (ascii_N_embedding a), Heq, ascii_N_embedding.
Qed.

Lemma string_leb_trans (a b c : string) :
  String.leb a b = true → String.leb b c = true → String.leb a c = true.
Proof.
  unfold String.leb. revert b c.
  induction a as [|x a IH]; intros [|y b] [|z c]; simpl; try done.
  destruct (ascii_compare_spec x y) as [->|Hxy|Hxy]; [| |done].
  - destruct (ascii_compare_spec y z) as [->|Hyz|Hyz]; [apply IH|done|done].
  - destruct (ascii_compare_spec y z) as [->|Hyz|Hyz]; [| |done].
    + destruct (ascii_compare_spec x z) as [->|Hxz|Hxz]; [lia|done|lia].
    + destruct (ascii_compare_spec x z) as [->|Hxz|Hxz]; [lia|done|lia].
Qed.

Lemma insert_str_perm (x : string) (l : list string) : Py.insert_str x l ≡ₚ x :: l.
Proof.
  induction l as [|y l IH]; simpl; [done|].
  destruct (String.leb x y); [done|]. rewrite IH. apply Permutation_swap.
Qed.

Lemma sort_str_perm (l : list string) : Py.sort_str l ≡ₚ l.
Proof.
  induction l as [|x l IH]; simpl; [done|]. by rewrite insert_str_perm, IH.
Qed.

Lemma sort_str_sorted (l : list string) :
  StronglySorted (λ a b, String.leb a b = true) (Py.sort_str l).
Proof.
  induction l as [|x l IH]; simpl; [constructor|].
  induction IH as [|y l' Hs IH' Hall]; simpl; [repeat constructor|].
  destruct (String.leb x y) eqn:Hxy.
  - constructor; [by constructor|]. constructor; [done|].
    eapply Forall_impl; [exact Hall|]. intros z Hz. by eapply string_leb_trans.
  - constructor; [exact IH'|]. rewrite insert_str_perm.
    constructor; [|exact Hall].
    destruct (String.leb_total x y) as [H|H]; congruence.
Qed.

(** Sorted names that are all different ascend strictly. *)
Lemma sorted_strictly (l : list string) :
  StronglySorted (λ a b, String.leb a b = true) l → NoDup l →
  StronglySorted (λ a b, String.ltb a b = true) l.
Proof.
  induction 1 as [|x l Hs IH Hall]; intros Hnd; constructor.
  - apply IH. by apply NoDup_cons in Hnd as [_ ?].
  - apply NoDup_cons in Hnd as [Hx _].
    apply Forall_forall. intros y Hy.
    rewrite Forall_forall in Hall. specialize (Hall y Hy). simpl in Hall.
    unfold String.ltb. unfold String.leb in Hall.
    destruct (String.compare x y) eqn:Hc; try done.
    apply String.compare_eq_iff in Hc. by subst y.
Qed.

Lemma roster_has_spec (name : string) (roster : list (string * string)) :
  HomeBuilder.roster_has name roster = true ↔ name ∈ map fst roster.
Proof.
  unfold HomeBuilder.roster_has. induction roster as [|[k v] roster IH]; simpl.
  - split; [done | by intros ?%elem_of_nil].
  - rewrite orb_true_iff, IH, elem_of_cons, String.eqb_eq.
    split; (intros [?|?]; [by left | by right]).
Qed.

(** What [roster] holds after the loops have seen the names [names]. *)
Lemma roster_fold_spec (rows : list (gmap string string))
    (roster : list (string * string)) :
  let roster' := foldl HomeBuilder.roster_add roster rows in
  (NoDup (map fst roster) → NoDup (map fst roster'))
  ∧ (∀ name, name ∈ map fst roster'
       ↔ name ∈ map fst roster
         ∨ name ∈ map (λ r, MeetLines.safe_get r "Name" EmptyString) rows)
  ∧ (Forall (λ item, item.2 = HomeBuilder.roster_link item.1) roster →
     Forall (λ item, item.2 = HomeBuilder.roster_link item.1) roster').
Proof.
  simpl. revert roster. induction rows as [|r rows IH]; intros roster; simpl.
  - split; [done|]. split; [|done]. intros name. split; [by left|].
    by intros [?|?%elem_of_nil].
  - destruct (IH (HomeBuilder.roster_add roster r)) as (Hnd & Hin & Hlink).
    unfold HomeBuilder.roster_add in *.
    set (n := MeetLines.safe_get r "Name" EmptyString) in *.
    destruct (HomeBuilder.roster_has n roster) eqn:Hhas; simpl in *.
    + apply roster_has_spec in Hhas.
      split; [done|]. split; [|done]. intros name. rewrite Hin, elem_of_cons.
      split; [intros [?|?]; auto | intros [?|[->|?]]; auto].
    + assert (Hout : n ∉ map fst roster).
      { intros Hn. apply roster_has_spec in Hn. congruence. }
      split; [|split].
      * intros Hroster. apply Hnd. rewrite map_app. simpl.
        apply NoDup_app. split; [done|]. split; [|apply NoDup_singleton].
        by intros x Hx ->%list_elem_of_singleton.
      * intros name. rewrite Hin, map_app, elem_of_app, elem_of_cons. simpl.
        rewrite list_elem_of_singleton.
        split; [intros [[?|?]|?]; auto | intros [?|[?|?]]; auto].
      * intros Hroster. apply Hlink, Forall_app. split; [done|].
        by repeat constructor.
Qed.

Lemma roster_of_spec (recent_races : list (string * HomeBuilder.race_info)) :
  NoDup (map fst (HomeBuilder.roster_of recent_races))
  ∧ (∀ name, name ∈ map fst (HomeBuilder.roster_of recent_races)
       ↔ name ∈ skyline_names recent_races)
  ∧ Forall (λ item, item.2 = HomeBuilder.roster_link item.1)
      (HomeBuilder.roster_of recent_races).
Proof.
  unfold HomeBuilder.roster_of, skyline_names.
  induction recent_races as [|item items (Hnd & Hin & Hlink)] using rev_ind.
  - simpl. split; [constructor|]. split; [done | constructor].
  - rewrite foldl_app, map_app, concat_app. simpl. rewrite app_nil_r.
    set (roster := foldl _ [] items) in *.
    destruct (roster_fold_spec (HomeBuilder.info_skyline item.2) roster)
      as (Hnd' & Hin' & Hlink').
    split; [by apply Hnd'|]. split; [|by apply Hlink'].
    intros name. by rewrite Hin', Hin, elem_of_app.
Qed.

Lemma roster_get_link (name : string) (roster : list (string * string)) :
  Forall (λ item, item.2 = HomeBuilder.roster_link item.1) roster →
  name ∈ map fst roster →
  HomeBuilder.roster_get name roster = HomeBuilder.roster_link name.
Proof.
  induction 1 as [|[k v] roster Hitem _ IH]; simpl; [by intros ?%elem_of_nil|].
  destruct (String.eqb k name) eqn:Hk.
  - apply String.eqb_eq in Hk. by subst k.
  - apply String.eqb_neq in Hk. intros [?|?]%elem_of_cons; [done | by apply IH].
Qed.

(** X24 (the roster of the home page).  The roster has one line for each
    name that a Skyline row of one of the meets has, however many meets
    the runner has run, and no other line; the lines stand in the
    ascending order of the names, which sets capital letters before small
    ones; and the link of a line is the name in small letters with a
    hyphen for each space, followed by [.html]. *)
Theorem roster_lines_spec (recent_races : list (string * HomeBuilder.race_info)) :
  let lines := HomeBuilder.roster_lines recent_races in
  NoDup (map snd lines)
  ∧ (∀ name, name ∈ map snd lines ↔ name ∈ skyline_names recent_races)
  ∧ StronglySorted (λ a b, String.ltb a b = true) (map snd lines)
  ∧ Forall (λ line, line.1 = HomeBuilder.roster_link line.2) lines.
Proof.
  simpl. unfold HomeBuilder.roster_lines.
  destruct (roster_of_spec recent_races) as (Hnd & Hin & Hlink).
  set (roster := HomeBuilder.roster_of recent_races) in *.
  assert (Hnames : map snd (map (λ name, (HomeBuilder.roster_get name roster, name))
                     (Py.sort_str (map fst roster)))
                   = Py.sort_str (map fst roster)).
  { rewrite map_map. simpl. apply map_id. }
  rewrite Hnames.
  assert (Hnd' : NoDup (Py.sort_str (map fst roster)))
    by (by rewrite sort_str_perm).
  split; [done|]. split; [|split].
  - intros name. by rewrite sort_str_perm.
  - apply sorted_strictly; [apply sort_str_sorted | done].
  - apply Forall_map, Forall_forall. intros name Hname. simpl.
    apply roster_get_link; [done|]. by rewrite <- (sort_str_perm (map fst roster)).
Qed.
